(* ===== verification/_CoqProject ===== *)
-Q . S2P
Prelude.v
Store.v
Billing.v
Tickets.v
Pagos.v
Espacios.v
Catalogos.v
Reservas.v
Auth.v
Turnos.v
Roles.v
Empleados.v
Multas.v
Historial.v
Listados.v
Consultas.v
Concurrencia.v
Sistema.v
Rutas.v
