(* ===== verification/Prelude.v ===== *)
(** * Verification of the parking-lot REST API (parqueo-api)

    This development models the Express/MySQL service under
    [src/parqueo-api] and proves the properties that make its ticket
    lifecycle, billing, catalogues and access control correct, together
    with the facts that show where the code departs from what its
    specification promises.

    ** The program and how its parts interact

    Every HTTP route is one asynchronous controller function of
    [src/parqueo-api/src/controllers/*.controller.js].  A controller
    validates [req.body] / [req.params], runs SQL statements against one
    relational store, and answers with [res.status(..).json(..)].  The
    process keeps no state: all state is rows of the tables [Clientes],
    [Vehiculos], [Zonas], [Espacios], [Tarifas], [Tickets], [Pagos],
    [TiposPago], [Multas], [Reservas], [Usuarios], [Roles], [Empleados],
    [Turnos] and [HistorialAccesos].  Components interact only through
    those rows: [registrarEntrada] marks an [Espacios] row occupied that
    [registrarSalida] frees again; [registrarPago] reads the closed ticket
    and its [Tarifas] row; the delete controllers refuse rows that others
    still reference; [login] reads [Usuarios] and [Roles] and writes
    [HistorialAccesos].  [server.js] mounts the routers
    [src/routes/*.routes.js], which put the token check [verificarToken]
    (middlewares/auth.middleware.js) in front of every controller except
    register and login.

    ** Files, and how they correspond to the code (shallow embedding)

    - [Prelude] (this file): the early-return monad [res] in which the
      chains of [if (...) return res.status(..)] are written ([x <- c ;; k],
      [exigir], [de_opcion]); JavaScript truthiness of request fields; the
      SQL query shapes over a stdpp [gmap]: [existe] ([SELECT id ... WHERE
      P] then [rows.length > 0]), [existe_otro] (the same with [AND id !=
      ?]), [contar] ([COUNT( * )]) and [primero] ([rows[0]] of a scan in
      key order); [imagen] and [columna_unica], a column as a set and a
      column without repeated values; the hint databases and tactics.
    - [Store]: the schema.  One [Record] per table row, the database [Db]
      (one table per [gmap Z row] with its AUTO_INCREMENT counter, and the
      clock [NOW()] reads), the enumeration [Err] of the [error] strings of
      the JSON bodies, [Resp], and [ejecutar], which runs a controller and
      discards its writes on an early return (the [rollback()] of the
      transactional controllers).
    - [Billing]: [TIMESTAMPDIFF(MINUTE)], [CEIL(m / 60.0)], the amount and
      the change, in seconds and cents.
    - [Tickets]: [registrarEntrada] and [registrarSalida].  [Pagos]:
      [registrarPago].  [Espacios]: the four writers of [Espacios]; the
      availability flag is the TINYINT MySQL stores ([tinyint] in [Store]
      turns the JSON value of the request into it, and an integer out of
      [-128 .. 127] is the strict-mode error the [catch] answers with 500).
    - [Catalogos]: clients, vehicles, zones, tariffs and payment types,
      every creating, updating and deleting controller.
    - [Reservas]: [crearReserva] with its overlap query, [actualizarReserva],
      [cancelarReserva], [finalizarReserva].
    - [Auth]: [verificarToken], [verificarRol], [registrar], [login],
      [logout], proved against the class [Cripto] that states what the
      code relies on from bcryptjs and jsonwebtoken; [Cripto_demo] is an
      executable instance.
    - [Turnos]: the three shift controllers and the regular expression
      [HH:MM:SS] as a character test [hora_regex].
    - [Roles]: the role controllers and the abstract contract they
      implement: a set of distinct names with [alta_abs], [renombrar_abs]
      and [baja_abs], whose refusals are the 409 answers.
    - [Empleados]: the four employee controllers.  [Multas]: the three
      fine controllers and the invariant of positive amounts.  [Historial]: [registrarAcceso] and
      [limpiarHistorial].
    - [Listados]: the reading controllers that compute something: the
      ticket, payment, access-log, reservation and fine listings (WHERE
      filters, ORDER BY as a stable [merge_sort], LIMIT), the lookups
      with their 404, the payment report and the access statistics
      (GROUP BY as [grupos], the SQL aggregates as [agregado]), and the
      permission table of [obtenerPermisos].
    - [Consultas]: the listings and lookups of the catalogues, shifts,
      employees and roles and [obtenerPerfil], with the counts and sums
      of their grouped LEFT JOINs, in a Section [Cotejo] whose parameter
      is the collation [ORDER BY] compares text with; and the two
      conditions under which the zone listing agrees with the space
      listing, [zonas_ok] (every space has its zone) and [booleanos_ok]
      (every availability is 0, 1 or NULL), with executable checks.
    - [Sistema]: the whole service as the step relation [paso]: one
      constructor per controller that writes the store (every one modelled
      above), and the clock moving forward; [alcanzable] is its closure from the empty
      database.
    - [Concurrencia]: [registrarEntrada] split into its read phase on a
      snapshot and its write phase at commit, and the step relation
      [paso_conc] of several requests taking their phases in any order.
    - [Rutas]: the fifteen routers as lists of layers, the mounts and 404
      handler of [server.js], Express's path matching, and [atender],
      which runs the middleware chain of a request.

    ** What the theorems show (claim ids in the doc comments)

    - behaviour of the controllers on every branch, errors included, with
      the database unchanged by an error: C1-C5 (tickets), C11-C13
      (payments), C15 (the history cleanup), C20 (the permissions of the
      system roles), C24 (reservations), C28-C29 (login, with bcrypt's
      72-byte truncation);
    - invariants of every reachable database, by rule induction on [paso]:
      one ACTIVO ticket per vehicle (C6), consistent times (C8), one
      payment per closed ticket (C9); the ticket state machine ACTIVO ->
      CERRADO (C10);
    - invariants of one component under any sequence of its controllers:
      positive fine amounts, exactly characterised for [actualizarMulta]
      (C21), disjoint ACTIVA reservations (C22), distinct payment type
      names (C34), one employee row per user (C38);
    - C35, an equivalence: the regular expression accepts exactly the
      two-digit renderings of the times of a day;
    - C25, an equivalence of two controllers: the SQL summary and
      per-type rows of [reportePagos] agree with the JavaScript totals of
      [listarPagos] over the same dates (with SUM = NULL on no rows);
    - C16, an equivalence with its exact conditions: the per-zone counts
      of [listarZonas] add up to the counts of [listarEspacios] when every
      space has a zone and every availability is 0, 1 or NULL, and a
      step from the reachable lot breaks each condition;
    - C36, a refinement, operation by operation: each role controller
      succeeds or answers 409 exactly as the abstract operation on the
      set of role names does, and leaves exactly the abstract result;
    - C26, a round trip: register, then login, then the token verifies;
    - C14: the bounds of the rounding of the billed hours;
    - C30-C32: which routes need a token, that [verificarRol] runs on no
      route, that no route is shadowed;
    - where the code and the specification part ways, as theorems with
      concrete witnesses: availabilities other than 0 and 1 read two ways
      (C7), manual freeing of occupied spaces leading to two ACTIVO
      tickets on one space in a reachable database (C17), fines updated
      to NULL turning the total of [listarMultas] into ['NaN'] (C18),
      negative payments (C19), overlapping reservations (C23), the
      ignored token scheme (C27), the system-role guard defeated by a
      rename (C37), the employee id stored as a user id (C39), duplicated
      DPIs (C40), and two concurrent entries into one space, which the
      specification expects the store to serialize (C33); and, as lemmas
      outside the claims, unknown tariffs billed as free
      ([tarifa_inexistente_gratis]), tariff changes reaching open tickets
      ([tarifa_cambia_ticket_abierto]), stays of under a minute billed as
      free ([estadia_gratis]), reservations updated to a NULL state
      ([actualizarReserva_estado_nulo]), which the counts of
      [listarReservas] then miss ([listarReservas_estado_nulo]).

    ** Bounds and choices

    Identifiers, cents and seconds are unbounded [Z]: the columns are SQL
    INT / DECIMAL / DATETIME and no property depends on their width.
    JavaScript floating point in [montoEsperado] and [toFixed(2)] is not
    modelled: amounts are exact cents, and the [NaN] of [parseFloat(null)]
    is [None].  No fuel is needed: every
    controller is straight-line code with early returns, and every
    function of the model is structurally recursive.  String comparison
    in a [WHERE] is exact (a binary collation); [ORDER BY] on text is
    left to the collation, a parameter of [Consultas], and the theorems
    about listings hold for every collation; rows that tie keep the
    order of the scan.  [toUpperCase] is modelled on
    ASCII letters: plates, space codes and role names are ASCII in the
    data the code handles; for a role name with the non-ASCII letters
    whose JavaScript upper case is ASCII ([ı], [ſ], ligatures such as
    [ﬆ]) the model of the system-role test of [eliminarRol] and of
    [obtenerPermisos] differs from the code.  bcrypt compares the first
    72 bytes of a password ([clave72] in [Auth]), which the laws of
    [Cripto] state.  A column default ([fecha] of fines and of the history)
    is the clock of the store.

    ** Not modelled

    [AVG] in [reportePagos]; the display columns of the LEFT JOINs that
    no property reads, and the JOINs of the SELECT that follows a write; failures of the database itself (the [catch] branches that
    answer 500), except the strict-mode range error of the TINYINT
    availability; bcrypt and JWT beyond the laws of [Cripto]; CORS, JSON
    body parsing, the connection pool and [app.listen]; the foreign-key
    and type checks of MySQL other than that range.  The dates of
    [crearReserva] are taken as the numbers the request sends (MySQL's
    conversion of a date string is not modelled).  The store is one serial database: every
    controller call is one atomic step, except in [Concurrencia], where
    the read and write phases of concurrent [registrarEntrada] calls
    interleave over snapshot reads (MySQL's default REPEATABLE READ);
    the interleavings of the other transactional controllers are not
    modelled. *)

From stdpp Require Export gmap strings list fin_maps.
From Stdlib Require Export ZArith Lia.

Declare Scope tx_scope.
Delimit Scope tx_scope with tx.
Open Scope Z_scope.

(** ** The early-return monad

    A controller is a chain of checks, each of which may answer early with
    an error response; [res E A] is either that early answer ([inl]) or the
    value computed so far ([inr]). *)

Definition res (E A : Type) : Type := (E + A)%type.

Definition ok {E A} (a : A) : res E A := inr a.
Definition falla {E A} (e : E) : res E A := inl e.

Definition res_bind {E A B} (c : res E A) (k : A -> res E B) : res E B :=
  match c with
  | inl e => inl e
  | inr a => k a
  end.

(** [if (!cond) return err;] *)
Definition exigir {E} (b : bool) (e : E) : res E unit :=
  if b then inr tt else inl e.

(** [if (rows.length === 0) return err; const row = rows[0];] *)
Definition de_opcion {E A} (o : option A) (e : E) : res E A :=
  match o with
  | Some a => inr a
  | None => inl e
  end.

Notation "x <- c ;; k" := (res_bind c (fun x => k))
  (at level 100, c at next level, right associativity) : tx_scope.
Notation "c ;;; k" := (res_bind c (fun _ => k))
  (at level 100, right associativity) : tx_scope.

Open Scope tx_scope.

Lemma res_bind_inr {E A B} (c : res E A) (k : A -> res E B) (b : B) :
  res_bind c k = inr b <-> exists a, c = inr a /\ k a = inr b.
Proof.
  destruct c as [e|a]; simpl; split.
  - discriminate.
  - intros (? & ? & _); discriminate.
  - eauto.
  - intros (a' & Ha & Hk). injection Ha as ->. exact Hk.
Qed.

Lemma exigir_inr {E} (b : bool) (e : E) u : exigir b e = inr u <-> b = true.
Proof. destruct b, u; simpl; split; congruence. Qed.

Lemma de_opcion_inr {E A} (o : option A) (e : E) a :
  de_opcion o e = inr a <-> o = Some a.
Proof. destruct o; simpl; split; congruence. Qed.

(** ** JavaScript truthiness of request fields

    A field of [req.body] is [undefined] ([None]) or a JSON value; the
    controllers test presence with [!campo], which is also true for [0] and
    for the empty string. *)

Definition js_truthy_z (v : option Z) : bool :=
  match v with
  | Some z => negb (z =? 0)
  | None => false
  end.

Definition js_truthy_s (v : option string) : bool :=
  match v with
  | Some s => negb (String.eqb s "")
  | None => false
  end.

Lemma js_truthy_z_Some v : js_truthy_z v = true <-> exists z, v = Some z /\ z <> 0.
Proof.
  destruct v as [z|]; simpl; split.
  - intros H. exists z. split; [done|]. apply negb_true_iff, Z.eqb_neq in H. exact H.
  - intros (z' & [= <-] & Hz). apply negb_true_iff, Z.eqb_neq. exact Hz.
  - discriminate.
  - intros (? & ? & _); discriminate.
Qed.

(** [String.prototype.toUpperCase] on the ASCII letters (plates and
    space codes are ASCII). *)
Definition ascii_upper (c : Ascii.ascii) : Ascii.ascii :=
  let n := Ascii.nat_of_ascii c in
  if (97 <=? n)%nat && (n <=? 122)%nat then Ascii.ascii_of_nat (n - 32) else c.

Fixpoint to_upper (s : string) : string :=
  match s with
  | EmptyString => EmptyString
  | String c s' => String (ascii_upper c) (to_upper s')
  end.

Definition presente_s (v : option string) : option string :=
  if js_truthy_s v then v else None.

Lemma presente_s_Some s : s <> EmptyString -> presente_s (Some s) = Some s.
Proof. by destruct s. Qed.

(** ** SQL queries over a table

    A table is a [gmap Z row] from the primary key.  [existe P t] is
    [SELECT id FROM t WHERE P] followed by [rows.length > 0];
    [contar P t] is [SELECT COUNT( * ) as total FROM t WHERE P]. *)

Section Consultas.
Context {A : Type}.
Implicit Types (P : A -> bool) (t : gmap Z A).

Definition existe P t : bool :=
  existsb (fun kv => P kv.2) (map_to_list t).

Definition contar P t : nat :=
  length (filter (fun kv => P kv.2 = true) (map_to_list t)).

Lemma existe_true P t :
  existe P t = true <-> exists k x, t !! k = Some x /\ P x = true.
Proof.
  unfold existe. rewrite existsb_exists. split.
  - intros ([k x] & Hin & HP). exists k, x. split; [|done].
    apply elem_of_map_to_list, list_elem_of_In. exact Hin.
  - intros (k & x & Hk & HP). exists (k, x). split; [|done].
    apply list_elem_of_In, elem_of_map_to_list. exact Hk.
Qed.

Lemma existe_false P t :
  existe P t = false <-> forall k x, t !! k = Some x -> P x = false.
Proof.
  split.
  - intros H k x Hk. destruct (P x) eqn:HP; [|done].
    assert (existe P t = true) as H' by (apply existe_true; eauto).
    congruence.
  - intros H. destruct (existe P t) eqn:E; [|done].
    apply existe_true in E as (k & x & Hk & HP). rewrite (H k x Hk) in HP.
    discriminate.
Qed.

Lemma contar_cero P t : contar P t = 0%nat <-> existe P t = false.
Proof.
  unfold contar, existe. rewrite length_zero_iff_nil.
  induction (map_to_list t) as [|[k x] l IH]; [done|].
  rewrite filter_cons. simpl. destruct (P x) eqn:HP.
  - rewrite decide_True by done. split; discriminate.
  - rewrite decide_False by congruence. exact IH.
Qed.

Lemma existe_insert_fresh P t k x :
  t !! k = None -> existe P (<[k:=x]> t) = P x || existe P t.
Proof.
  intros Hk. apply Bool.eq_iff_eq_true. rewrite Bool.orb_true_iff, !existe_true.
  split.
  - intros (k' & x' & Hk' & HP). destruct (decide (k = k')) as [<-|Hne].
    + rewrite lookup_insert_eq in Hk'. injection Hk' as <-. by left.
    + rewrite lookup_insert_ne in Hk' by done. right. eauto.
  - intros [HP|(k' & x' & Hk' & HP)].
    + exists k, x. by rewrite lookup_insert_eq.
    + exists k', x'. rewrite lookup_insert_ne by congruence. done.
Qed.

Lemma existe_insert P t k x :
  existe P (<[k:=x]> t) = true ->
  P x = true \/ existe P t = true.
Proof.
  rewrite !existe_true. intros (k' & x' & Hk' & HP).
  destruct (decide (k = k')) as [<-|Hne].
  - rewrite lookup_insert_eq in Hk'. injection Hk' as <-. by left.
  - rewrite lookup_insert_ne in Hk' by done. right. eauto.
Qed.

Lemma existe_delete P t k :
  existe P (delete k t) = true -> existe P t = true.
Proof.
  rewrite !existe_true. intros (k' & x' & Hk' & HP).
  apply lookup_delete_Some in Hk' as [_ Hk']. eauto.
Qed.

(** [SELECT id FROM t WHERE P AND id != ?] followed by [rows.length > 0]:
    the uniqueness checks of the update controllers. *)
Definition existe_otro P (id : Z) t : bool :=
  existsb (fun kv => P kv.2 && negb (kv.1 =? id)) (map_to_list t).

Lemma existe_otro_false P id t :
  existe_otro P id t = false <-> forall k x, t !! k = Some x -> P x = true -> k = id.
Proof.
  unfold existe_otro. rewrite <- Bool.not_true_iff_false, existsb_exists. split.
  - intros H k x Hk HP. destruct (decide (k = id)) as [|Hne]; [done|]. exfalso. apply H.
    exists (k, x). split; [apply list_elem_of_In, elem_of_map_to_list, Hk|].
    simpl. rewrite HP. simpl. by apply negb_true_iff, Z.eqb_neq.
  - intros H ([k x] & Hin & Hb). apply list_elem_of_In, elem_of_map_to_list in Hin.
    simpl in Hb. apply andb_prop in Hb as [HP Hk].
    apply negb_true_iff, Z.eqb_neq in Hk. exact (Hk (H k x Hin HP)).
Qed.

(** [rows[0]] of a [SELECT ... FROM t WHERE P] with no ORDER BY: the
    matching row of least primary key, the order of a primary-key scan. *)
Definition menor (a b : Z * A) : Z * A := if a.1 <=? b.1 then a else b.

Definition primero P t : option (Z * A) :=
  match filter (fun kv => P kv.2 = true) (map_to_list t) with
  | [] => None
  | kv :: r => Some (foldr menor kv r)
  end.

Lemma foldr_menor_elem kv r : foldr menor kv r ∈ kv :: r.
Proof.
  induction r as [|kv' r IH]; simpl; [by left|].
  unfold menor at 1. destruct (_ <=? _); set_solver.
Qed.

Lemma foldr_menor_min kv r kv' : kv' ∈ kv :: r -> (foldr menor kv r).1 <= kv'.1.
Proof.
  revert kv'. induction r as [|kv1 r IH]; intros kv' Hin; simpl.
  - apply list_elem_of_singleton in Hin as ->. lia.
  - assert (Hm : kv' = kv1 \/ kv' ∈ kv :: r) by set_solver.
    unfold menor at 1. destruct (Z.leb_spec kv1.1 (foldr menor kv r).1); simpl;
      destruct Hm as [->|Hm]; try lia; specialize (IH kv' Hm); lia.
Qed.

Lemma primero_Some P t k x :
  primero P t = Some (k, x) -> t !! k = Some x /\ P x = true.
Proof.
  unfold primero. destruct (filter _ _) as [|kv r] eqn:E; [done|]. intros [= Hk].
  pose proof (foldr_menor_elem kv r) as Hin. rewrite Hk, <- E in Hin.
  apply list_elem_of_filter in Hin as [HP Hin]. apply elem_of_map_to_list in Hin. done.
Qed.

Lemma primero_min P t k x k' x' :
  primero P t = Some (k, x) -> t !! k' = Some x' -> P x' = true -> k <= k'.
Proof.
  unfold primero. destruct (filter _ _) as [|kv r] eqn:E; [done|]. intros [= Hk] Hk' HP.
  assert (Hin : (k', x') ∈ kv :: r).
  { rewrite <- E. apply list_elem_of_filter. split; [done|]. by apply elem_of_map_to_list. }
  pose proof (foldr_menor_min kv r _ Hin) as Hm. rewrite Hk in Hm. exact Hm.
Qed.

Lemma primero_None P t : primero P t = None <-> existe P t = false.
Proof.
  rewrite existe_false. unfold primero.
  destruct (filter _ _) as [|kv r] eqn:E; split; try done.
  - intros _ k x Hk. destruct (P x) eqn:HP; [|done]. exfalso.
    assert (Hin : (k, x) ∈ filter (fun kv => P kv.2 = true) (map_to_list t)).
    { apply list_elem_of_filter. split; [done|]. by apply elem_of_map_to_list. }
    rewrite E in Hin. set_solver.
  - intros H. exfalso. destruct kv as [k x].
    assert (Hin : (k, x) ∈ filter (fun kv => P kv.2 = true) (map_to_list t)) by (rewrite E; set_solver).
    apply list_elem_of_filter in Hin as [HP Hin]. apply elem_of_map_to_list in Hin.
    simpl in HP. rewrite (H k x Hin) in HP. discriminate.
Qed.

(** When exactly one row matches, [rows[0]] is that row. *)
Lemma primero_unico P t k x :
  t !! k = Some x -> P x = true ->
  (forall k' x', t !! k' = Some x' -> P x' = true -> k' = k) ->
  primero P t = Some (k, x).
Proof.
  intros Hk HP Hu. destruct (primero P t) as [[k' x']|] eqn:E.
  - apply primero_Some in E as [Hk' HP']. rewrite (Hu k' x' Hk' HP') in Hk' |- *.
    congruence.
  - apply primero_None in E. rewrite existe_false in E. rewrite (E k x Hk) in HP. discriminate.
Qed.
End Consultas.

(** ** A column as a set, and columns with distinct values

    [imagen f t] is the set of values of the column [f] of a table (the
    abstraction of a table whose only observable is that column);
    [columna_unica f t] says no two rows share a value, the property a
    [UNIQUE] column or an application-level uniqueness check maintains. *)

Section Columnas.
Context {A B : Type} `{Countable B}.
Implicit Types (f : A -> B) (t : gmap Z A).

Definition imagen f t : gset B := list_to_set ((fun kv => f kv.2) <$> map_to_list t).

Definition columna_unica f t : Prop :=
  forall k1 k2 x1 x2, t !! k1 = Some x1 -> t !! k2 = Some x2 -> f x1 = f x2 -> k1 = k2.

Lemma elem_of_imagen f t y : y ∈ imagen f t <-> exists k x, t !! k = Some x /\ f x = y.
Proof.
  unfold imagen. rewrite elem_of_list_to_set, list_elem_of_fmap. split.
  - intros ([k x] & -> & Hin). apply elem_of_map_to_list in Hin. eauto.
  - intros (k & x & Hk & <-). exists (k, x). split; [done|]. by apply elem_of_map_to_list.
Qed.

Lemma imagen_insert_fresca f t k x :
  t !! k = None -> imagen f (<[k:=x]> t) = {[f x]} ∪ imagen f t.
Proof.
  intros Hk. apply set_eq. intros y. rewrite elem_of_union, elem_of_singleton, !elem_of_imagen.
  split.
  - intros (k' & x' & Hk' & <-). rewrite lookup_insert in Hk'.
    case_decide; simplify_eq; [by left | right; eauto].
  - intros [->|(k' & x' & Hk' & <-)]; [exists k, x; by rewrite lookup_insert_eq|].
    exists k', x'. rewrite lookup_insert_ne by congruence. done.
Qed.

Lemma imagen_delete f t k x :
  t !! k = Some x -> columna_unica f t -> imagen f (delete k t) = imagen f t ∖ {[f x]}.
Proof.
  intros Hk Hu. apply set_eq. intros y. rewrite elem_of_difference, elem_of_singleton, !elem_of_imagen.
  split.
  - intros (k' & x' & Hk' & <-). apply lookup_delete_Some in Hk' as [Hne Hk'].
    split; [eauto|]. intros He. exact (Hne (Hu _ _ _ _ Hk Hk' (eq_sym He))).
  - intros [(k' & x' & Hk' & <-) Hne]. exists k', x'. split; [|done].
    apply lookup_delete_Some. split; [|done]. intros <-. congruence.
Qed.

Lemma imagen_alter f g t k x :
  t !! k = Some x -> columna_unica f t ->
  imagen f (alter g k t) = {[f (g x)]} ∪ (imagen f t ∖ {[f x]}).
Proof.
  intros Hk Hu. apply set_eq. intros y.
  rewrite elem_of_union, elem_of_difference, !elem_of_singleton, !elem_of_imagen. split.
  - intros (k' & x' & Hk' & <-). rewrite lookup_alter in Hk'. case_decide; subst.
    + rewrite Hk in Hk'. simpl in Hk'. injection Hk' as <-. by left.
    + right. split; [eauto|]. intros He. pose proof (Hu _ _ _ _ Hk' Hk He). congruence.
  - intros [->|[(k' & x' & Hk' & <-) Hne]].
    + exists k, (g x). rewrite lookup_alter, Hk. by rewrite decide_True.
    + exists k', x'. rewrite lookup_alter. rewrite decide_False; [done|]. intros ->. congruence.
Qed.

Lemma columna_unica_insert_fresca f t k x :
  t !! k = None -> (forall k' x', t !! k' = Some x' -> f x' <> f x) ->
  columna_unica f t -> columna_unica f (<[k:=x]> t).
Proof.
  intros Hk Hn Hu k1 k2 x1 x2 H1 H2 He.
  destruct (decide (k = k1)) as [<-|N1], (decide (k = k2)) as [<-|N2]; try done.
  - rewrite lookup_insert_eq in H1. rewrite lookup_insert_ne in H2 by done.
    injection H1 as <-. exfalso. exact (Hn _ _ H2 (eq_sym He)).
  - rewrite lookup_insert_eq in H2. rewrite lookup_insert_ne in H1 by done.
    injection H2 as <-. exfalso. exact (Hn _ _ H1 He).
  - rewrite lookup_insert_ne in H1, H2 by done. eauto.
Qed.

Lemma columna_unica_alter f g t k x :
  t !! k = Some x -> (forall k' x', t !! k' = Some x' -> f x' = f (g x) -> k' = k) ->
  columna_unica f t -> columna_unica f (alter g k t).
Proof.
  intros Hk Hn Hu k1 k2 x1 x2 H1 H2 He.
  destruct (decide (k = k1)) as [<-|N1], (decide (k = k2)) as [<-|N2]; try done.
  - rewrite lookup_alter_eq, Hk in H1. rewrite lookup_alter_ne in H2 by done.
    injection H1 as <-. symmetry. exact (Hn _ _ H2 (eq_sym He)).
  - rewrite lookup_alter_eq, Hk in H2. rewrite lookup_alter_ne in H1 by done.
    injection H2 as <-. exact (Hn _ _ H1 He).
  - rewrite lookup_alter_ne in H1, H2 by done. eauto.
Qed.

Lemma columna_unica_delete f t k :
  columna_unica f t -> columna_unica f (delete k t).
Proof.
  intros Hu k1 k2 x1 x2 H1 H2. apply lookup_delete_Some in H1 as [_ H1].
  apply lookup_delete_Some in H2 as [_ H2]. eauto.
Qed.
End Columnas.

(** ** Automation shared by the component files *)

Create HintDb parqueo discriminated.
Create Rewrite HintDb parqueo_rw.

#[export] Hint Rewrite @lookup_insert_eq @lookup_empty : parqueo_rw.
#[export] Hint Rewrite @res_bind_inr @exigir_inr @de_opcion_inr : parqueo_rw.
#[export] Hint Resolve existe_delete : parqueo.

(** Split a successful [res] chain into the facts each step established. *)
Ltac res_inv :=
  repeat match goal with
  | H : res_bind _ _ = inr _ |- _ =>
      apply res_bind_inr in H as (? & ? & ?)
  | H : exigir _ _ = inr _ |- _ => apply exigir_inr in H
  | H : de_opcion _ _ = inr _ |- _ => apply de_opcion_inr in H
  | H : inr _ = inr _ |- _ => injection H as H
  end.

(** The last step of a successful controller: its [ok (status, x, db)]. *)
Ltac res_fin :=
  simpl in *;
  match goal with H : _ = inr (_, _, _) |- _ => injection H as <- <- <- end.

(** Case on a boolean test of the code, keeping its equation. *)
Ltac caso_bool b := let E := fresh "E" in destruct b eqn:E.
