(* ===== verification/Store.v ===== *)
(** * Store: the relational schema the controllers read and write

    One [Record] per table row with the columns that
    [src/parqueo-api/src/controllers/*.controller.js] read or write, the
    database [Db] (one table per [gmap], its AUTO_INCREMENT counter, and
    the clock read by SQL [NOW()]), the [error] classifications of the
    JSON error bodies as the enumeration [Err], the response type [Resp],
    and [ejecutar], which runs one controller against a database. *)

From S2P Require Import Prelude.

(** ** Rows

    A column is an [option] when some controller writes it from a request
    field that may be [undefined] (stored as SQL NULL); identifiers are
    [Z]; money is in cents; times are seconds. *)

(** [Tickets.estado]: the code writes only ["ACTIVO"] and ["CERRADO"]. *)
Inductive EstadoTicket := ACTIVO | CERRADO.

#[export] Instance EstadoTicket_eq_dec : EqDecision EstadoTicket.
Proof. solve_decision. Defined.

Definition estado_eqb (a b : EstadoTicket) : bool := bool_decide (a = b).

Record Cliente := mkCliente {
  c_nombre : option string; c_telefono : option string;
  c_correo : option string; c_nit : option string }.

Record Vehiculo := mkVehiculo {
  v_cliente_id : option Z; v_placa : option string;
  v_marca : option string; v_modelo : option string; v_color : option string }.

Record Zona := mkZona { z_nombre : option string; z_descripcion : option string }.

(** [Espacios.disponible] is a MySQL [BOOLEAN], that is a [TINYINT(1)]:
    a signed byte or NULL.  The ticket controllers store [FALSE] (0) and
    [TRUE] (1); the space controllers store whatever the request sends. *)
Record Espacio := mkEspacio {
  e_zona_id : option Z; e_codigo : option string; e_disponible : option Z }.

(** The JSON value of a request field that a controller passes to a
    query unchanged: [null], a boolean or an integer. *)
Inductive Json := JNull | JBool (b : bool) | JNum (z : Z).

(** The [TINYINT] MySQL stores for such a parameter: [null] is NULL,
    [true]/[false] are 1/0, an integer in [-128 .. 127] is itself; any
    other integer is refused by strict mode ([None]), which the
    controller's [catch] answers with 500. *)
Definition tinyint (v : Json) : option (option Z) :=
  match v with
  | JNull => Some None
  | JBool b => Some (Some (if b then 1 else 0))
  | JNum z => if (-128 <=? z) && (z <=? 127) then Some (Some z) else None
  end.

Lemma tinyint_rango z : -128 <= z <= 127 -> tinyint (JNum z) = Some (Some z).
Proof. intros Hz. unfold tinyint. by rewrite (proj2 (Z.leb_le _ _)), (proj2 (Z.leb_le z _)) by lia. Qed.

Record Tarifa := mkTarifa {
  ta_descripcion : option string; ta_precio_hora : option Z }.

(** [hora_entrada] is filled by the column default [CURRENT_TIMESTAMP]
    (the INSERT of [registrarEntrada] does not name it). *)
Record Ticket := mkTicket {
  t_vehiculo_id : Z; t_espacio_id : Z; t_empleado_id : Z; t_tarifa_id : Z;
  t_hora_entrada : Z; t_hora_salida : option Z; t_estado : EstadoTicket }.

Record Pago := mkPago {
  p_ticket_id : Z; p_tipo_pago_id : Z; p_monto : Z; p_fecha_pago : Z }.

Record TipoPago := mkTipoPago { tp_nombre : option string }.

Record Multa := mkMulta {
  m_ticket_id : Z; m_motivo : option string; m_monto : option Z; m_fecha : Z }.

Record Reserva := mkReserva {
  r_cliente_id : Z; r_espacio_id : Z; r_fecha_reserva : Z;
  r_fecha_inicio : option Z; r_fecha_fin : option Z; r_estado : option string }.

Record Usuario := mkUsuario {
  u_nombre : string; u_correo : string; u_password : string;
  u_rol_id : Z; u_activo : option bool }.

Record Rol := mkRol { ro_nombre : string; ro_descripcion : option string }.

Record Empleado := mkEmpleado {
  em_usuario_id : Z; em_turno_id : option Z; em_telefono : option string;
  em_direccion : option string; em_dpi : option string }.

Record Turno := mkTurno {
  tu_descripcion : option string; tu_hora_inicio : option string;
  tu_hora_fin : option string }.

Record Acceso := mkAcceso { h_usuario_id : Z; h_accion : string; h_fecha : Z }.

(** ** Tables and the database *)

(** A table: its rows by primary key and the next AUTO_INCREMENT value. *)
Record Tabla (R : Type) := mkTabla { filas : gmap Z R; sig_id : Z }.
Arguments mkTabla {R} _ _.
Arguments filas {R} _.
Arguments sig_id {R} _.

Definition tabla_vacia {R} : Tabla R := mkTabla ∅ 1.

(** [INSERT INTO t ...]: the row gets [sig_id] as [insertId]. *)
Definition insertar {R} (r : R) (t : Tabla R) : Z * Tabla R :=
  (sig_id t, mkTabla (<[sig_id t := r]> (filas t)) (sig_id t + 1)).

(** [UPDATE t SET ... WHERE id = k]: no row changes when [k] is absent. *)
Definition actualizar {R} (k : Z) (f : R -> R) (t : Tabla R) : Tabla R :=
  mkTabla (alter f k (filas t)) (sig_id t).

(** [DELETE FROM t WHERE id = k]. *)
Definition borrar {R} (k : Z) (t : Tabla R) : Tabla R :=
  mkTabla (delete k (filas t)) (sig_id t).

(** [SELECT ... FROM t WHERE id = k], then [rows[0]]. *)
Definition buscar {R} (k : Z) (t : Tabla R) : option R := filas t !! k.

Record Db := mkDb {
  clientes : Tabla Cliente; vehiculos : Tabla Vehiculo; zonas : Tabla Zona;
  espacios : Tabla Espacio; tarifas : Tabla Tarifa; tickets : Tabla Ticket;
  pagos : Tabla Pago; tipos_pago : Tabla TipoPago; multas : Tabla Multa;
  reservas : Tabla Reserva; usuarios : Tabla Usuario; roles : Tabla Rol;
  empleados : Tabla Empleado; turnos : Tabla Turno; historial : Tabla Acceso;
  reloj : Z }.

Definition db_vacia : Db :=
  {| clientes := tabla_vacia; vehiculos := tabla_vacia; zonas := tabla_vacia;
     espacios := tabla_vacia; tarifas := tabla_vacia; tickets := tabla_vacia;
     pagos := tabla_vacia; tipos_pago := tabla_vacia; multas := tabla_vacia;
     reservas := tabla_vacia; usuarios := tabla_vacia; roles := tabla_vacia;
     empleados := tabla_vacia; turnos := tabla_vacia; historial := tabla_vacia;
     reloj := 0 |}.

(** Replacing one table (or the clock) of the database. *)
Definition con_clientes (x : Tabla Cliente) (d : Db) : Db :=
  {| clientes := x; vehiculos := d.(vehiculos); zonas := d.(zonas);
     espacios := d.(espacios); tarifas := d.(tarifas); tickets := d.(tickets);
     pagos := d.(pagos); tipos_pago := d.(tipos_pago); multas := d.(multas);
     reservas := d.(reservas); usuarios := d.(usuarios); roles := d.(roles);
     empleados := d.(empleados); turnos := d.(turnos); historial := d.(historial);
     reloj := d.(reloj) |}.

Definition con_vehiculos (x : Tabla Vehiculo) (d : Db) : Db :=
  {| clientes := d.(clientes); vehiculos := x; zonas := d.(zonas);
     espacios := d.(espacios); tarifas := d.(tarifas); tickets := d.(tickets);
     pagos := d.(pagos); tipos_pago := d.(tipos_pago); multas := d.(multas);
     reservas := d.(reservas); usuarios := d.(usuarios); roles := d.(roles);
     empleados := d.(empleados); turnos := d.(turnos); historial := d.(historial);
     reloj := d.(reloj) |}.

Definition con_zonas (x : Tabla Zona) (d : Db) : Db :=
  {| clientes := d.(clientes); vehiculos := d.(vehiculos); zonas := x;
     espacios := d.(espacios); tarifas := d.(tarifas); tickets := d.(tickets);
     pagos := d.(pagos); tipos_pago := d.(tipos_pago); multas := d.(multas);
     reservas := d.(reservas); usuarios := d.(usuarios); roles := d.(roles);
     empleados := d.(empleados); turnos := d.(turnos); historial := d.(historial);
     reloj := d.(reloj) |}.

Definition con_espacios (x : Tabla Espacio) (d : Db) : Db :=
  {| clientes := d.(clientes); vehiculos := d.(vehiculos); zonas := d.(zonas);
     espacios := x; tarifas := d.(tarifas); tickets := d.(tickets);
     pagos := d.(pagos); tipos_pago := d.(tipos_pago); multas := d.(multas);
     reservas := d.(reservas); usuarios := d.(usuarios); roles := d.(roles);
     empleados := d.(empleados); turnos := d.(turnos); historial := d.(historial);
     reloj := d.(reloj) |}.

Definition con_tarifas (x : Tabla Tarifa) (d : Db) : Db :=
  {| clientes := d.(clientes); vehiculos := d.(vehiculos); zonas := d.(zonas);
     espacios := d.(espacios); tarifas := x; tickets := d.(tickets);
     pagos := d.(pagos); tipos_pago := d.(tipos_pago); multas := d.(multas);
     reservas := d.(reservas); usuarios := d.(usuarios); roles := d.(roles);
     empleados := d.(empleados); turnos := d.(turnos); historial := d.(historial);
     reloj := d.(reloj) |}.

Definition con_tickets (x : Tabla Ticket) (d : Db) : Db :=
  {| clientes := d.(clientes); vehiculos := d.(vehiculos); zonas := d.(zonas);
     espacios := d.(espacios); tarifas := d.(tarifas); tickets := x;
     pagos := d.(pagos); tipos_pago := d.(tipos_pago); multas := d.(multas);
     reservas := d.(reservas); usuarios := d.(usuarios); roles := d.(roles);
     empleados := d.(empleados); turnos := d.(turnos); historial := d.(historial);
     reloj := d.(reloj) |}.

Definition con_pagos (x : Tabla Pago) (d : Db) : Db :=
  {| clientes := d.(clientes); vehiculos := d.(vehiculos); zonas := d.(zonas);
     espacios := d.(espacios); tarifas := d.(tarifas); tickets := d.(tickets);
     pagos := x; tipos_pago := d.(tipos_pago); multas := d.(multas);
     reservas := d.(reservas); usuarios := d.(usuarios); roles := d.(roles);
     empleados := d.(empleados); turnos := d.(turnos); historial := d.(historial);
     reloj := d.(reloj) |}.

Definition con_tipos_pago (x : Tabla TipoPago) (d : Db) : Db :=
  {| clientes := d.(clientes); vehiculos := d.(vehiculos); zonas := d.(zonas);
     espacios := d.(espacios); tarifas := d.(tarifas); tickets := d.(tickets);
     pagos := d.(pagos); tipos_pago := x; multas := d.(multas);
     reservas := d.(reservas); usuarios := d.(usuarios); roles := d.(roles);
     empleados := d.(empleados); turnos := d.(turnos); historial := d.(historial);
     reloj := d.(reloj) |}.

Definition con_multas (x : Tabla Multa) (d : Db) : Db :=
  {| clientes := d.(clientes); vehiculos := d.(vehiculos); zonas := d.(zonas);
     espacios := d.(espacios); tarifas := d.(tarifas); tickets := d.(tickets);
     pagos := d.(pagos); tipos_pago := d.(tipos_pago); multas := x;
     reservas := d.(reservas); usuarios := d.(usuarios); roles := d.(roles);
     empleados := d.(empleados); turnos := d.(turnos); historial := d.(historial);
     reloj := d.(reloj) |}.

Definition con_reservas (x : Tabla Reserva) (d : Db) : Db :=
  {| clientes := d.(clientes); vehiculos := d.(vehiculos); zonas := d.(zonas);
     espacios := d.(espacios); tarifas := d.(tarifas); tickets := d.(tickets);
     pagos := d.(pagos); tipos_pago := d.(tipos_pago); multas := d.(multas);
     reservas := x; usuarios := d.(usuarios); roles := d.(roles);
     empleados := d.(empleados); turnos := d.(turnos); historial := d.(historial);
     reloj := d.(reloj) |}.

Definition con_usuarios (x : Tabla Usuario) (d : Db) : Db :=
  {| clientes := d.(clientes); vehiculos := d.(vehiculos); zonas := d.(zonas);
     espacios := d.(espacios); tarifas := d.(tarifas); tickets := d.(tickets);
     pagos := d.(pagos); tipos_pago := d.(tipos_pago); multas := d.(multas);
     reservas := d.(reservas); usuarios := x; roles := d.(roles);
     empleados := d.(empleados); turnos := d.(turnos); historial := d.(historial);
     reloj := d.(reloj) |}.

Definition con_roles (x : Tabla Rol) (d : Db) : Db :=
  {| clientes := d.(clientes); vehiculos := d.(vehiculos); zonas := d.(zonas);
     espacios := d.(espacios); tarifas := d.(tarifas); tickets := d.(tickets);
     pagos := d.(pagos); tipos_pago := d.(tipos_pago); multas := d.(multas);
     reservas := d.(reservas); usuarios := d.(usuarios); roles := x;
     empleados := d.(empleados); turnos := d.(turnos); historial := d.(historial);
     reloj := d.(reloj) |}.

Definition con_empleados (x : Tabla Empleado) (d : Db) : Db :=
  {| clientes := d.(clientes); vehiculos := d.(vehiculos); zonas := d.(zonas);
     espacios := d.(espacios); tarifas := d.(tarifas); tickets := d.(tickets);
     pagos := d.(pagos); tipos_pago := d.(tipos_pago); multas := d.(multas);
     reservas := d.(reservas); usuarios := d.(usuarios); roles := d.(roles);
     empleados := x; turnos := d.(turnos); historial := d.(historial);
     reloj := d.(reloj) |}.

Definition con_turnos (x : Tabla Turno) (d : Db) : Db :=
  {| clientes := d.(clientes); vehiculos := d.(vehiculos); zonas := d.(zonas);
     espacios := d.(espacios); tarifas := d.(tarifas); tickets := d.(tickets);
     pagos := d.(pagos); tipos_pago := d.(tipos_pago); multas := d.(multas);
     reservas := d.(reservas); usuarios := d.(usuarios); roles := d.(roles);
     empleados := d.(empleados); turnos := x; historial := d.(historial);
     reloj := d.(reloj) |}.

Definition con_historial (x : Tabla Acceso) (d : Db) : Db :=
  {| clientes := d.(clientes); vehiculos := d.(vehiculos); zonas := d.(zonas);
     espacios := d.(espacios); tarifas := d.(tarifas); tickets := d.(tickets);
     pagos := d.(pagos); tipos_pago := d.(tipos_pago); multas := d.(multas);
     reservas := d.(reservas); usuarios := d.(usuarios); roles := d.(roles);
     empleados := d.(empleados); turnos := d.(turnos); historial := x;
     reloj := d.(reloj) |}.

Definition con_reloj (x : Z) (d : Db) : Db :=
  {| clientes := d.(clientes); vehiculos := d.(vehiculos); zonas := d.(zonas);
     espacios := d.(espacios); tarifas := d.(tarifas); tickets := d.(tickets);
     pagos := d.(pagos); tipos_pago := d.(tipos_pago); multas := d.(multas);
     reservas := d.(reservas); usuarios := d.(usuarios); roles := d.(roles);
     empleados := d.(empleados); turnos := d.(turnos); historial := d.(historial);
     reloj := x |}.
(** ** Error classifications

    The [error] field of each JSON error body of the controllers, one
    constructor per distinct string (the comment gives the string). *)
Inductive Err :=
| ECamposRequeridos        (* 'Campos requeridos' *)
| ECampoRequerido          (* 'Campo requerido' *)
| ECamposIncompletos       (* 'Campos incompletos' *)
| EVehiculoNoEncontrado    (* 'Vehículo no encontrado' *)
| EEspacioNoEncontrado     (* 'Espacio no encontrado' *)
| EEspacioNoDisponible     (* 'Espacio no disponible' *)
| ETicketActivoExistente   (* 'Ticket activo existente' *)
| ETicketNoEncontrado      (* 'Ticket no encontrado' *)
| ETicketYaCerrado         (* 'Ticket ya cerrado' *)
| ETicketNoCerrado         (* 'Ticket no cerrado' *)
| EPagoYaRegistrado        (* 'Pago ya registrado' *)
| ETipoPagoNoEncontrado    (* 'Tipo de pago no encontrado' *)
| EZonaNoEncontrada        (* 'Zona no encontrada' *)
| ECodigoDuplicado         (* 'Código duplicado' *)
| ENoSePuedeEliminar       (* 'No se puede eliminar' *)
| EClienteNoEncontrado     (* 'Cliente no encontrado' *)
| EPlacaDuplicada          (* 'Placa duplicada' *)
| ETarifaNoEncontrada      (* 'Tarifa no encontrada' *)
| EPrecioInvalido          (* 'Precio inválido' *)
| EMontoInvalido           (* 'Monto inválido' *)
| EMultaNoEncontrada       (* 'Multa no encontrada' *)
| EFechasInvalidas         (* 'Fechas inválidas' *)
| EReservaNoEncontrada     (* 'Reserva no encontrada' *)
| EReservaNoModificable    (* 'Reserva no modificable' *)
| ENoSePuedeCancelar       (* 'No se puede cancelar' *)
| ENoSePuedeFinalizar      (* 'No se puede finalizar' *)
| EUsuarioNoEncontrado     (* 'Usuario no encontrado' *)
| EUsuarioYaEsEmpleado     (* 'Usuario ya es empleado' *)
| EDpiDuplicado            (* 'DPI duplicado' *)
| ETurnoNoEncontrado       (* 'Turno no encontrado' *)
| EEmpleadoNoEncontrado    (* 'Empleado no encontrado' *)
| EFormatoHoraInvalido     (* 'Formato de hora inválido' *)
| ERolNoEncontrado         (* 'Rol no encontrado' *)
| ERolYaExiste             (* 'Rol ya existe' *)
| ENombreDuplicado         (* 'Nombre duplicado' *)
| ETipoPagoYaExiste        (* 'Tipo de pago ya existe' *)
| EParametroInvalido       (* 'Parámetro inválido' *)
| ECorreoYaRegistrado      (* 'Correo ya registrado' *)
| ECredencialesInvalidas   (* 'Credenciales inválidas' *)
| EUsuarioInactivo         (* 'Usuario inactivo' *)
| ETokenNoProporcionado    (* 'Token no proporcionado' *)
| EFormatoTokenInvalido    (* 'Formato de token inválido' *)
| ETokenExpirado           (* 'Token expirado' *)
| ETokenInvalido           (* 'Token inválido' *)
| ENoAutenticado           (* 'No autenticado' *)
| EAccesoDenegado          (* 'Acceso denegado' *)
| ERutaNoEncontrada        (* 'Ruta no encontrada' *)
| EPagoNoEncontrado        (* 'Pago no encontrado' *)
| ERegistroNoEncontrado    (* 'Registro no encontrado' *)
| EErrorCrearEspacio       (* 'Error al crear espacio' *)
| EErrorActualizarEspacio  (* 'Error al actualizar espacio' *)
| EErrorCambiarDisponibilidad (* 'Error al cambiar disponibilidad' *)
.

#[export] Instance Err_eq_dec : EqDecision Err.
Proof. solve_decision. Defined.

(** ** Responses and running a controller *)

(** [res.status(status).json({ error, mensaje })] or
    [res.status(status).json(payload)]. *)
Inductive Resp (A : Type) :=
| RErr (status : Z) (e : Err)
| ROk (status : Z) (x : A).
Arguments RErr {A} _ _.
Arguments ROk {A} _ _.

(** An early answer: its HTTP status and its error classification. *)
Definition Falla : Type := (Z * Err)%type.

(** A controller body: an early error answer, or the success status, the
    payload and the database after the writes. *)
Definition Ctrl (A : Type) : Type := res Falla (Z * A * Db).

(** [req.usuario], the decoded token payload that [verificarToken]
    attaches to the request. *)
Record Sesion := mkSesion {
  s_id : Z; s_nombre : string; s_correo : string; s_rol : option string }.

(** Run a controller on database [d].  An early answer leaves [d] as it was:
    every early [return] of the code comes before its first write, and in
    the transactional controllers it follows [connection.rollback()]. *)
Definition ejecutar {A} (c : Ctrl A) (d : Db) : Resp A * Db :=
  match c with
  | inl (s, e) => (RErr s e, d)
  | inr (s, x, d') => (ROk s x, d')
  end.

Lemma ejecutar_err {A} (c : Ctrl A) d s e d' :
  ejecutar c d = (RErr s e, d') -> d' = d /\ c = inl (s, e).
Proof.
  destruct c as [[s0 e0]|[[s0 x] d0]]; simpl; intros H; inversion H; subst; auto.
Qed.

(** The database after a call: unchanged, or the one of a success. *)
Lemma ejecutar_snd {A} (c : Ctrl A) d :
  snd (ejecutar c d) = d \/ exists s x, c = inr (s, x, snd (ejecutar c d)).
Proof. destruct c as [[s e]|[[s x] d']]; simpl; eauto. Qed.

Lemma ejecutar_ok {A} (c : Ctrl A) d s (x : A) d' :
  ejecutar c d = (ROk s x, d') <-> c = inr (s, x, d').
Proof.
  destruct c as [[s0 e0]|[[s0 x0] d0]]; simpl; split; intros H;
    inversion H; subst; reflexivity.
Qed.

(** A property of databases holds after a call when it holds before and
    after every successful run of the controller. *)
Lemma ejecutar_preserva {A} (P : Db -> Prop) (c : Ctrl A) d :
  P d -> (forall s x d', c = inr (s, x, d') -> P d') -> P (snd (ejecutar c d)).
Proof. destruct c as [[s e]|[[s x] d']]; simpl; eauto. Qed.

(** ** Well-formed tables

    Every key is positive and below the AUTO_INCREMENT counter, so the
    counter is always a fresh key. *)
Definition tabla_ok {R} (t : Tabla R) : Prop :=
  0 < sig_id t /\ forall k r, filas t !! k = Some r -> 0 < k < sig_id t.

Section Tablas.
Context {R : Type}.
Implicit Types (t : Tabla R) (r : R).

Lemma tabla_vacia_ok : tabla_ok (@tabla_vacia R).
Proof. split; [simpl; lia|]. intros k r. simpl. by rewrite lookup_empty. Qed.

Lemma tabla_ok_fresca t : tabla_ok t -> filas t !! sig_id t = None.
Proof.
  intros [_ H]. destruct (filas t !! sig_id t) as [r|] eqn:E; [|done].
  specialize (H _ _ E). lia.
Qed.

Lemma insertar_ok t r : tabla_ok t -> tabla_ok (insertar r t).2.
Proof.
  intros [Hpos H]. split; simpl; [lia|]. intros k r' Hk.
  destruct (decide (sig_id t = k)) as [<-|Hne]; [lia|].
  rewrite lookup_insert_ne in Hk by done. specialize (H _ _ Hk). lia.
Qed.

Lemma actualizar_ok t k f : tabla_ok t -> tabla_ok (actualizar k f t).
Proof.
  intros [Hpos H]. split; [done|]. intros k' r' Hk. simpl in Hk.
  apply lookup_alter_Some in Hk as [[<- (r0 & Hr0 & _)]|[_ Hk]]; eauto.
Qed.

Lemma borrar_ok t k : tabla_ok t -> tabla_ok (borrar k t).
Proof.
  intros [Hpos H]. split; [done|]. intros k' r' Hk. simpl in Hk.
  apply lookup_delete_Some in Hk as [_ Hk]. eauto.
Qed.

(** [DELETE FROM t WHERE P]: the rows that fail [P] stay, the counter
    stays. *)
Lemma filtrar_ok t (P : Z * R -> Prop) `{!forall kv, Decision (P kv)} :
  tabla_ok t -> tabla_ok (mkTabla (filter P (filas t)) (sig_id t)).
Proof.
  intros [Hpos Hk0]. split; [done|]. intros k r Hk. simpl in Hk.
  apply map_lookup_filter_Some in Hk as [Hk _]. eauto.
Qed.

Lemma buscar_insertar t r k :
  tabla_ok t ->
  buscar k (insertar r t).2 = if decide (k = sig_id t) then Some r else buscar k t.
Proof.
  intros _. unfold buscar; simpl. case_decide as Hk.
  - subst. apply lookup_insert_eq.
  - by rewrite lookup_insert_ne by congruence.
Qed.

Lemma buscar_actualizar t k k' f :
  buscar k' (actualizar k f t) =
    if decide (k = k') then f <$> buscar k' t else buscar k' t.
Proof.
  unfold buscar; simpl. case_decide as Hk.
  - subst. apply lookup_alter_eq.
  - by apply lookup_alter_ne.
Qed.
End Tablas.

(** [insertar_ok] on the table [insertar] computes. *)
Lemma insertar_ok_filas {R} (t : Tabla R) (r : R) :
  tabla_ok t -> tabla_ok (mkTabla (<[sig_id t := r]> (filas t)) (sig_id t + 1)).
Proof. exact (insertar_ok t r). Qed.

#[export] Hint Resolve tabla_vacia_ok insertar_ok insertar_ok_filas actualizar_ok borrar_ok
  filtrar_ok : parqueo.
