(* ===== verification/Billing.v ===== *)
(** * Billing: the SQL arithmetic of exit and payment

    [registrarSalida] (tickets.controller.js, lines 176-194) and
    [registrarPago] (pagos.controller.js, lines 24-33 and 66-67, 110-111)
    compute the charge in SQL and JavaScript:
    - [TIMESTAMPDIFF(MINUTE, hora_entrada, hora_salida)]: whole minutes,
      truncated toward zero ([minutos_entre]);
    - [CEIL(minutos / 60.0)]: billable hours ([horas_cobrar]);
    - [CEIL(..) * precio_hora]: the amount ([monto_total]);
    - [monto > montoEsperado ? monto - montoEsperado : 0]: the change.
    Times are seconds, money is cents. *)

From S2P Require Import Prelude.

(** [TIMESTAMPDIFF(MINUTE, a, b)]: MySQL counts whole minutes and
    truncates toward zero. *)
Definition minutos_entre (a b : Z) : Z := Z.quot (b - a) 60.

(** [CEIL(m / 60.0)]: the exact quotient rounded up. *)
Definition horas_cobrar (m : Z) : Z := - ((- m) / 60).

(** [CEIL(TIMESTAMPDIFF(..) / 60.0) * tar.precio_hora]. *)
Definition monto_total (m precio : Z) : Z := horas_cobrar m * precio.

(** The [cambio] field of the payment response:
    [monto > montoEsperado ? (monto - montoEsperado).toFixed(2) : 0]. *)
Definition cambio (monto esperado : Z) : Z :=
  if esperado <? monto then monto - esperado else 0.

(** ** The rounding rule *)

(** [CEIL] is the least whole number of hours covering the minutes. *)
Lemma horas_cobrar_cotas m : 60 * (horas_cobrar m - 1) < m <= 60 * horas_cobrar m.
Proof.
  unfold horas_cobrar.
  pose proof (Z.div_mod (- m) 60 ltac:(lia)).
  pose proof (Z.mod_pos_bound (- m) 60 ltac:(lia)).
  lia.
Qed.

(** The bounds determine the number of hours. *)
Lemma horas_cobrar_unica m h :
  60 * (h - 1) < m <= 60 * h -> horas_cobrar m = h.
Proof. intros H. pose proof (horas_cobrar_cotas m). lia. Qed.

Lemma horas_cobrar_mono m1 m2 : m1 <= m2 -> horas_cobrar m1 <= horas_cobrar m2.
Proof.
  intros H. pose proof (horas_cobrar_cotas m1). pose proof (horas_cobrar_cotas m2). lia.
Qed.

Lemma horas_cobrar_no_neg m : 0 <= m -> 0 <= horas_cobrar m.
Proof. intros H. pose proof (horas_cobrar_cotas m). lia. Qed.

(** Whole minutes of a non-negative stay of [s] seconds. *)
Lemma minutos_entre_cotas a b :
  a <= b -> 60 * minutos_entre a b <= b - a < 60 * minutos_entre a b + 60.
Proof.
  intros H. unfold minutos_entre. rewrite Z.quot_div_nonneg by lia.
  pose proof (Z.div_mod (b - a) 60 ltac:(lia)).
  pose proof (Z.mod_pos_bound (b - a) 60 ltac:(lia)).
  lia.
Qed.

Lemma minutos_entre_no_neg a b : a <= b -> 0 <= minutos_entre a b.
Proof. intros H. pose proof (minutos_entre_cotas a b H). lia. Qed.

#[export] Hint Resolve horas_cobrar_no_neg minutos_entre_no_neg : parqueo.

(** ** Charge of a stay, in seconds *)

(** Billable hours of a stay of [b - a] seconds. *)
Definition horas_estadia (a b : Z) : Z := horas_cobrar (minutos_entre a b).

Lemma monto_total_no_neg m p : 0 <= m -> 0 <= p -> 0 <= monto_total m p.
Proof. intros Hm Hp. unfold monto_total. pose proof (horas_cobrar_no_neg m Hm). nia. Qed.

(** ** Properties of the charge *)

(** The rounding examples of the specification (section 8): a stay
    of 59, 60 and 61 minutes bills 1, 1 and 2 hours; 125 minutes at a
    tariff of 10.00 per hour bills 3 hours and 30.00. *)
Example billing_ejemplos_spec :
  horas_cobrar 59 = 1 /\ horas_cobrar 60 = 1 /\ horas_cobrar 61 = 2 /\
  horas_cobrar 125 = 3 /\ monto_total 125 1000 = 3000.
Proof. repeat split; reflexivity. Qed.

(** C14: for a stay of [b - a >= 0] seconds the billed hours [h] satisfy
    [3600 (h - 1) + 60 <= b - a < 3600 h + 60]: because TIMESTAMPDIFF
    first drops the partial minute, the hour is only charged once the
    stay reaches a whole minute past it. *)
Theorem horas_estadia_cotas a b :
  a <= b ->
  3600 * (horas_estadia a b - 1) + 60 <= b - a < 3600 * horas_estadia a b + 60.
Proof.
  intros Hab. unfold horas_estadia.
  pose proof (minutos_entre_cotas a b Hab).
  pose proof (horas_cobrar_cotas (minutos_entre a b)).
  lia.
Qed.

Lemma horas_estadia_cotas_witness :
  0 <= 3659 /\
  3600 * (horas_estadia 0 3659 - 1) + 60 <= 3659 - 0 < 3600 * horas_estadia 0 3659 + 60.
Proof. split; [lia | apply (horas_estadia_cotas 0 3659); lia]. Defined.

(** A stay shorter than one minute is billed zero hours and costs
    nothing, whatever the tariff. *)
Theorem estadia_gratis a b p :
  0 <= b - a < 60 ->
  horas_estadia a b = 0 /\ monto_total (minutos_entre a b) p = 0.
Proof.
  intros H.
  assert (Hm : minutos_entre a b = 0).
  { unfold minutos_entre. rewrite Z.quot_small by lia. reflexivity. }
  unfold horas_estadia, monto_total. rewrite Hm. split; reflexivity.
Qed.

Lemma estadia_gratis_witness :
  0 <= 100059 - 100000 < 60 /\
  horas_estadia 100000 100059 = 0 /\ monto_total (minutos_entre 100000 100059) 1500 = 0.
Proof. split; [lia | apply (estadia_gratis 100000 100059 1500); lia]. Defined.

(** The change is the overpayment, and nothing for an underpayment. *)
Lemma cambio_max monto esperado : cambio monto esperado = Z.max 0 (monto - esperado).
Proof. unfold cambio. destruct (Z.ltb_spec esperado monto); lia. Qed.
