(* ===== verification/Tickets.v ===== *)
(** * Tickets: entry and exit of a vehicle

    [registrarEntrada] and [registrarSalida] of
    [src/parqueo-api/src/controllers/tickets.controller.js], each a
    transaction on one connection: the guards in the order of the code,
    then the INSERT/UPDATE statements, then the SELECT that shapes the
    response.  The ticket state machine ACTIVO -> CERRADO lives here. *)

From S2P Require Import Prelude Store Billing.

(** ** Helpers on rows *)

(** The JavaScript truthiness of [espacio[0].disponible], which mysql2
    reads as a number: any value but 0 and NULL. *)
Definition disponible (e : Espacio) : bool :=
  match e_disponible e with Some z => negb (z =? 0) | None => false end.

(** [UPDATE Espacios SET disponible = FALSE] / [= TRUE]: 0 or 1. *)
Definition con_disponible (b : bool) (e : Espacio) : Espacio :=
  mkEspacio (e_zona_id e) (e_codigo e) (Some (if b then 1 else 0)).

(** [WHERE vehiculo_id = ? AND estado = "ACTIVO"]. *)
Definition activo_de (vid : Z) (t : Ticket) : bool :=
  (t_vehiculo_id t =? vid) && estado_eqb (t_estado t) ACTIVO.

(** A request field that passed [if (!campo) return ...]. *)
Definition presente (v : option Z) : option Z :=
  if js_truthy_z v then v else None.

(** ** Register entry: [registrarEntrada] (lines 6-122) *)

Record BodyEntrada := mkBodyEntrada {
  be_vehiculo_id : option Z; be_espacio_id : option Z; be_tarifa_id : option Z }.

(** The ticket INSERTed by the entry: [empleado_id] is [req.usuario.id],
    [hora_entrada] the column default [NOW()]. *)
Definition ticket_nuevo (u : Sesion) (vid eid tid ahora : Z) : Ticket :=
  mkTicket vid eid (s_id u) tid ahora None ACTIVO.

Definition registrarEntrada_tx (u : Sesion) (b : BodyEntrada) (d : Db)
    : Ctrl (Z * Ticket) :=
  vid <- de_opcion (presente (be_vehiculo_id b)) (400, ECamposRequeridos) ;;
  eid <- de_opcion (presente (be_espacio_id b)) (400, ECamposRequeridos) ;;
  tid <- de_opcion (presente (be_tarifa_id b)) (400, ECamposRequeridos) ;;
  _ <- de_opcion (buscar vid (vehiculos d)) (404, EVehiculoNoEncontrado) ;;
  e <- de_opcion (buscar eid (espacios d)) (404, EEspacioNoEncontrado) ;;
  exigir (disponible e) (400, EEspacioNoDisponible) ;;;
  exigir (negb (existe (activo_de vid) (filas (tickets d))))
         (400, ETicketActivoExistente) ;;;
  let t := ticket_nuevo u vid eid tid (reloj d) in
  let '(nid, tks) := insertar t (tickets d) in
  let d1 := con_tickets tks d in
  let d2 := con_espacios (actualizar eid (con_disponible false) (espacios d1)) d1 in
  ok (201, (nid, t), d2).

Definition registrarEntrada (u : Sesion) (b : BodyEntrada) (d : Db)
    : Resp (Z * Ticket) * Db :=
  ejecutar (registrarEntrada_tx u b d) d.

(** ** Register exit: [registrarSalida] (lines 127-211) *)

(** [UPDATE Tickets SET hora_salida = NOW(), estado = "CERRADO"]. *)
Definition cerrar (ahora : Z) (t : Ticket) : Ticket :=
  mkTicket (t_vehiculo_id t) (t_espacio_id t) (t_empleado_id t) (t_tarifa_id t)
           (t_hora_entrada t) (Some ahora) CERRADO.

(** The response row of the exit: the closed ticket with
    [minutos_totales], [horas_cobrar] and [monto_total] (NULL when the
    LEFT JOIN finds no tariff or [hora_salida] is NULL). *)
Record VistaSalida := mkVistaSalida {
  vs_id : Z; vs_ticket : Ticket; vs_minutos : option Z; vs_horas : option Z;
  vs_monto : option Z }.

Definition precio_de (d : Db) (t : Ticket) : option Z :=
  buscar (t_tarifa_id t) (tarifas d) ≫= ta_precio_hora.

Definition vista_salida (d : Db) (id : Z) (t : Ticket) : VistaSalida :=
  let m := (fun s => minutos_entre (t_hora_entrada t) s) <$> t_hora_salida t in
  mkVistaSalida id t m (horas_cobrar <$> m)
    (m ≫= fun m => (fun p => monto_total m p) <$> precio_de d t).

Definition registrarSalida_tx (id : Z) (d : Db) : Ctrl VistaSalida :=
  t <- de_opcion (buscar id (tickets d)) (404, ETicketNoEncontrado) ;;
  exigir (negb (estado_eqb (t_estado t) CERRADO)) (400, ETicketYaCerrado) ;;;
  let d1 := con_tickets (actualizar id (cerrar (reloj d)) (tickets d)) d in
  let d2 := con_espacios (actualizar (t_espacio_id t) (con_disponible true)
                                     (espacios d1)) d1 in
  ok (200, vista_salida d2 id (cerrar (reloj d) t), d2).

Definition registrarSalida (id : Z) (d : Db) : Resp VistaSalida * Db :=
  ejecutar (registrarSalida_tx id d) d.

(** ** What a successful call did *)

Lemma registrarEntrada_tx_inr u b d s x d' :
  registrarEntrada_tx u b d = inr (s, x, d') ->
  exists vid eid tid e,
    presente (be_vehiculo_id b) = Some vid /\ presente (be_espacio_id b) = Some eid /\
    presente (be_tarifa_id b) = Some tid /\ is_Some (buscar vid (vehiculos d)) /\
    buscar eid (espacios d) = Some e /\ disponible e = true /\
    existe (activo_de vid) (filas (tickets d)) = false /\
    s = 201 /\ x = (sig_id (tickets d), ticket_nuevo u vid eid tid (reloj d)) /\
    d' = con_espacios (actualizar eid (con_disponible false) (espacios d))
           (con_tickets (insertar (ticket_nuevo u vid eid tid (reloj d)) (tickets d)).2 d).
Proof.
  unfold registrarEntrada_tx. intros H. res_inv.
  simpl in *. injection H6 as <- <- <-. apply negb_true_iff in H5.
  do 4 eexists. repeat split; eauto.
Qed.

Lemma registrarSalida_tx_inr id d s x d' :
  registrarSalida_tx id d = inr (s, x, d') ->
  exists t,
    buscar id (tickets d) = Some t /\ t_estado t = ACTIVO /\ s = 200 /\
    d' = con_espacios (actualizar (t_espacio_id t) (con_disponible true) (espacios d))
           (con_tickets (actualizar id (cerrar (reloj d)) (tickets d)) d) /\
    x = vista_salida d' id (cerrar (reloj d) t).
Proof.
  unfold registrarSalida_tx. intros H. res_inv. simpl in *.
  injection H1 as <- <- <-. exists x0. repeat split; auto.
  destruct (t_estado x0); [done|discriminate].
Qed.

Lemma presente_Some v z : v = Some z -> z <> 0 -> presente v = Some z.
Proof. intros -> Hz. unfold presente. simpl. by rewrite (proj2 (Z.eqb_neq z 0) Hz). Qed.

#[export] Hint Resolve presente_Some : parqueo.

(** ** Entry: behaviour on each branch *)

Section Entrada.
Context (u : Sesion) (b : BodyEntrada) (d : Db) (vid eid tid : Z).
Hypothesis Hv : be_vehiculo_id b = Some vid.
Hypothesis Hv0 : vid <> 0.
Hypothesis He : be_espacio_id b = Some eid.
Hypothesis He0 : eid <> 0.
Hypothesis Ht : be_tarifa_id b = Some tid.
Hypothesis Ht0 : tid <> 0.
Hypothesis Hveh : is_Some (buscar vid (vehiculos d)).

(** The guards up to the space lookup pass: what is left of the body. *)
Lemma registrarEntrada_tx_campos :
  registrarEntrada_tx u b d =
    (e <- de_opcion (buscar eid (espacios d)) (404, EEspacioNoEncontrado) ;;
     exigir (disponible e) (400, EEspacioNoDisponible) ;;;
     exigir (negb (existe (activo_de vid) (filas (tickets d))))
            (400, ETicketActivoExistente) ;;;
     let t := ticket_nuevo u vid eid tid (reloj d) in
     ok (201, (sig_id (tickets d), t),
         con_espacios (actualizar eid (con_disponible false) (espacios d))
           (con_tickets (insertar t (tickets d)).2 d))).
Proof.
  unfold registrarEntrada_tx.
  rewrite (presente_Some _ _ Hv Hv0), (presente_Some _ _ He He0), (presente_Some _ _ Ht Ht0).
  destruct Hveh as [v Hv']. simpl. rewrite Hv'. reflexivity.
Qed.

(** C1: with every field present, an existing vehicle without an active
    ticket and an available space, the entry answers 201 with a new
    ACTIVO ticket at the next id, entered now, with no exit time and the
    caller as [empleado_id]; the space becomes unavailable; no other
    ticket or space, and no vehicle, tariff or payment row, changes. *)
Theorem registrarEntrada_exito e :
  buscar eid (espacios d) = Some e -> disponible e = true ->
  existe (activo_de vid) (filas (tickets d)) = false ->
  let k := sig_id (tickets d) in
  let t := mkTicket vid eid (s_id u) tid (reloj d) None ACTIVO in
  exists d',
    registrarEntrada u b d = (ROk 201 (k, t), d') /\
    buscar k (tickets d') = Some t /\
    buscar eid (espacios d') = Some (con_disponible false e) /\
    (forall k', k' <> k -> buscar k' (tickets d') = buscar k' (tickets d)) /\
    (forall e', e' <> eid -> buscar e' (espacios d') = buscar e' (espacios d)) /\
    vehiculos d' = vehiculos d /\ tarifas d' = tarifas d /\
    pagos d' = pagos d /\ reloj d' = reloj d.
Proof.
  intros Hesp Hdisp Hact. cbv zeta. unfold registrarEntrada.
  rewrite registrarEntrada_tx_campos, Hesp. simpl.
  rewrite Hdisp, Hact. simpl. eexists. split; [reflexivity|].
  unfold buscar in *; simpl. rewrite lookup_insert_eq, lookup_alter_eq, Hesp.
  repeat split; try reflexivity.
  - intros k' Hk'. by rewrite lookup_insert_ne by congruence.
  - intros e' He'. by rewrite lookup_alter_ne by congruence.
Qed.

(** C2: an entry into an occupied space answers 400 "Espacio no
    disponible" and writes nothing. *)
Theorem registrarEntrada_espacio_ocupado e :
  buscar eid (espacios d) = Some e -> disponible e = false ->
  registrarEntrada u b d = (RErr 400 EEspacioNoDisponible, d).
Proof.
  intros Hesp Hdisp. unfold registrarEntrada.
  rewrite registrarEntrada_tx_campos, Hesp. simpl.
  rewrite Hdisp. reflexivity.
Qed.

(** C3: an entry for a vehicle that already has an ACTIVO ticket answers
    400 "Ticket activo existente" and writes nothing. *)
Theorem registrarEntrada_ticket_activo e :
  buscar eid (espacios d) = Some e -> disponible e = true ->
  existe (activo_de vid) (filas (tickets d)) = true ->
  registrarEntrada u b d = (RErr 400 ETicketActivoExistente, d).
Proof.
  intros Hesp Hdisp Hact. unfold registrarEntrada.
  rewrite registrarEntrada_tx_campos, Hesp. simpl.
  rewrite Hdisp, Hact. reflexivity.
Qed.
End Entrada.

(** ** Exit: behaviour on each branch *)

Lemma registrarSalida_cerrado id d t :
  buscar id (tickets d) = Some t -> t_estado t = CERRADO ->
  registrarSalida id d = (RErr 400 ETicketYaCerrado, d).
Proof.
  intros Ht Hc. unfold registrarSalida, registrarSalida_tx. rewrite Ht. simpl.
  by rewrite Hc.
Qed.

Section Salida.
Context (id : Z) (d : Db) (t : Ticket).
Hypothesis Ht : buscar id (tickets d) = Some t.

(** The database after a successful exit. *)
Definition db_tras_salida : Db :=
  con_espacios (actualizar (t_espacio_id t) (con_disponible true) (espacios d))
    (con_tickets (actualizar id (cerrar (reloj d)) (tickets d)) d).

Lemma registrarSalida_tx_activo :
  t_estado t = ACTIVO ->
  registrarSalida_tx id d =
    inr (200, vista_salida db_tras_salida id (cerrar (reloj d) t), db_tras_salida).
Proof. intros Hact. unfold registrarSalida_tx. rewrite Ht. simpl. by rewrite Hact. Qed.

(** C4: the exit of an ACTIVO ticket answers 200; the ticket becomes
    CERRADO with [hora_salida = NOW()]; its space becomes available; no
    other ticket or space changes; the response carries the whole
    minutes of the stay, the hours rounded up, and hours times the
    tariff's hourly price (NULL when the tariff row is missing). *)
Theorem registrarSalida_exito :
  t_estado t = ACTIVO ->
  exists v d',
    registrarSalida id d = (ROk 200 v, d') /\
    buscar id (tickets d') = Some (cerrar (reloj d) t) /\
    t_estado (cerrar (reloj d) t) = CERRADO /\
    buscar (t_espacio_id t) (espacios d') =
      con_disponible true <$> buscar (t_espacio_id t) (espacios d) /\
    (forall k, k <> id -> buscar k (tickets d') = buscar k (tickets d)) /\
    (forall e, e <> t_espacio_id t -> buscar e (espacios d') = buscar e (espacios d)) /\
    vs_minutos v = Some (minutos_entre (t_hora_entrada t) (reloj d)) /\
    vs_horas v = Some (horas_estadia (t_hora_entrada t) (reloj d)) /\
    vs_monto v = monto_total (minutos_entre (t_hora_entrada t) (reloj d)) <$> precio_de d t.
Proof.
  intros Hact. unfold registrarSalida. rewrite (registrarSalida_tx_activo Hact).
  do 2 eexists. split; [reflexivity|].
  unfold db_tras_salida, buscar in *; simpl.
  rewrite lookup_alter_eq, Ht. repeat split; try reflexivity.
  - apply lookup_alter_eq.
  - intros k Hk. by rewrite lookup_alter_ne by congruence.
  - intros e He. by rewrite lookup_alter_ne by congruence.
Qed.

(** C5: calling the exit twice on the same ticket: the first call
    succeeds, the second answers 400 "Ticket ya cerrado" and writes
    nothing (the exit is not idempotent). *)
Theorem registrarSalida_dos_veces :
  t_estado t = ACTIVO ->
  exists v d1,
    registrarSalida id d = (ROk 200 v, d1) /\
    registrarSalida id d1 = (RErr 400 ETicketYaCerrado, d1).
Proof.
  intros Hact. unfold registrarSalida at 1. rewrite (registrarSalida_tx_activo Hact).
  do 2 eexists. split; [reflexivity|].
  apply (registrarSalida_cerrado id db_tras_salida (cerrar (reloj d) t)); [|reflexivity].
  unfold db_tras_salida, buscar in *; simpl. by rewrite lookup_alter_eq, Ht.
Qed.
End Salida.

(** ** A small parking lot to run the controllers on

    Vehicle 1 (plate P123ABC), space 1 (A-01, free), tariff 1 (10.00 per
    hour), the clock at 10:00 (36000 s); the caller is user 7. *)

Definition sesion_demo : Sesion :=
  mkSesion 7 "Ana" "ana@parqueo.gt" (Some "EMPLEADO").

Definition db_demo : Db :=
  con_reloj 36000
    (con_tarifas (insertar (mkTarifa (Some "Normal") (Some 1000)) tabla_vacia).2
      (con_espacios (insertar (mkEspacio (Some 1) (Some "A-01") (Some 1)) tabla_vacia).2
        (con_vehiculos
          (insertar (mkVehiculo (Some 1) (Some "P123ABC") None None None) tabla_vacia).2
          db_vacia))).

Definition entrada_demo : BodyEntrada := mkBodyEntrada (Some 1) (Some 1) (Some 1).

Lemma registrarEntrada_exito_witness :
  exists d', registrarEntrada sesion_demo entrada_demo db_demo =
             (ROk 201 (1, mkTicket 1 1 7 1 36000 None ACTIVO), d').
Proof.
  destruct (registrarEntrada_exito sesion_demo entrada_demo db_demo 1 1 1
              eq_refl ltac:(lia) eq_refl ltac:(lia) eq_refl ltac:(lia)
              ltac:(eexists; reflexivity) (mkEspacio (Some 1) (Some "A-01") (Some 1))
              eq_refl eq_refl eq_refl) as (d' & H & _).
  exists d'. exact H.
Defined.

(** The lot after vehicle 1 entered: ticket 1 ACTIVO, space 1 occupied. *)
Definition db_demo_ocupado : Db := snd (registrarEntrada sesion_demo entrada_demo db_demo).

Lemma registrarEntrada_espacio_ocupado_witness :
  registrarEntrada sesion_demo (mkBodyEntrada (Some 1) (Some 1) (Some 1)) db_demo_ocupado =
    (RErr 400 EEspacioNoDisponible, db_demo_ocupado).
Proof.
  apply (registrarEntrada_espacio_ocupado sesion_demo (mkBodyEntrada (Some 1) (Some 1) (Some 1)) db_demo_ocupado 1 1 1
           eq_refl ltac:(lia) eq_refl ltac:(lia) eq_refl ltac:(lia)
           ltac:(eexists; reflexivity) (mkEspacio (Some 1) (Some "A-01") (Some 0)));
    vm_compute; reflexivity.
Defined.

(** The same lot with a second free space 2 (B-01). *)
Definition db_demo_dos : Db :=
  con_espacios (insertar (mkEspacio (Some 1) (Some "B-01") (Some 1))
                  (espacios db_demo_ocupado)).2 db_demo_ocupado.

Lemma registrarEntrada_ticket_activo_witness :
  registrarEntrada sesion_demo (mkBodyEntrada (Some 1) (Some 2) (Some 1)) db_demo_dos =
    (RErr 400 ETicketActivoExistente, db_demo_dos).
Proof.
  apply (registrarEntrada_ticket_activo sesion_demo (mkBodyEntrada (Some 1) (Some 2) (Some 1)) db_demo_dos 1 2 1
           eq_refl ltac:(lia) eq_refl ltac:(lia) eq_refl ltac:(lia)
           ltac:(eexists; reflexivity) (mkEspacio (Some 1) (Some "B-01") (Some 1)));
    vm_compute; reflexivity.
Defined.

(** The ticket of the lot, 2 h 5 min (7500 s) after the entry. *)
Definition db_demo_tarde : Db := con_reloj (36000 + 7500) db_demo_ocupado.

Lemma registrarSalida_exito_witness :
  exists v d', registrarSalida 1 db_demo_tarde = (ROk 200 v, d') /\
               vs_horas v = Some 3 /\ vs_monto v = Some 3000.
Proof.
  destruct (registrarSalida_exito 1 db_demo_tarde (mkTicket 1 1 7 1 36000 None ACTIVO)
              ltac:(vm_compute; reflexivity) eq_refl)
    as (v & d' & H & _ & _ & _ & _ & _ & _ & Hh & Hm).
  exists v, d'. split; [exact H|]. rewrite Hh, Hm. split; reflexivity.
Defined.

Lemma registrarSalida_dos_veces_witness :
  exists v d1, registrarSalida 1 db_demo_tarde = (ROk 200 v, d1) /\
               registrarSalida 1 d1 = (RErr 400 ETicketYaCerrado, d1).
Proof.
  exact (registrarSalida_dos_veces 1 db_demo_tarde (mkTicket 1 1 7 1 36000 None ACTIVO)
           ltac:(vm_compute; reflexivity) eq_refl).
Defined.
