(* ===== verification/Pagos.v ===== *)
(** * Pagos: registering the payment of a closed ticket

    [registrarPago] of [src/parqueo-api/src/controllers/pagos.controller.js]
    (lines 6-124): four guards, the expected amount recomputed from the
    ticket's stay and its tariff, the INSERT of the payment row, and the
    change returned for an overpayment. *)

From S2P Require Import Prelude Store Billing Tickets.

Record BodyPago := mkBodyPago {
  bp_ticket_id : option Z; bp_tipo_pago_id : option Z; bp_monto : option Z }.

(** JavaScript arithmetic on a nullable SQL value: [null * x = 0]. *)
Definition js_num (v : option Z) : Z := default 0 v.

(** [horas_cobrar] of the SELECT (lines 24-33): NULL while [hora_salida]
    is NULL. *)
Definition horas_de (t : Ticket) : option Z :=
  (fun s => horas_estadia (t_hora_entrada t) s) <$> t_hora_salida t.

(** [const montoEsperado = ticket.horas_cobrar * ticket.precio_hora]. *)
Definition monto_esperado (d : Db) (t : Ticket) : Z :=
  js_num (horas_de t) * js_num (precio_de d t).

(** [SELECT id FROM Pagos WHERE ticket_id = ?]. *)
Definition pago_de (tid : Z) (p : Pago) : bool := p_ticket_id p =? tid.

(** The 201 response: the stored payment, [monto_esperado] and [cambio]. *)
Record RespPago := mkRespPago {
  rp_id : Z; rp_pago : Pago; rp_esperado : Z; rp_cambio : Z }.

Definition registrarPago_tx (b : BodyPago) (d : Db) : Ctrl RespPago :=
  tid <- de_opcion (presente (bp_ticket_id b)) (400, ECamposRequeridos) ;;
  tpid <- de_opcion (presente (bp_tipo_pago_id b)) (400, ECamposRequeridos) ;;
  monto <- de_opcion (presente (bp_monto b)) (400, ECamposRequeridos) ;;
  t <- de_opcion (buscar tid (tickets d)) (404, ETicketNoEncontrado) ;;
  exigir (estado_eqb (t_estado t) CERRADO) (400, ETicketNoCerrado) ;;;
  exigir (negb (existe (pago_de tid) (filas (pagos d)))) (409, EPagoYaRegistrado) ;;;
  let esperado := monto_esperado d t in
  _ <- de_opcion (buscar tpid (tipos_pago d)) (404, ETipoPagoNoEncontrado) ;;
  let p := mkPago tid tpid monto (reloj d) in
  let '(pid, pgs) := insertar p (pagos d) in
  ok (201, mkRespPago pid p esperado (cambio monto esperado), con_pagos pgs d).

Definition registrarPago (b : BodyPago) (d : Db) : Resp RespPago * Db :=
  ejecutar (registrarPago_tx b d) d.

(** ** What a successful payment did *)

Lemma registrarPago_tx_inr b d s x d' :
  registrarPago_tx b d = inr (s, x, d') ->
  exists tid tpid monto t,
    presente (bp_ticket_id b) = Some tid /\ presente (bp_tipo_pago_id b) = Some tpid /\
    presente (bp_monto b) = Some monto /\ buscar tid (tickets d) = Some t /\
    t_estado t = CERRADO /\ existe (pago_de tid) (filas (pagos d)) = false /\
    is_Some (buscar tpid (tipos_pago d)) /\ s = 201 /\
    x = mkRespPago (sig_id (pagos d)) (mkPago tid tpid monto (reloj d))
          (monto_esperado d t) (cambio monto (monto_esperado d t)) /\
    d' = con_pagos (insertar (mkPago tid tpid monto (reloj d)) (pagos d)).2 d.
Proof.
  unfold registrarPago_tx. intros H. res_inv. res_fin.
  match goal with H : negb _ = true |- _ => apply negb_true_iff in H end.
  do 4 eexists. repeat split; eauto.
  match goal with H : estado_eqb _ _ = true |- _ => revert H end.
  by destruct (t_estado _).
Qed.

Section Pago.
Context (b : BodyPago) (d : Db) (tid tpid monto : Z) (t : Ticket).
Hypothesis Htid : bp_ticket_id b = Some tid.
Hypothesis Htid0 : tid <> 0.
Hypothesis Htp : bp_tipo_pago_id b = Some tpid.
Hypothesis Htp0 : tpid <> 0.
Hypothesis Hm : bp_monto b = Some monto.
Hypothesis Hm0 : monto <> 0.
Hypothesis Ht : buscar tid (tickets d) = Some t.

Lemma registrarPago_tx_campos :
  registrarPago_tx b d =
    (exigir (estado_eqb (t_estado t) CERRADO) (400, ETicketNoCerrado) ;;;
     exigir (negb (existe (pago_de tid) (filas (pagos d)))) (409, EPagoYaRegistrado) ;;;
     _ <- de_opcion (buscar tpid (tipos_pago d)) (404, ETipoPagoNoEncontrado) ;;
     let p := mkPago tid tpid monto (reloj d) in
     ok (201, mkRespPago (sig_id (pagos d)) p (monto_esperado d t)
                (cambio monto (monto_esperado d t)),
         con_pagos (insertar p (pagos d)).2 d)).
Proof.
  unfold registrarPago_tx.
  rewrite (presente_Some _ _ Htid Htid0), (presente_Some _ _ Htp Htp0),
    (presente_Some _ _ Hm Hm0).
  simpl. rewrite Ht. reflexivity.
Qed.

(** C11: the payment of a CERRADO ticket with no payment yet and an
    existing payment type answers 201; the expected amount is the billed
    hours of the stay times the tariff's price, recomputed from the
    ticket and never taken from the request; the change is the
    overpayment or 0; the row INSERTed at the next id records the
    tendered amount; no other table changes. *)
Theorem registrarPago_exito s p :
  t_estado t = CERRADO -> t_hora_salida t = Some s ->
  precio_de d t = Some p ->
  existe (pago_de tid) (filas (pagos d)) = false ->
  is_Some (buscar tpid (tipos_pago d)) ->
  let esperado := horas_estadia (t_hora_entrada t) s * p in
  exists d',
    registrarPago b d =
      (ROk 201 (mkRespPago (sig_id (pagos d)) (mkPago tid tpid monto (reloj d))
                 esperado (Z.max 0 (monto - esperado))), d') /\
    buscar (sig_id (pagos d)) (pagos d') = Some (mkPago tid tpid monto (reloj d)) /\
    tickets d' = tickets d /\ espacios d' = espacios d /\ tarifas d' = tarifas d.
Proof.
  intros Hc Hs Hp Hno [tp Htp'] esperado.
  assert (He : monto_esperado d t = esperado).
  { unfold monto_esperado, horas_de, esperado. by rewrite Hs, Hp. }
  unfold registrarPago. rewrite registrarPago_tx_campos, Hc, Hno, Htp'. simpl.
  rewrite He, cambio_max. eexists. repeat split.
  unfold buscar. simpl. apply lookup_insert_eq.
Qed.

(** C12: a second payment for a ticket that already has one answers
    409 "Pago ya registrado" and creates no row. *)
Theorem registrarPago_duplicado :
  t_estado t = CERRADO -> existe (pago_de tid) (filas (pagos d)) = true ->
  registrarPago b d = (RErr 409 EPagoYaRegistrado, d).
Proof.
  intros Hc Hya. unfold registrarPago. rewrite registrarPago_tx_campos, Hc, Hya.
  reflexivity.
Qed.

(** C13: a payment against a ticket that is still ACTIVO answers 400
    "Ticket no cerrado" and creates no row. *)
Theorem registrarPago_no_cerrado :
  t_estado t = ACTIVO -> registrarPago b d = (RErr 400 ETicketNoCerrado, d).
Proof.
  intros Ha. unfold registrarPago. rewrite registrarPago_tx_campos, Ha. reflexivity.
Qed.
End Pago.

(** C19: a negative tendered amount passes the [!monto] check and is
    recorded: the payment answers 201 with no change, and the row stores
    the negative amount.  Underpayment is accepted as the specification
    notes (section 9); nothing rejects a negative one either. *)
Theorem registrarPago_acepta_negativo b d tid tpid monto t :
  bp_ticket_id b = Some tid -> tid <> 0 -> bp_tipo_pago_id b = Some tpid -> tpid <> 0 ->
  bp_monto b = Some monto -> monto < 0 ->
  buscar tid (tickets d) = Some t -> t_estado t = CERRADO ->
  0 <= monto_esperado d t ->
  existe (pago_de tid) (filas (pagos d)) = false ->
  is_Some (buscar tpid (tipos_pago d)) ->
  exists r d',
    registrarPago b d = (ROk 201 r, d') /\ rp_cambio r = 0 /\
    buscar (rp_id r) (pagos d') = Some (mkPago tid tpid monto (reloj d)).
Proof.
  intros Htid Htid0 Htp Htp0 Hm Hneg Ht Hc Hesp Hno [tp Htp'].
  unfold registrarPago. rewrite (registrarPago_tx_campos b d tid tpid monto t); try done; [|lia].
  rewrite Hc, Hno, Htp'. simpl. do 2 eexists. split; [reflexivity|]. simpl. split.
  - rewrite cambio_max. lia.
  - unfold buscar. simpl. apply lookup_insert_eq.
Qed.

(** ** Payments on the demo lot *)

(** The demo lot after the exit of ticket 1 at 12:05, with payment type 1
    (cash): the stay is 125 minutes, 3 billed hours, 30.00. *)
Definition db_pago_demo : Db :=
  con_tipos_pago (insertar (mkTipoPago (Some "Efectivo")) tabla_vacia).2
    (snd (registrarSalida 1 db_demo_tarde)).

Definition ticket_cerrado_demo : Ticket := mkTicket 1 1 7 1 36000 (Some 43500) CERRADO.

Lemma db_pago_demo_ticket : buscar 1 (tickets db_pago_demo) = Some ticket_cerrado_demo.
Proof. vm_compute. reflexivity. Qed.

Lemma registrarPago_exito_witness :
  exists d', registrarPago (mkBodyPago (Some 1) (Some 1) (Some 5000)) db_pago_demo =
    (ROk 201 (mkRespPago 1 (mkPago 1 1 5000 43500) 3000 2000), d').
Proof.
  pose proof (registrarPago_exito (mkBodyPago (Some 1) (Some 1) (Some 5000)) db_pago_demo
              1 1 5000 ticket_cerrado_demo eq_refl ltac:(lia) eq_refl ltac:(lia) eq_refl
              ltac:(lia) db_pago_demo_ticket 43500 1000 eq_refl eq_refl
              ltac:(vm_compute; reflexivity) ltac:(vm_compute; reflexivity)
              ltac:(eexists; vm_compute; reflexivity)) as Hx.
  cbv zeta in Hx. destruct Hx as (d' & H & _).
  exists d'. exact H.
Defined.

Lemma registrarPago_duplicado_witness :
  let d := snd (registrarPago (mkBodyPago (Some 1) (Some 1) (Some 5000)) db_pago_demo) in
  registrarPago (mkBodyPago (Some 1) (Some 1) (Some 3000)) d = (RErr 409 EPagoYaRegistrado, d).
Proof.
  intros d.
  exact (registrarPago_duplicado (mkBodyPago (Some 1) (Some 1) (Some 3000)) d 1 1 3000
           ticket_cerrado_demo eq_refl ltac:(lia) eq_refl ltac:(lia) eq_refl ltac:(lia)
           ltac:(vm_compute; reflexivity) eq_refl ltac:(vm_compute; reflexivity)).
Defined.

Lemma registrarPago_no_cerrado_witness :
  registrarPago (mkBodyPago (Some 1) (Some 1) (Some 5000)) db_demo_ocupado =
    (RErr 400 ETicketNoCerrado, db_demo_ocupado).
Proof.
  exact (registrarPago_no_cerrado (mkBodyPago (Some 1) (Some 1) (Some 5000)) db_demo_ocupado
           1 1 5000 (mkTicket 1 1 7 1 36000 None ACTIVO) eq_refl ltac:(lia) eq_refl
           ltac:(lia) eq_refl ltac:(lia) ltac:(vm_compute; reflexivity) eq_refl).
Defined.

Lemma registrarPago_acepta_negativo_witness :
  exists r d', registrarPago (mkBodyPago (Some 1) (Some 1) (Some (-5000))) db_pago_demo =
    (ROk 201 r, d') /\ rp_cambio r = 0 /\
    buscar (rp_id r) (pagos d') = Some (mkPago 1 1 (-5000) 43500).
Proof.
  exact (registrarPago_acepta_negativo (mkBodyPago (Some 1) (Some 1) (Some (-5000)))
           db_pago_demo 1 1 (-5000) ticket_cerrado_demo eq_refl ltac:(lia) eq_refl
           ltac:(lia) eq_refl ltac:(lia) db_pago_demo_ticket eq_refl
           ltac:(vm_compute; discriminate) ltac:(vm_compute; reflexivity)
           ltac:(eexists; vm_compute; reflexivity)).
Defined.

(** [registrarEntrada] never checks that [tarifa_id] exists.  A
    vehicle entered with tariff 9, which does not exist, leaves with a
    NULL amount, and its payment expects 0: any tendered amount is all
    change. *)
Theorem tarifa_inexistente_gratis :
  let d1 := snd (registrarEntrada sesion_demo (mkBodyEntrada (Some 1) (Some 1) (Some 9)) db_demo) in
  let d2 := snd (registrarSalida 1 (con_reloj 43500 d1)) in
  let d3 := con_tipos_pago (insertar (mkTipoPago (Some "Efectivo")) tabla_vacia).2 d2 in
  buscar 9 (tarifas db_demo) = None /\
  (exists v, fst (registrarSalida 1 (con_reloj 43500 d1)) = ROk 200 v /\ vs_monto v = None) /\
  exists d4, registrarPago (mkBodyPago (Some 1) (Some 1) (Some 5000)) d3 =
    (ROk 201 (mkRespPago 1 (mkPago 1 1 5000 43500) 0 5000), d4).
Proof.
  split; [vm_compute; reflexivity|]. split.
  - eexists. split; [vm_compute; reflexivity | reflexivity].
  - eexists. vm_compute. reflexivity.
Qed.
