(* ===== verification/Espacios.v ===== *)
(** * Espacios: the parking spaces and their availability flag

    The controllers of [src/parqueo-api/src/controllers/espacios.controller.js]
    that write the [Espacios] table: [crearEspacio], [actualizarEspacio],
    [cambiarDisponibilidad] and [eliminarEspacio], and the counts of
    [listarEspacios].  The availability flag is shared with the ticket
    controllers: [registrarEntrada] clears it and [registrarSalida] sets it,
    but the two manual controllers here write it with no check of the
    tickets. *)

From S2P Require Import Prelude Store Tickets.

(** The body of [crearEspacio] and [actualizarEspacio]; an absent field
    is [None] ([undefined]), distinct from [Some JNull] ([null]). *)
Record BodyEspacio := mkBodyEspacio {
  bs_zona_id : option Z; bs_codigo : option string; bs_disponible : option Json }.

(** ** [crearEspacio] (lines 105-166) *)

(** [SELECT id FROM Espacios WHERE codigo = ?]. *)
Definition con_codigo (cod : string) (e : Espacio) : bool :=
  match e_codigo e with Some c => String.eqb c cod | None => false end.

Definition crearEspacio_tx (b : BodyEspacio) (d : Db) : Ctrl (Z * Espacio) :=
  zid <- de_opcion (presente (bs_zona_id b)) (400, ECamposRequeridos) ;;
  cod <- de_opcion (presente_s (bs_codigo b)) (400, ECamposRequeridos) ;;
  _ <- de_opcion (buscar zid (zonas d)) (404, EZonaNoEncontrada) ;;
  exigir (negb (existe (con_codigo cod) (filas (espacios d)))) (409, ECodigoDuplicado) ;;;
  (* disponible !== undefined ? disponible : true *)
  disp <- de_opcion (tinyint (default (JBool true) (bs_disponible b))) (500, EErrorCrearEspacio) ;;
  let e := mkEspacio (Some zid) (Some (to_upper cod)) disp in
  let '(eid, esps) := insertar e (espacios d) in
  ok (201, (eid, e), con_espacios esps d).

Definition crearEspacio (b : BodyEspacio) (d : Db) : Resp (Z * Espacio) * Db :=
  ejecutar (crearEspacio_tx b d) d.

(** ** [actualizarEspacio] (lines 171-212)

    Every column is overwritten by the request field, [undefined]
    included (mysql2 sends it as NULL). *)
Definition actualizarEspacio_tx (id : Z) (b : BodyEspacio) (d : Db) : Ctrl Espacio :=
  _ <- de_opcion (buscar id (espacios d)) (404, EEspacioNoEncontrado) ;;
  disp <- de_opcion (tinyint (default JNull (bs_disponible b))) (500, EErrorActualizarEspacio) ;;
  let e := mkEspacio (bs_zona_id b) (to_upper <$> bs_codigo b) disp in
  ok (200, e, con_espacios (actualizar id (fun _ => e) (espacios d)) d).

Definition actualizarEspacio (id : Z) (b : BodyEspacio) (d : Db) : Resp Espacio * Db :=
  ejecutar (actualizarEspacio_tx id b d) d.

(** ** [cambiarDisponibilidad] (lines 217-255) *)
Definition cambiarDisponibilidad_tx (id : Z) (v : option Json) (d : Db) : Ctrl Espacio :=
  e <- de_opcion (buscar id (espacios d)) (404, EEspacioNoEncontrado) ;;
  disp <- de_opcion (tinyint (default JNull v)) (500, EErrorCambiarDisponibilidad) ;;
  let e' := mkEspacio (e_zona_id e) (e_codigo e) disp in
  ok (200, e', con_espacios (actualizar id (fun e => mkEspacio (e_zona_id e) (e_codigo e) disp)
                                         (espacios d)) d).

Definition cambiarDisponibilidad (id : Z) (v : option Json) (d : Db)
    : Resp Espacio * Db :=
  ejecutar (cambiarDisponibilidad_tx id v d) d.

(** ** [eliminarEspacio] (lines 260-301) *)

(** [SELECT COUNT( * ) as total FROM Tickets WHERE espacio_id = ?]. *)
Definition en_espacio (id : Z) (t : Ticket) : bool := t_espacio_id t =? id.

Definition eliminarEspacio_tx (id : Z) (d : Db) : Ctrl unit :=
  _ <- de_opcion (buscar id (espacios d)) (404, EEspacioNoEncontrado) ;;
  exigir (Nat.eqb (contar (en_espacio id) (filas (tickets d))) 0) (400, ENoSePuedeEliminar) ;;;
  ok (200, tt, con_espacios (borrar id (espacios d)) d).

Definition eliminarEspacio (id : Z) (d : Db) : Resp unit * Db :=
  ejecutar (eliminarEspacio_tx id d) d.

(** ** [listarEspacios] (lines 6-29): the counts of the response *)

Record ConteoEspacios := mkConteo { ce_total : nat; ce_disponibles : nat; ce_ocupados : nat }.

Definition listarEspacios (d : Db) : ConteoEspacios :=
  let es := (map_to_list (filas (espacios d))).*2 in
  mkConteo (length es) (length (filter (fun e => disponible e = true) es))
           (length (filter (fun e => disponible e = false) es)).

(** ** What a successful call did *)

Lemma crearEspacio_tx_inr b d s x d' :
  crearEspacio_tx b d = inr (s, x, d') ->
  exists zid cod disp, is_Some (buscar zid (zonas d)) /\
    d' = con_espacios (insertar (mkEspacio (Some zid) (Some (to_upper cod)) disp)
                        (espacios d)).2 d.
Proof.
  unfold crearEspacio_tx. intros H. res_inv. res_fin. eauto.
Qed.

Lemma eliminarEspacio_tx_inr id d s x d' :
  eliminarEspacio_tx id d = inr (s, x, d') ->
  existe (en_espacio id) (filas (tickets d)) = false /\
  d' = con_espacios (borrar id (espacios d)) d.
Proof.
  unfold eliminarEspacio_tx. intros H. res_inv. res_fin. split; [|done].
  apply contar_cero. by apply Nat.eqb_eq.
Qed.

(** [cambiarDisponibilidad] with an integer of TINYINT range stores it. *)
Lemma cambiarDisponibilidad_guarda k e z d :
  buscar k (espacios d) = Some e -> -128 <= z <= 127 ->
  buscar k (espacios (snd (cambiarDisponibilidad k (Some (JNum z)) d))) =
    Some (mkEspacio (e_zona_id e) (e_codigo e) (Some z)).
Proof.
  intros He Hz. unfold cambiarDisponibilidad, cambiarDisponibilidad_tx. rewrite He.
  cbn [res_bind de_opcion default from_option id]. rewrite tinyint_rango by done. cbn.
  by rewrite buscar_actualizar, decide_True, He.
Qed.
