(* ===== verification/Catalogos.v ===== *)
(** * Catalogos: clients, vehicles, zones, tariffs and payment types

    The controllers that write the catalogue tables the ticket lifecycle
    reads: [clientes.controller.js], [vehiculos.controller.js],
    [zonas.controller.js], [tarifas.controller.js] and
    [tipospago.controller.js].  Each is a chain of guards followed by one
    INSERT, UPDATE or DELETE.  The delete controllers refuse a row that
    other rows still reference ([COUNT( * ) > 0]). *)

From S2P Require Import Prelude Store Tickets.

(** ** Clients (clientes.controller.js) *)

Record BodyCliente := mkBodyCliente {
  bc_nombre : option string; bc_telefono : option string;
  bc_correo : option string; bc_nit : option string }.

(** [crearCliente] (lines 61-97). *)
Definition crearCliente_tx (b : BodyCliente) (d : Db) : Ctrl (Z * Cliente) :=
  _ <- de_opcion (presente_s (bc_nombre b)) (400, ECampoRequerido) ;;
  let c := mkCliente (bc_nombre b) (bc_telefono b) (bc_correo b) (bc_nit b) in
  let '(cid, cs) := insertar c (clientes d) in
  ok (201, (cid, c), con_clientes cs d).

(** [eliminarCliente] (lines 149-193). *)
Definition eliminarCliente_tx (id : Z) (d : Db) : Ctrl unit :=
  _ <- de_opcion (buscar id (clientes d)) (404, EClienteNoEncontrado) ;;
  exigir (Nat.eqb (contar (fun v => bool_decide (v_cliente_id v = Some id)) (filas (vehiculos d))) 0)
         (400, ENoSePuedeEliminar) ;;;
  ok (200, tt, con_clientes (borrar id (clientes d)) d).

(** [actualizarCliente] (lines 102-144): every column is overwritten by
    the request field. *)
Definition actualizarCliente_tx (id : Z) (b : BodyCliente) (d : Db) : Ctrl Cliente :=
  _ <- de_opcion (buscar id (clientes d)) (404, EClienteNoEncontrado) ;;
  let c := mkCliente (bc_nombre b) (bc_telefono b) (bc_correo b) (bc_nit b) in
  ok (200, c, con_clientes (actualizar id (fun _ => c) (clientes d)) d).

(** ** Vehicles (vehiculos.controller.js) *)

Record BodyVehiculo := mkBodyVehiculo {
  bv_cliente_id : option Z; bv_placa : option string; bv_marca : option string;
  bv_modelo : option string; bv_color : option string }.

(** [SELECT id FROM Vehiculos WHERE placa = ?]. *)
Definition con_placa (placa : string) (v : Vehiculo) : bool :=
  bool_decide (v_placa v = Some placa).

(** [crearVehiculo] (lines 101-166): the plate is checked as sent and
    stored upper-cased. *)
Definition crearVehiculo_tx (b : BodyVehiculo) (d : Db) : Ctrl (Z * Vehiculo) :=
  cid <- de_opcion (presente (bv_cliente_id b)) (400, ECamposRequeridos) ;;
  placa <- de_opcion (presente_s (bv_placa b)) (400, ECamposRequeridos) ;;
  _ <- de_opcion (buscar cid (clientes d)) (404, EClienteNoEncontrado) ;;
  exigir (negb (existe (con_placa placa) (filas (vehiculos d)))) (409, EPlacaDuplicada) ;;;
  let v := mkVehiculo (Some cid) (Some (to_upper placa)) (bv_marca b) (bv_modelo b)
                      (bv_color b) in
  let '(vid, vs) := insertar v (vehiculos d) in
  ok (201, (vid, v), con_vehiculos vs d).

(** [actualizarVehiculo] (lines 171-215): every column is overwritten,
    with no check that the client exists or that the plate is free. *)
Definition actualizarVehiculo_tx (id : Z) (b : BodyVehiculo) (d : Db) : Ctrl Vehiculo :=
  _ <- de_opcion (buscar id (vehiculos d)) (404, EVehiculoNoEncontrado) ;;
  let v := mkVehiculo (bv_cliente_id b) (to_upper <$> bv_placa b) (bv_marca b)
                      (bv_modelo b) (bv_color b) in
  ok (200, v, con_vehiculos (actualizar id (fun _ => v) (vehiculos d)) d).

(** [eliminarVehiculo] (lines 220-263). *)
Definition eliminarVehiculo_tx (id : Z) (d : Db) : Ctrl unit :=
  _ <- de_opcion (buscar id (vehiculos d)) (404, EVehiculoNoEncontrado) ;;
  exigir (Nat.eqb (contar (fun t => t_vehiculo_id t =? id) (filas (tickets d))) 0)
         (400, ENoSePuedeEliminar) ;;;
  ok (200, tt, con_vehiculos (borrar id (vehiculos d)) d).

(** ** Zones (zonas.controller.js) *)

Record BodyZona := mkBodyZona { bz_nombre : option string; bz_descripcion : option string }.

(** [crearZona] (lines 79-112). *)
Definition crearZona_tx (b : BodyZona) (d : Db) : Ctrl (Z * Zona) :=
  _ <- de_opcion (presente_s (bz_nombre b)) (400, ECampoRequerido) ;;
  let z := mkZona (bz_nombre b) (bz_descripcion b) in
  let '(zid, zs) := insertar z (zonas d) in
  ok (201, (zid, z), con_zonas zs d).

(** [actualizarZona] (lines 117-155). *)
Definition actualizarZona_tx (id : Z) (b : BodyZona) (d : Db) : Ctrl Zona :=
  _ <- de_opcion (buscar id (zonas d)) (404, EZonaNoEncontrada) ;;
  let z := mkZona (bz_nombre b) (bz_descripcion b) in
  ok (200, z, con_zonas (actualizar id (fun _ => z) (zonas d)) d).

(** [eliminarZona] (lines 160-201): refused while a space is in the zone. *)
Definition eliminarZona_tx (id : Z) (d : Db) : Ctrl unit :=
  _ <- de_opcion (buscar id (zonas d)) (404, EZonaNoEncontrada) ;;
  exigir (Nat.eqb (contar (fun e => bool_decide (e_zona_id e = Some id)) (filas (espacios d))) 0)
         (400, ENoSePuedeEliminar) ;;;
  ok (200, tt, con_zonas (borrar id (zonas d)) d).

(** ** Tariffs (tarifas.controller.js) *)

Record BodyTarifa := mkBodyTarifa {
  bt_descripcion : option string; bt_precio_hora : option Z }.

(** [crearTarifa] (lines 61-105). *)
Definition crearTarifa_tx (b : BodyTarifa) (d : Db) : Ctrl (Z * Tarifa) :=
  _ <- de_opcion (presente_s (bt_descripcion b)) (400, ECamposRequeridos) ;;
  precio <- de_opcion (presente (bt_precio_hora b)) (400, ECamposRequeridos) ;;
  exigir (negb (precio <=? 0)) (400, EPrecioInvalido) ;;;
  let ta := mkTarifa (bt_descripcion b) (Some precio) in
  let '(tid, ts) := insertar ta (tarifas d) in
  ok (201, (tid, ta), con_tarifas ts d).

(** [actualizarTarifa] (lines 110-160): the new price applies to every
    ticket that references the tariff, open or closed. *)
Definition actualizarTarifa_tx (id : Z) (b : BodyTarifa) (d : Db) : Ctrl Tarifa :=
  _ <- de_opcion (buscar id (tarifas d)) (404, ETarifaNoEncontrada) ;;
  exigir (negb (js_truthy_z (bt_precio_hora b) && (default 0 (bt_precio_hora b) <=? 0)))
         (400, EPrecioInvalido) ;;;
  let ta := mkTarifa (bt_descripcion b) (bt_precio_hora b) in
  ok (200, ta, con_tarifas (actualizar id (fun _ => ta) (tarifas d)) d).

(** [eliminarTarifa] (lines 165-206). *)
Definition eliminarTarifa_tx (id : Z) (d : Db) : Ctrl unit :=
  _ <- de_opcion (buscar id (tarifas d)) (404, ETarifaNoEncontrada) ;;
  exigir (Nat.eqb (contar (fun t => t_tarifa_id t =? id) (filas (tickets d))) 0)
         (400, ENoSePuedeEliminar) ;;;
  ok (200, tt, con_tarifas (borrar id (tarifas d)) d).

(** ** Payment types (tipospago.controller.js) *)

(** [crearTipoPago] (lines 73-122). *)
Definition crearTipoPago_tx (nombre : option string) (d : Db) : Ctrl (Z * TipoPago) :=
  n <- de_opcion (presente_s nombre) (400, ECampoRequerido) ;;
  exigir (negb (existe (fun tp => bool_decide (tp_nombre tp = Some n)) (filas (tipos_pago d))))
         (409, ETipoPagoYaExiste) ;;;
  let tp := mkTipoPago (Some n) in
  let '(id, tps) := insertar tp (tipos_pago d) in
  ok (201, (id, tp), con_tipos_pago tps d).

(** [SELECT id FROM TiposPago WHERE nombre = ? AND id != ?]. *)
Definition otro_con_nombre (n : string) (id : Z) (t : gmap Z TipoPago) : bool :=
  existe_otro (fun tp => bool_decide (tp_nombre tp = Some n)) id t.

(** [actualizarTipoPago] (lines 127-184): the duplicate check runs only
    [if (nombre)]; the column is overwritten in every case. *)
Definition actualizarTipoPago_tx (id : Z) (nombre : option string) (d : Db) : Ctrl TipoPago :=
  _ <- de_opcion (buscar id (tipos_pago d)) (404, ETipoPagoNoEncontrado) ;;
  exigir (match presente_s nombre with
          | Some n => negb (otro_con_nombre n id (filas (tipos_pago d)))
          | None => true
          end) (409, ENombreDuplicado) ;;;
  let tp := mkTipoPago nombre in
  ok (200, tp, con_tipos_pago (actualizar id (fun _ => tp) (tipos_pago d)) d).

(** [eliminarTipoPago] (lines 189-230). *)
Definition eliminarTipoPago_tx (id : Z) (d : Db) : Ctrl unit :=
  _ <- de_opcion (buscar id (tipos_pago d)) (404, ETipoPagoNoEncontrado) ;;
  exigir (Nat.eqb (contar (fun p => p_tipo_pago_id p =? id) (filas (pagos d))) 0)
         (400, ENoSePuedeEliminar) ;;;
  ok (200, tt, con_tipos_pago (borrar id (tipos_pago d)) d).

(** ** Running the controllers *)

Definition crearCliente b d := ejecutar (crearCliente_tx b d) d.
Definition actualizarCliente id b d := ejecutar (actualizarCliente_tx id b d) d.
Definition actualizarZona id b d := ejecutar (actualizarZona_tx id b d) d.
Definition eliminarZona id d := ejecutar (eliminarZona_tx id d) d.
Definition actualizarTipoPago id n d := ejecutar (actualizarTipoPago_tx id n d) d.
Definition eliminarCliente id d := ejecutar (eliminarCliente_tx id d) d.
Definition crearVehiculo b d := ejecutar (crearVehiculo_tx b d) d.
Definition actualizarVehiculo id b d := ejecutar (actualizarVehiculo_tx id b d) d.
Definition eliminarVehiculo id d := ejecutar (eliminarVehiculo_tx id d) d.
Definition crearZona b d := ejecutar (crearZona_tx b d) d.
Definition crearTarifa b d := ejecutar (crearTarifa_tx b d) d.
Definition actualizarTarifa id b d := ejecutar (actualizarTarifa_tx id b d) d.
Definition eliminarTarifa id d := ejecutar (eliminarTarifa_tx id d) d.
Definition crearTipoPago n d := ejecutar (crearTipoPago_tx n d) d.
Definition eliminarTipoPago id d := ejecutar (eliminarTipoPago_tx id d) d.

(** ** Tariff changes reach open tickets *)

(** the specification (section 3) says a ticket's tariff is fixed
    when the ticket is created.  The code stores only [tarifa_id] and
    reads [precio_hora] at exit: raising tariff 1 from 10.00 to 20.00
    while vehicle 1 is parked doubles the amount of its 125-minute stay
    from 30.00 to 60.00. *)
Theorem tarifa_cambia_ticket_abierto :
  let d := con_reloj 43500 db_demo_ocupado in
  let d' := snd (actualizarTarifa 1 (mkBodyTarifa (Some "Normal") (Some 2000)) d) in
  (exists v, fst (registrarSalida 1 d) = ROk 200 v /\ vs_monto v = Some 3000) /\
  (exists v, fst (registrarSalida 1 d') = ROk 200 v /\ vs_monto v = Some 6000).
Proof.
  split; eexists; split; vm_compute; reflexivity.
Qed.

(** ** Payment type names stay unique *)

(** No two payment types share a non-empty name ([actualizarTipoPago]
    skips its check for an empty name, and may store two empty names). *)
Definition nombres_unicos (t : Tabla TipoPago) : Prop :=
  forall k1 k2 n tp1 tp2, buscar k1 t = Some tp1 -> buscar k2 t = Some tp2 ->
    tp_nombre tp1 = Some n -> tp_nombre tp2 = Some n -> n <> EmptyString -> k1 = k2.

Lemma otro_con_nombre_false n id t :
  otro_con_nombre n id t = false <->
  forall k tp, t !! k = Some tp -> tp_nombre tp = Some n -> k = id.
Proof.
  unfold otro_con_nombre. rewrite existe_otro_false.
  setoid_rewrite bool_decide_eq_true. done.
Qed.

(** The calls that write [TiposPago]. *)
Inductive paso_tipo_pago : Db -> Db -> Prop :=
| ptp_crear n d : paso_tipo_pago d (snd (crearTipoPago n d))
| ptp_actualizar id n d : paso_tipo_pago d (snd (actualizarTipoPago id n d))
| ptp_eliminar id d : paso_tipo_pago d (snd (eliminarTipoPago id d)).

Lemma nombres_unicos_crear n d s x d' :
  tabla_ok (tipos_pago d) -> nombres_unicos (tipos_pago d) ->
  crearTipoPago_tx n d = inr (s, x, d') -> nombres_unicos (tipos_pago d').
Proof.
  intros Hok Hu H. unfold crearTipoPago_tx in H. res_inv. res_fin.
  match goal with Hn : negb (existe _ _) = true |- _ => apply negb_true_iff in Hn;
    rewrite existe_false in Hn; rename Hn into Hno end.
  intros k1 k2 m tp1 tp2 Hk1 Hk2 Hn1 Hn2 Hm. unfold buscar in *. simpl in Hk1, Hk2.
  rewrite lookup_insert in Hk1, Hk2.
  repeat case_decide; simplify_eq; simpl in *; simplify_eq; first
    [ done
    | exfalso; match goal with Hk : filas (tipos_pago d) !! _ = Some ?tp |- _ =>
        pose proof (Hno _ _ Hk) as Hf; rewrite bool_decide_eq_false in Hf; congruence end
    | eauto ].
Qed.

Lemma nombres_unicos_actualizar id nombre d s x d' :
  nombres_unicos (tipos_pago d) -> actualizarTipoPago_tx id nombre d = inr (s, x, d') ->
  nombres_unicos (tipos_pago d').
Proof.
  intros Hu H. unfold actualizarTipoPago_tx in H. res_inv. res_fin.
  match goal with Hg : (match presente_s nombre with _ => _ end) = true |- _ =>
    rename Hg into Hguard end.
  (* the [if (nombre)] check: no other row has the new name *)
  assert (Hg : forall m, nombre = Some m -> m <> EmptyString -> forall k tp,
            filas (tipos_pago d) !! k = Some tp -> tp_nombre tp = Some m -> k = id).
  { intros m -> Hm k tp Hk Hn. rewrite presente_s_Some in Hguard by done.
    apply negb_true_iff in Hguard. exact (proj1 (otro_con_nombre_false _ _ _) Hguard k tp Hk Hn). }
  intros k1 k2 m tp1 tp2 Hk1 Hk2 Hn1 Hn2 Hm. unfold buscar in *. simpl in Hk1, Hk2.
  rewrite lookup_alter in Hk1, Hk2.
  destruct (decide (id = k1)), (decide (id = k2)); subst; [done| | |eauto];
    destruct (filas (tipos_pago d) !! _); simpl in *; simplify_eq; simpl in *.
  - symmetry. eauto.
  - eauto.
Qed.

Lemma nombres_unicos_eliminar id d s x d' :
  nombres_unicos (tipos_pago d) -> eliminarTipoPago_tx id d = inr (s, x, d') ->
  nombres_unicos (tipos_pago d').
Proof.
  intros Hu H. unfold eliminarTipoPago_tx in H. res_inv. res_fin.
  intros k1 k2 m tp1 tp2 Hk1 Hk2. unfold buscar in *. simpl in Hk1, Hk2.
  apply lookup_delete_Some in Hk1 as [_ Hk1]. apply lookup_delete_Some in Hk2 as [_ Hk2].
  eauto.
Qed.

Lemma paso_tipo_pago_preserva d d' :
  paso_tipo_pago d d' ->
  tabla_ok (tipos_pago d) /\ nombres_unicos (tipos_pago d) ->
  tabla_ok (tipos_pago d') /\ nombres_unicos (tipos_pago d').
Proof.
  intros Hp [Hok Hu]. destruct Hp; unfold crearTipoPago, actualizarTipoPago, eliminarTipoPago;
    apply ejecutar_preserva; try done; intros s x d' Hc; split.
  - pose proof Hc as Hc'. unfold crearTipoPago_tx in Hc'. res_inv. res_fin. by apply insertar_ok.
  - exact (nombres_unicos_crear n d s x d' Hok Hu Hc).
  - pose proof Hc as Hc'. unfold actualizarTipoPago_tx in Hc'. res_inv. res_fin.
    by apply actualizar_ok.
  - exact (nombres_unicos_actualizar id n d s x d' Hu Hc).
  - pose proof Hc as Hc'. unfold eliminarTipoPago_tx in Hc'. res_inv. res_fin. by apply borrar_ok.
  - exact (nombres_unicos_eliminar id d s x d' Hu Hc).
Qed.

(** C34: from a table of payment types with distinct non-empty names,
    any sequence of [crearTipoPago], [actualizarTipoPago] and
    [eliminarTipoPago] calls keeps them distinct: [crearTipoPago] checks
    [WHERE nombre = ?] and [actualizarTipoPago] checks
    [WHERE nombre = ? AND id != ?] before writing. *)
Theorem tipos_pago_nombres_unicos d d' :
  tabla_ok (tipos_pago d) -> nombres_unicos (tipos_pago d) -> rtc paso_tipo_pago d d' ->
  nombres_unicos (tipos_pago d').
Proof.
  intros Hok Hu Hr. cut (tabla_ok (tipos_pago d') /\ nombres_unicos (tipos_pago d')); [by intros []|].
  induction Hr as [|d1 d2 d3 Hp _ IH] in Hok, Hu |- *; [done|].
  destruct (paso_tipo_pago_preserva d1 d2 Hp (conj Hok Hu)). by apply IH.
Qed.

Lemma nombres_unicos_vacia : nombres_unicos (tipos_pago db_vacia).
Proof. intros k1 k2 n tp1 tp2 Hk1. unfold buscar in Hk1. simpl in Hk1. by rewrite lookup_empty in Hk1. Qed.

(** Two payment types, then the second renamed to the name of the first
    (refused with 409) and the first renamed to its own name (accepted:
    the check excludes the row itself). *)
Definition db_tipos_pago_demo : Db :=
  let d1 := snd (crearTipoPago (Some "Efectivo") db_vacia) in
  let d2 := snd (crearTipoPago (Some "Tarjeta") d1) in
  let d3 := snd (actualizarTipoPago 2 (Some "Efectivo") d2) in
  snd (actualizarTipoPago 1 (Some "Efectivo") d3).

Lemma tipos_pago_nombres_unicos_witness : nombres_unicos (tipos_pago db_tipos_pago_demo).
Proof.
  apply (tipos_pago_nombres_unicos db_vacia); [apply tabla_vacia_ok | apply nombres_unicos_vacia|].
  unfold db_tipos_pago_demo.
  eapply rtc_l; [apply ptp_crear|]. eapply rtc_l; [apply ptp_crear|].
  eapply rtc_l; [apply ptp_actualizar|]. eapply rtc_l; [apply ptp_actualizar|]. apply rtc_refl.
Defined.
