(* ===== verification/Reservas.v ===== *)
(** * Reservas: reservations of a space for a period

    The controllers of [src/parqueo-api/src/controllers/reservas.controller.js]
    that write the [Reservas] table: [crearReserva] (a transaction whose
    conflict query looks for an ACTIVA reservation of the same space that
    overlaps the requested period), [actualizarReserva], [cancelarReserva]
    and [finalizarReserva].  The [estado] column holds the strings
    ['ACTIVA'], ['CANCELADA'] and ['FINALIZADA'] the code writes, or NULL.
    Dates are seconds. *)

From S2P Require Import Prelude Store Tickets.

Definition ACTIVA : string := "ACTIVA".
Definition CANCELADA : string := "CANCELADA".
Definition FINALIZADA : string := "FINALIZADA".

(** [reservaExiste[0].estado !== 'ACTIVA'] is false exactly for ['ACTIVA']. *)
Definition es_activa (r : Reserva) : bool := bool_decide (r_estado r = Some ACTIVA).

(** ** The conflict query of [crearReserva] (lines 178-189)

    [(fecha_inicio <= ? AND fecha_fin >= ?) OR (fecha_inicio <= ? AND
    fecha_fin >= ?) OR (fecha_inicio >= ? AND fecha_fin <= ?)] with the
    parameters [fi, fi, ff, ff, fi, ff]; a NULL date makes every disjunct
    unknown, so the row is not selected. *)
Definition conflicto (r : Reserva) (fi ff : Z) : bool :=
  match r_fecha_inicio r, r_fecha_fin r with
  | Some a, Some b =>
      ((a <=? fi) && (fi <=? b)) || ((a <=? ff) && (ff <=? b)) || ((fi <=? a) && (b <=? ff))
  | _, _ => false
  end.

Definition reserva_en_conflicto (eid fi ff : Z) (r : Reserva) : bool :=
  (r_espacio_id r =? eid) && es_activa r && conflicto r fi ff.

(** ** [crearReserva] (lines 144-256) *)

Record BodyReserva := mkBodyReserva {
  br_cliente_id : option Z; br_espacio_id : option Z;
  br_fecha_inicio : option Z; br_fecha_fin : option Z }.

Definition crearReserva_tx (b : BodyReserva) (d : Db) : Ctrl (Z * Reserva) :=
  cid <- de_opcion (presente (br_cliente_id b)) (400, ECamposRequeridos) ;;
  eid <- de_opcion (presente (br_espacio_id b)) (400, ECamposRequeridos) ;;
  fi <- de_opcion (br_fecha_inicio b) (400, ECamposRequeridos) ;;
  ff <- de_opcion (br_fecha_fin b) (400, ECamposRequeridos) ;;
  (* new Date(fecha_fin) <= new Date(fecha_inicio) *)
  exigir (negb (ff <=? fi)) (400, EFechasInvalidas) ;;;
  _ <- de_opcion (buscar cid (clientes d)) (404, EClienteNoEncontrado) ;;
  _ <- de_opcion (buscar eid (espacios d)) (404, EEspacioNoEncontrado) ;;
  exigir (negb (existe (reserva_en_conflicto eid fi ff) (filas (reservas d))))
         (409, EEspacioNoDisponible) ;;;
  let r := mkReserva cid eid (reloj d) (Some fi) (Some ff) (Some ACTIVA) in
  let '(rid, rs) := insertar r (reservas d) in
  ok (201, (rid, r), con_reservas rs d).

Definition crearReserva (b : BodyReserva) (d : Db) : Resp (Z * Reserva) * Db :=
  ejecutar (crearReserva_tx b d) d.

(** ** [actualizarReserva] (lines 261-326)

    The three columns are overwritten by the request fields, so a field
    left out is stored as NULL. *)
Record BodyActualizarReserva := mkBodyActualizarReserva {
  ba_fecha_inicio : option Z; ba_fecha_fin : option Z; ba_estado : option string }.

Definition actualizarReserva_tx (id : Z) (b : BodyActualizarReserva) (d : Db) : Ctrl Reserva :=
  r <- de_opcion (buscar id (reservas d)) (404, EReservaNoEncontrada) ;;
  exigir (es_activa r) (400, EReservaNoModificable) ;;;
  exigir (match ba_fecha_inicio b, ba_fecha_fin b with
          | Some fi, Some ff => negb (ff <=? fi)
          | _, _ => true
          end) (400, EFechasInvalidas) ;;;
  let act r := mkReserva (r_cliente_id r) (r_espacio_id r) (r_fecha_reserva r)
                 (ba_fecha_inicio b) (ba_fecha_fin b) (ba_estado b) in
  ok (200, act r, con_reservas (actualizar id act (reservas d)) d).

Definition actualizarReserva (id : Z) (b : BodyActualizarReserva) (d : Db)
    : Resp Reserva * Db :=
  ejecutar (actualizarReserva_tx id b d) d.

(** ** [cancelarReserva] (lines 331-369) and [finalizarReserva] (lines 374-412) *)

Definition con_estado (s : string) (r : Reserva) : Reserva :=
  mkReserva (r_cliente_id r) (r_espacio_id r) (r_fecha_reserva r)
            (r_fecha_inicio r) (r_fecha_fin r) (Some s).

Definition cancelarReserva_tx (id : Z) (d : Db) : Ctrl unit :=
  r <- de_opcion (buscar id (reservas d)) (404, EReservaNoEncontrada) ;;
  exigir (es_activa r) (400, ENoSePuedeCancelar) ;;;
  ok (200, tt, con_reservas (actualizar id (con_estado CANCELADA) (reservas d)) d).

Definition cancelarReserva (id : Z) (d : Db) : Resp unit * Db :=
  ejecutar (cancelarReserva_tx id d) d.

Definition finalizarReserva_tx (id : Z) (d : Db) : Ctrl unit :=
  r <- de_opcion (buscar id (reservas d)) (404, EReservaNoEncontrada) ;;
  exigir (es_activa r) (400, ENoSePuedeFinalizar) ;;;
  ok (200, tt, con_reservas (actualizar id (con_estado FINALIZADA) (reservas d)) d).

Definition finalizarReserva (id : Z) (d : Db) : Resp unit * Db :=
  ejecutar (finalizarReserva_tx id d) d.

(** ** The conflict query is interval intersection *)

(** For a stored period [[a, b]] and a requested period [[fi, ff]] (both
    well ordered), the three disjuncts of the conflict query select the row
    exactly when the two closed periods intersect. *)
Lemma conflicto_solapa r a b fi ff :
  r_fecha_inicio r = Some a -> r_fecha_fin r = Some b -> a <= b -> fi <= ff ->
  conflicto r fi ff = true <-> (a <= ff /\ fi <= b).
Proof.
  intros Ha Hb Hab Hf. unfold conflicto. rewrite Ha, Hb.
  rewrite !Bool.orb_true_iff, !Bool.andb_true_iff, !Z.leb_le. lia.
Qed.

(** A row the conflict query does not select, of the same space and
    ACTIVA, lies strictly before or strictly after the requested period. *)
Lemma sin_conflicto_disjunto eid fi ff r a b :
  fi <= ff -> r_espacio_id r = eid -> es_activa r = true ->
  r_fecha_inicio r = Some a -> r_fecha_fin r = Some b -> a <= b ->
  reserva_en_conflicto eid fi ff r = false -> ff < a \/ b < fi.
Proof.
  intros Hf He Ha Hi Hb Hab Hc. unfold reserva_en_conflicto in Hc.
  rewrite He, Z.eqb_refl, Ha in Hc. simpl in Hc.
  assert (~ (a <= ff /\ fi <= b)) by (rewrite <- (conflicto_solapa r); congruence).
  lia.
Qed.

Lemma crearReserva_tx_inr b d s x d' :
  crearReserva_tx b d = inr (s, x, d') ->
  exists cid eid fi ff,
    fi < ff /\
    existe (reserva_en_conflicto eid fi ff) (filas (reservas d)) = false /\
    d' = con_reservas (insertar (mkReserva cid eid (reloj d) (Some fi) (Some ff) (Some ACTIVA))
                                (reservas d)).2 d.
Proof.
  unfold crearReserva_tx. intros H. res_inv. res_fin.
  repeat match goal with H : negb _ = true |- _ => apply negb_true_iff in H end.
  do 4 eexists. split; [|split; [eassumption|reflexivity]].
  match goal with H : (_ <=? _) = false |- _ => apply Z.leb_gt in H end. lia.
Qed.

(** ** Reservations that do not overlap *)

(** Every ACTIVA reservation has a well-ordered period, and two ACTIVA
    reservations of the same space have disjoint periods. *)
Definition reservas_ok (d : Db) : Prop :=
  tabla_ok (reservas d) /\
  (forall k r, buscar k (reservas d) = Some r -> es_activa r = true ->
     exists a b, r_fecha_inicio r = Some a /\ r_fecha_fin r = Some b /\ a < b) /\
  (forall k1 k2 r1 r2 a1 b1 a2 b2,
     buscar k1 (reservas d) = Some r1 -> buscar k2 (reservas d) = Some r2 -> k1 <> k2 ->
     es_activa r1 = true -> es_activa r2 = true -> r_espacio_id r1 = r_espacio_id r2 ->
     r_fecha_inicio r1 = Some a1 -> r_fecha_fin r1 = Some b1 ->
     r_fecha_inicio r2 = Some a2 -> r_fecha_fin r2 = Some b2 ->
     b1 < a2 \/ b2 < a1).

(** The reservation controllers that keep periods apart. *)
Inductive paso_reserva : Db -> Db -> Prop :=
| pr_crear b d : paso_reserva d (snd (crearReserva b d))
| pr_cancelar id d : paso_reserva d (snd (cancelarReserva id d))
| pr_finalizar id d : paso_reserva d (snd (finalizarReserva id d)).

Lemma es_activa_con_estado_no s r : s <> ACTIVA -> es_activa (con_estado s r) = false.
Proof. intros Hs. unfold es_activa. simpl. apply bool_decide_eq_false. congruence. Qed.

(** After a reservation is closed, the ACTIVA rows are rows of the old
    table. *)
Lemma activa_tras_con_estado T id s k r :
  s <> ACTIVA -> buscar k (actualizar id (con_estado s) T) = Some r -> es_activa r = true ->
  buscar k T = Some r.
Proof.
  intros Hs Hk Ha. unfold buscar in *; simpl in Hk.
  apply lookup_alter_Some in Hk as [[<- (r0 & Hr0 & ->)]|[_ Hk]]; [|done].
  by rewrite es_activa_con_estado_no in Ha.
Qed.

(** Closing reservations (CANCELADA or FINALIZADA) keeps them apart. *)
Lemma reservas_ok_con_estado d id s :
  s <> ACTIVA -> reservas_ok d ->
  reservas_ok (con_reservas (actualizar id (con_estado s) (reservas d)) d).
Proof.
  intros Hs (Hok & Hw & Hd). split; [by apply actualizar_ok|]. simpl. split.
  - intros k r Hk Ha. eauto using activa_tras_con_estado.
  - intros k1 k2 r1 r2 a1 b1 a2 b2 Hk1 Hk2 Hne Ha1 Ha2.
    eapply Hd; eauto using activa_tras_con_estado.
Qed.

Lemma cancelarReserva_tx_inr id d s x d' :
  cancelarReserva_tx id d = inr (s, x, d') ->
  d' = con_reservas (actualizar id (con_estado CANCELADA) (reservas d)) d.
Proof. unfold cancelarReserva_tx. intros H. res_inv. by res_fin. Qed.

Lemma finalizarReserva_tx_inr id d s x d' :
  finalizarReserva_tx id d = inr (s, x, d') ->
  d' = con_reservas (actualizar id (con_estado FINALIZADA) (reservas d)) d.
Proof. unfold finalizarReserva_tx. intros H. res_inv. by res_fin. Qed.

(** Creating a reservation keeps the ACTIVA periods of a space apart:
    the conflict query has excluded every overlapping ACTIVA row. *)
Lemma reservas_ok_crear bd d s x d' :
  reservas_ok d -> crearReserva_tx bd d = inr (s, x, d') -> reservas_ok d'.
Proof.
  intros (Hok & Hw & Hd) H.
  apply crearReserva_tx_inr in H as (cid & eid & fi & ff & Hlt & Hno & ->).
  rewrite existe_false in Hno.
  assert (Hold : forall k r a b, buscar k (reservas d) = Some r -> es_activa r = true ->
            r_espacio_id r = eid -> r_fecha_inicio r = Some a -> r_fecha_fin r = Some b ->
            ff < a \/ b < fi).
  { intros k r a b Hk Ha He Hi Hf. destruct (Hw k r Hk Ha) as (a' & b' & Hi' & Hf' & Hab).
    rewrite Hi in Hi'; rewrite Hf in Hf'. injection Hi' as <-. injection Hf' as <-.
    apply (sin_conflicto_disjunto eid fi ff r); auto; [lia|lia|exact (Hno k r Hk)]. }
  split; [by apply insertar_ok|]. cbn [reservas con_reservas]. split.
  - intros k r Hk Ha. rewrite buscar_insertar in Hk by done.
    case_decide; simplify_eq; [by exists fi, ff|eauto].
  - intros k1 k2 r1 r2 a1 b1 a2 b2 Hk1 Hk2 Hne Ha1 Ha2 He Hi1 Hf1 Hi2 Hf2.
    rewrite !buscar_insertar in Hk1, Hk2 by done.
    repeat case_decide; simplify_eq; simpl in *; simplify_eq;
      first [ solve [eauto]
            | edestruct Hold; [eassumption | eassumption | congruence | eassumption
                              | eassumption | lia | lia] ].
Qed.

(** Each reservation step keeps ACTIVA periods apart. *)
Lemma paso_reserva_preserva d d' : paso_reserva d d' -> reservas_ok d -> reservas_ok d'.
Proof.
  intros Hp Hi. destruct Hp; unfold crearReserva, cancelarReserva, finalizarReserva;
    apply ejecutar_preserva; [done| |done| |done|]; intros ? ? ? Hc.
  - by apply (reservas_ok_crear b d _ _ _ Hi Hc).
  - apply cancelarReserva_tx_inr in Hc as ->. by apply reservas_ok_con_estado.
  - apply finalizarReserva_tx_inr in Hc as ->. by apply reservas_ok_con_estado.
Qed.

Lemma reservas_ok_vacia d : reservas d = tabla_vacia -> reservas_ok d.
Proof.
  intros Hd. unfold reservas_ok, buscar. rewrite Hd. simpl.
  split; [apply tabla_vacia_ok|]. split; intros *; rewrite lookup_empty; discriminate.
Qed.

(** ** Reservations: the scenarios of the controllers *)

(** Client 1 ("Ana") added to the lot of [Tickets.db_demo]. *)
Definition db_reserva_demo : Db :=
  con_clientes (insertar (mkCliente (Some "Ana") None None None) tabla_vacia).2 db_demo.

Definition reserva_1 : BodyReserva := mkBodyReserva (Some 1) (Some 1) (Some 100000) (Some 200000).
Definition reserva_2 : BodyReserva := mkBodyReserva (Some 1) (Some 1) (Some 300000) (Some 400000).

(** Space 1 reserved for [[100000, 200000]] (reservation 1) and
    [[300000, 400000]] (reservation 2). *)
Definition db_dos_reservas : Db :=
  snd (crearReserva reserva_2 (snd (crearReserva reserva_1 db_reserva_demo))).

Lemma db_dos_reservas_ok : reservas_ok db_dos_reservas.
Proof.
  unfold db_dos_reservas. do 2 apply paso_reserva_preserva with (1 := pr_crear _ _).
  by apply reservas_ok_vacia.
Qed.

(** C22: starting from a database whose ACTIVA reservations are well
    ordered and pairwise apart on each space, any sequence of
    [crearReserva], [cancelarReserva] and [finalizarReserva] calls (each
    succeeding or failing) leaves them so: the conflict query of
    [crearReserva] is enough to prevent double booking. *)
Theorem reservas_sin_solape d d' :
  reservas_ok d -> rtc paso_reserva d d' -> reservas_ok d'.
Proof. intros Hi Hr. induction Hr; eauto using paso_reserva_preserva. Qed.

Lemma reservas_sin_solape_witness :
  reservas_ok db_reserva_demo /\ rtc paso_reserva db_reserva_demo db_dos_reservas /\
  reservas_ok db_dos_reservas.
Proof.
  assert (H0 : reservas_ok db_reserva_demo) by (by apply reservas_ok_vacia).
  assert (Hr : rtc paso_reserva db_reserva_demo db_dos_reservas).
  { eapply rtc_l; [apply pr_crear|]. eapply rtc_l; [apply pr_crear|]. apply rtc_refl. }
  split; [exact H0|]. split; [exact Hr|]. exact (reservas_sin_solape _ _ H0 Hr).
Defined.

(** C23: [actualizarReserva] does not run the conflict query.  Moving
    reservation 2 of [db_dos_reservas] to [[150000, 350000]] succeeds,
    although [crearReserva] refuses that same period with 409, and leaves
    two ACTIVA reservations of space 1 that overlap. *)
Theorem actualizarReserva_solapa :
  let b := mkBodyActualizarReserva (Some 150000) (Some 350000) (Some ACTIVA) in
  fst (crearReserva (mkBodyReserva (Some 1) (Some 1) (Some 150000) (Some 350000))
         db_dos_reservas) = RErr 409 EEspacioNoDisponible /\
  (exists r, fst (actualizarReserva 2 b db_dos_reservas) = ROk 200 r) /\
  reservas_ok db_dos_reservas /\
  ~ reservas_ok (snd (actualizarReserva 2 b db_dos_reservas)).
Proof.
  cbv zeta. split; [vm_compute; reflexivity|]. split; [eexists; vm_compute; reflexivity|].
  split; [apply db_dos_reservas_ok|]. intros (_ & _ & Hd).
  destruct (Hd 1 2 (mkReserva 1 1 36000 (Some 100000) (Some 200000) (Some ACTIVA))
              (mkReserva 1 1 36000 (Some 150000) (Some 350000) (Some ACTIVA))
              100000 200000 150000 350000); try (vm_compute; reflexivity); lia.
Qed.

(** C24: a reservation that is not ACTIVA (CANCELADA, FINALIZADA or a
    NULL [estado]) is final: [actualizarReserva], [cancelarReserva] and
    [finalizarReserva] answer 400 with their own error and change
    nothing. *)
Theorem reserva_no_activa_final id d r b :
  buscar id (reservas d) = Some r -> es_activa r = false ->
  actualizarReserva id b d = (RErr 400 EReservaNoModificable, d) /\
  cancelarReserva id d = (RErr 400 ENoSePuedeCancelar, d) /\
  finalizarReserva id d = (RErr 400 ENoSePuedeFinalizar, d).
Proof.
  intros Hr Ha.
  unfold actualizarReserva, actualizarReserva_tx, cancelarReserva, cancelarReserva_tx,
    finalizarReserva, finalizarReserva_tx.
  rewrite Hr. cbn -[es_activa]. rewrite Ha. done.
Qed.

(** Reservation 1 of [db_dos_reservas] cancelled. *)
Definition db_reserva_cancelada : Db := snd (cancelarReserva 1 db_dos_reservas).

Lemma reserva_no_activa_final_witness :
  buscar 1 (reservas db_reserva_cancelada) =
    Some (mkReserva 1 1 36000 (Some 100000) (Some 200000) (Some CANCELADA)) /\
  es_activa (mkReserva 1 1 36000 (Some 100000) (Some 200000) (Some CANCELADA)) = false /\
  cancelarReserva 1 db_reserva_cancelada = (RErr 400 ENoSePuedeCancelar, db_reserva_cancelada).
Proof.
  assert (Hr : buscar 1 (reservas db_reserva_cancelada) =
    Some (mkReserva 1 1 36000 (Some 100000) (Some 200000) (Some CANCELADA)))
    by (vm_compute; reflexivity).
  assert (Ha : es_activa (mkReserva 1 1 36000 (Some 100000) (Some 200000) (Some CANCELADA))
               = false) by (vm_compute; reflexivity).
  split; [exact Hr|]. split; [exact Ha|].
  exact (proj1 (proj2 (reserva_no_activa_final 1 db_reserva_cancelada _
           (mkBodyActualizarReserva None None None) Hr Ha))).
Defined.

(** [actualizarReserva] writes the [estado] of the request as it
    is: a body that only moves the dates stores a NULL [estado].  The
    reservation is then neither ACTIVA nor closed: it can no longer be
    cancelled, and the conflict query no longer sees it, so the same
    period of the space can be reserved again. *)
Theorem actualizarReserva_estado_nulo :
  let b := mkBodyActualizarReserva (Some 100000) (Some 200000) None in
  let d' := snd (actualizarReserva 1 b db_dos_reservas) in
  (exists r, fst (actualizarReserva 1 b db_dos_reservas) = ROk 200 r /\ r_estado r = None) /\
  fst (cancelarReserva 1 d') = RErr 400 ENoSePuedeCancelar /\
  (exists x, fst (crearReserva reserva_1 d') = ROk 201 x).
Proof. cbv zeta. split; [|split]; try eexists; try split; vm_compute; reflexivity. Qed.
