(* ===== verification/Auth.v ===== *)
(** * Auth: the JWT middleware and the authentication controllers

    [src/parqueo-api/src/middlewares/auth.middleware.js] ([verificarToken],
    [verificarRol]) and [src/parqueo-api/src/controllers/auth.controller.js]
    ([registrar], [login], [logout]).  Password hashing (bcryptjs) and
    token signing (jsonwebtoken) are external collaborators: the class
    [Cripto] states what the code relies on from them, and every theorem
    of this file is proved against it, including bcrypt's use of the
    first 72 bytes of a password only ([clave72]).  [Cripto_demo] is one
    instance, used to run the controllers on concrete inputs. *)

From Stdlib Require Import Ascii.
From S2P Require Import Prelude Store.

(** ** The external collaborators *)

(** What [jwt.verify(token, secret)] can answer. *)
Inductive Verif :=
| Valido (s : Sesion)   (* the decoded payload *)
| Expirado              (* error.name === 'TokenExpiredError' *)
| Invalido.             (* any other error *)

(** A piece of [split(' ')]: a string with no space. *)
Fixpoint sin_espacio (w : string) : bool :=
  match w with
  | EmptyString => true
  | String c r => negb (Ascii.eqb c " "%char) && sin_espacio r
  end.

(** bcrypt reads a password as bytes and uses at most its first 72;
    bcryptjs drops the rest without a warning. *)
Definition clave72 (p : string) : string := String.substring 0 72 p.

(** [bcrypt.hash], [bcrypt.compare], [jwt.sign] and [jwt.verify], with the
    laws the controllers depend on: a password matches the hash of every
    password with the same first 72 bytes, and no other; a signed token decodes to its payload until it expires; a
    token is a non-empty string with no space (a JWT is three base64url
    parts joined by dots). *)
Class Cripto := {
  hash : string -> string;
  compare : string -> string -> bool;
  firmar : Sesion -> Z -> string;        (* payload, expiry instant *)
  verificar : string -> Z -> Verif;      (* token, current time *)
  duracion : Z;                          (* JWT_EXPIRES_IN || '24h' *)
  compare_72 : forall p q, clave72 q = clave72 p -> compare q (hash p) = true;
  compare_otro : forall p q, clave72 q <> clave72 p -> compare q (hash p) = false;
  verificar_firmar : forall s exp ahora,
    verificar (firmar s exp) ahora = if ahora <? exp then Valido s else Expirado;
  duracion_pos : 0 < duracion;
  firmar_sin_espacio : forall s exp, sin_espacio (firmar s exp) = true;
  firmar_no_vacio : forall s exp, firmar s exp <> EmptyString
}.

Lemma compare_hash `{Cripto} p : compare p (hash p) = true.
Proof. by apply compare_72. Qed.

(** ** [authHeader.split(' ')]

    JavaScript's [split] with a one-character separator: every space cuts,
    empty pieces are kept, and a string without a space is one piece. *)
Fixpoint split_sp (s : string) : list string :=
  match s with
  | EmptyString => [EmptyString]
  | String c r =>
      if Ascii.eqb c " "%char then EmptyString :: split_sp r
      else match split_sp r with
           | w :: ws => String c w :: ws
           | [] => [String c EmptyString]
           end
  end.

(** [parts.join(' ')], the inverse of [split_sp]. *)
Fixpoint join_sp (ws : list string) : string :=
  match ws with
  | [] => EmptyString
  | [w] => w
  | w :: ws => String.append w (String " "%char (join_sp ws))
  end.

(** ** [verificarToken] (lines 4-48)

    [Sigue u] is [next()] with [req.usuario = u]; [Corta s e] is the
    early answer. *)
Inductive ResMw :=
| Sigue (u : Sesion)
| Corta (status : Z) (e : Err).

Section Middleware.
Context `{Cripto}.

Definition verificarToken (authHeader : option string) (ahora : Z) : ResMw :=
  match authHeader with
  | None | Some EmptyString => Corta 403 ETokenNoProporcionado
  | Some h =>
      match nth_error (split_sp h) 1 with
      | None | Some EmptyString => Corta 403 EFormatoTokenInvalido
      | Some token =>
          match verificar token ahora with
          | Valido s => Sigue s
          | Expirado => Corta 401 ETokenExpirado
          | Invalido => Corta 401 ETokenInvalido
          end
      end
  end.

End Middleware.

(** ** [verificarRol(...rolesPermitidos)] (lines 51-69)

    [rolesPermitidos.includes(req.usuario.rol)]: a NULL role (the LEFT
    JOIN found no row of [Roles]) is in no list. *)
Definition rol_permitido (permitidos : list string) (rol : option string) : bool :=
  match rol with
  | Some r => bool_decide (r ∈ permitidos)
  | None => false
  end.

Definition verificarRol (permitidos : list string) (usuario : option Sesion) : ResMw :=
  match usuario with
  | None => Corta 401 ENoAutenticado
  | Some u => if rol_permitido permitidos (s_rol u) then Sigue u
              else Corta 403 EAccesoDenegado
  end.

(** ** Splitting and joining *)

Lemma split_sp_no_vacio s : split_sp s <> [].
Proof. destruct s as [|c r]; simpl; [done|]. destruct (Ascii.eqb c _); [done|].
  destruct (split_sp r); done. Qed.

(** A word without a space, a space, and the rest: the word is the first
    piece. *)
Lemma split_sp_app w r :
  sin_espacio w = true ->
  split_sp (String.append w (String " "%char r)) = w :: split_sp r.
Proof.
  induction w as [|c w IH]; intros Hw; simpl; [done|].
  simpl in Hw. apply andb_prop in Hw as [Hc Hw]. apply negb_true_iff in Hc.
  rewrite Hc, IH by done. done.
Qed.

(** [split(' ')] then [join(' ')] gives the string back. *)
Lemma join_split_sp s : join_sp (split_sp s) = s.
Proof.
  induction s as [|c r IH]; simpl; [done|].
  destruct (Ascii.eqb c " "%char) eqn:E.
  - apply Ascii.eqb_eq in E as ->. destruct (split_sp r) as [|w ws] eqn:Es;
      [by apply split_sp_no_vacio in Es|]. simpl. rewrite <- IH. simpl.
    destruct ws; done.
  - destruct (split_sp r) as [|w ws] eqn:Es; [by apply split_sp_no_vacio in Es|].
    rewrite <- IH. destruct ws; done.
Qed.

(** A string with no space is one piece. *)
Lemma split_sp_sin_espacio w : sin_espacio w = true -> split_sp w = [w].
Proof.
  induction w as [|c w IH]; intros Hw; simpl; [done|].
  simpl in Hw. apply andb_prop in Hw as [Hc Hw]. apply negb_true_iff in Hc.
  by rewrite Hc, IH.
Qed.

(** ** The controllers of [auth.controller.js] *)

(** [LEFT JOIN Roles r ON u.rol_id = r.id], [r.nombre as rol]. *)
Definition rol_de (d : Db) (u : Usuario) : option string :=
  ro_nombre <$> buscar (u_rol_id u) (roles d).

(** [WHERE correo = ?]. *)
Definition con_correo (c : string) (u : Usuario) : bool := bool_decide (u_correo u = c).

Record BodyRegistro := mkBodyRegistro {
  bu_nombre : option string; bu_correo : option string; bu_password : option string;
  bu_rol_id : option Z }.

(** [rol_id || 1]. *)
Definition rol_o_1 (r : option Z) : Z := if js_truthy_z r then default 1 r else 1.

(** [if (!usuario.activo)]: NULL and FALSE are inactive. *)
Definition activo_u (u : Usuario) : bool :=
  match u_activo u with Some true => true | _ => false end.

Section Controladores.
Context `{Cripto}.

(** [registrar] (lines 6-61): public, and the role comes from the body. *)
Definition registrar_tx (b : BodyRegistro) (d : Db) : Ctrl (Z * Usuario) :=
  n <- de_opcion (presente_s (bu_nombre b)) (400, ECamposIncompletos) ;;
  c <- de_opcion (presente_s (bu_correo b)) (400, ECamposIncompletos) ;;
  p <- de_opcion (presente_s (bu_password b)) (400, ECamposIncompletos) ;;
  exigir (negb (existe (con_correo c) (filas (usuarios d)))) (409, ECorreoYaRegistrado) ;;;
  let u := mkUsuario n c (hash p) (rol_o_1 (bu_rol_id b)) (Some true) in
  let '(uid, us) := insertar u (usuarios d) in
  ok (201, (uid, u), con_usuarios us d).

(** [login] (lines 64-148): the token carries [{id, nombre, correo, rol}]
    and expires [duracion] seconds after [NOW()]; the access is logged. *)
Definition login_tx (correo password : option string) (d : Db) : Ctrl (string * Sesion) :=
  c <- de_opcion (presente_s correo) (400, ECamposIncompletos) ;;
  p <- de_opcion (presente_s password) (400, ECamposIncompletos) ;;
  fila <- de_opcion (primero (con_correo c) (filas (usuarios d))) (401, ECredencialesInvalidas) ;;
  let '(uid, u) := fila in
  exigir (activo_u u) (403, EUsuarioInactivo) ;;;
  exigir (compare p (u_password u)) (401, ECredencialesInvalidas) ;;;
  let s := mkSesion uid (u_nombre u) (u_correo u) (rol_de d u) in
  let token := firmar s (reloj d + duracion) in
  let '(_, hs) := insertar (mkAcceso uid "LOGIN" (reloj d)) (historial d) in
  ok (200, (token, s), con_historial hs d).

(** [logout] (lines 183-204): only logs the access. *)
Definition logout_tx (u : Sesion) (d : Db) : Ctrl unit :=
  let '(_, hs) := insertar (mkAcceso (s_id u) "LOGOUT" (reloj d)) (historial d) in
  ok (200, tt, con_historial hs d).

Definition registrar b d := ejecutar (registrar_tx b d) d.
Definition login c p d := ejecutar (login_tx c p d) d.
Definition logout u d := ejecutar (logout_tx u d) d.

End Controladores.

(** ** What the middleware accepts *)

Section Propiedades.
Context `{Cripto}.

(** A header [w ++ " " ++ token], with no space in [w] nor in [token],
    is decided by [jwt.verify] on [token] alone: the word before the
    space is never looked at. *)
Lemma verificarToken_esquema w token ahora :
  sin_espacio w = true -> sin_espacio token = true -> token <> EmptyString ->
  verificarToken (Some (String.append w (String " "%char token))) ahora =
    match verificar token ahora with
    | Valido s => Sigue s
    | Expirado => Corta 401 ETokenExpirado
    | Invalido => Corta 401 ETokenInvalido
    end.
Proof.
  intros Hw Ht Hne. unfold verificarToken.
  assert (Hh : String.append w (String " "%char token) <> EmptyString) by (destruct w; done).
  destruct (String.append w _) as [|c r] eqn:E; [done|]. rewrite <- E.
  rewrite split_sp_app, split_sp_sin_espacio by done. simpl.
  destruct token; done.
Qed.

Lemma registrar_tx_inr b d s x d' :
  registrar_tx b d = inr (s, x, d') ->
  exists n c p,
    presente_s (bu_nombre b) = Some n /\ presente_s (bu_correo b) = Some c /\
    presente_s (bu_password b) = Some p /\
    existe (con_correo c) (filas (usuarios d)) = false /\ s = 201 /\
    x = (sig_id (usuarios d), mkUsuario n c (hash p) (rol_o_1 (bu_rol_id b)) (Some true)) /\
    d' = con_usuarios (insertar (mkUsuario n c (hash p) (rol_o_1 (bu_rol_id b)) (Some true))
                                (usuarios d)).2 d.
Proof.
  unfold registrar_tx. intros Hr. res_inv. res_fin.
  match goal with H : negb _ = true |- _ => apply negb_true_iff in H end.
  do 3 eexists. repeat split; eauto.
Qed.

(** With a unique row for its e-mail, [login] reaches the row's checks. *)
Lemma login_tx_fila correo password d uid u :
  correo <> EmptyString -> password <> EmptyString ->
  buscar uid (usuarios d) = Some u -> u_correo u = correo ->
  (forall k u', buscar k (usuarios d) = Some u' -> u_correo u' = correo -> k = uid) ->
  login_tx (Some correo) (Some password) d =
    (exigir (activo_u u) (403, EUsuarioInactivo) ;;;
     exigir (compare password (u_password u)) (401, ECredencialesInvalidas) ;;;
     let s := mkSesion uid (u_nombre u) (u_correo u) (rol_de d u) in
     ok (200, (firmar s (reloj d + duracion), s),
         con_historial (insertar (mkAcceso uid "LOGIN" (reloj d)) (historial d)).2 d)).
Proof.
  intros Hc Hp Hu Hcu Huniq. unfold login_tx.
  rewrite !presente_s_Some by done. cbn [res_bind de_opcion].
  rewrite (primero_unico (con_correo correo) (filas (usuarios d)) uid u).
  - done.
  - exact Hu.
  - unfold con_correo. by rewrite bool_decide_eq_true.
  - intros k u' Hk Hk'. apply (Huniq k u' Hk). by apply bool_decide_eq_true in Hk'.
Qed.

End Propiedades.

(** ** One implementation of the collaborators

    A model to run the controllers on: [hash p] is ["h$" ++ p]; a token
    is ["t"] followed by the binary digits of the [Countable] code of the
    payload and its expiry, which [verificar] decodes.  The signature of a
    real JWT is not modelled. *)

#[export] Instance Sesion_eq_dec : EqDecision Sesion.
Proof. solve_decision. Defined.

#[export] Instance Sesion_countable : Countable Sesion.
Proof.
  apply (inj_countable' (fun s => (s_id s, s_nombre s, s_correo s, s_rol s))
           (fun '(i, n, c, r) => mkSesion i n c r)).
  by intros [].
Defined.

Fixpoint bits (p : positive) : string :=
  match p with
  | xI p => String "1"%char (bits p)
  | xO p => String "0"%char (bits p)
  | xH => EmptyString
  end.

Fixpoint leer_bits (s : string) : option positive :=
  match s with
  | EmptyString => Some xH
  | String c r =>
      if Ascii.eqb c "1"%char then xI <$> leer_bits r
      else if Ascii.eqb c "0"%char then xO <$> leer_bits r
      else None
  end.

Definition hash_demo (p : string) : string := String.append "h$" (clave72 p).
Definition compare_demo (q h : string) : bool := String.eqb h (hash_demo q).
Definition firmar_demo (s : Sesion) (exp : Z) : string := String "t"%char (bits (encode (s, exp))).
Definition verificar_demo (token : string) (ahora : Z) : Verif :=
  match token with
  | String c r =>
      if Ascii.eqb c "t"%char then
        match leer_bits r ≫= decode with
        | Some (s, exp) => if ahora <? exp then Valido s else Expirado
        | None => Invalido
        end
      else Invalido
  | EmptyString => Invalido
  end.

Lemma leer_bits_bits p : leer_bits (bits p) = Some p.
Proof. induction p; simpl; rewrite ?IHp; done. Qed.

Lemma bits_sin_espacio p : sin_espacio (bits p) = true.
Proof. induction p; simpl; rewrite ?IHp; done. Qed.

#[export] Program Instance Cripto_demo : Cripto := {
  hash := hash_demo; compare := compare_demo; firmar := firmar_demo;
  verificar := verificar_demo; duracion := 86400 }.
Next Obligation.
  intros p q Hpq. unfold compare_demo, hash_demo. rewrite Hpq. apply String.eqb_refl.
Qed.
Next Obligation.
  intros p q Hne. unfold compare_demo, hash_demo. apply String.eqb_neq. intros Heq.
  apply Hne. cbv [String.append] in Heq. by injection Heq.
Qed.
Next Obligation.
  intros s exp ahora. unfold verificar_demo, firmar_demo. simpl.
  rewrite leer_bits_bits. simpl. by rewrite decode_encode.
Qed.
Next Obligation. lia. Qed.
Next Obligation. intros s exp. simpl. apply bits_sin_espacio. Qed.
Next Obligation. done. Qed.

(** ** Registering, logging in, and the token *)

Section Sesiones.
Context `{Cripto}.

(** The user row a successful [registrar] inserts. *)
Lemma registrar_nuevo nombre correo password r d :
  nombre <> EmptyString -> correo <> EmptyString -> password <> EmptyString ->
  existe (con_correo correo) (filas (usuarios d)) = false ->
  registrar (mkBodyRegistro (Some nombre) (Some correo) (Some password) (Some r)) d =
    (ROk 201 (sig_id (usuarios d), mkUsuario nombre correo (hash password) (rol_o_1 (Some r)) (Some true)),
     con_usuarios (insertar (mkUsuario nombre correo (hash password) (rol_o_1 (Some r)) (Some true))
                            (usuarios d)).2 d).
Proof.
  intros Hn Hc Hp Hno. unfold registrar, registrar_tx. cbn [bu_nombre bu_correo bu_password bu_rol_id].
  rewrite !presente_s_Some by done. cbn [res_bind de_opcion]. by rewrite Hno.
Qed.

(** C26: the public [registrar] followed by [login] with the same
    credentials answers 200 with a token for the new row: its id, name,
    e-mail and the name of the role whose id the request chose; until it
    expires, [verificarToken] accepts the header ["Bearer " ++ token] and
    sets [req.usuario] to that identity. *)
Theorem registrar_login_token nombre correo password r d ahora :
  nombre <> EmptyString -> correo <> EmptyString -> password <> EmptyString -> r <> 0 ->
  tabla_ok (usuarios d) -> existe (con_correo correo) (filas (usuarios d)) = false ->
  reloj d <= ahora < reloj d + duracion ->
  let d1 := snd (registrar (mkBodyRegistro (Some nombre) (Some correo) (Some password) (Some r)) d) in
  let s := mkSesion (sig_id (usuarios d)) nombre correo (ro_nombre <$> buscar r (roles d)) in
  exists token d2,
    login (Some correo) (Some password) d1 = (ROk 200 (token, s), d2) /\
    verificarToken (Some (String.append "Bearer " token)) ahora = Sigue s.
Proof.
  intros Hn Hc Hp Hr Hok Hno Hnow d1 s. unfold d1.
  rewrite registrar_nuevo by done. simpl snd.
  assert (Hrol : rol_o_1 (Some r) = r) by (unfold rol_o_1; simpl; by rewrite (proj2 (Z.eqb_neq r 0) Hr)).
  rewrite Hrol. rewrite existe_false in Hno.
  unfold login. rewrite (login_tx_fila correo password _ (sig_id (usuarios d))
                           (mkUsuario nombre correo (hash password) r (Some true)));
    cbn [usuarios con_usuarios]; try done.
  2: { unfold buscar. simpl. apply lookup_insert_eq. }
  2: { intros k u' Hk Hcu. unfold buscar in Hk. simpl in Hk.
       destruct (decide (k = sig_id (usuarios d))) as [->|Hne]; [done|].
       rewrite lookup_insert_ne in Hk by congruence.
       specialize (Hno k u' Hk). unfold con_correo in Hno.
       rewrite bool_decide_eq_false in Hno. contradiction. }
  cbn [u_password]. rewrite compare_hash. do 2 eexists. split; [reflexivity|].
  assert (Eb : forall t, String.append "Bearer " t = String.append "Bearer" (String " "%char t))
    by reflexivity.
  rewrite Eb.
  rewrite verificarToken_esquema by (apply firmar_sin_espacio || apply firmar_no_vacio || done).
  rewrite verificar_firmar. cbn [reloj con_usuarios].
  destruct (Z.ltb_spec ahora (reloj d + duracion)); [|lia].
  reflexivity.
Qed.
End Sesiones.

Section Rechazos.
Context `{Cripto}.

(** C27: [verificarToken] checks only that the header has a second
    space-separated piece: with any first word [w] (["Basic"],
    ["Token"], ...), the header [w ++ " " ++ token] is accepted or
    refused exactly as ["Bearer " ++ token], although the code comment
    and the specification ask for a bearer token. *)
Theorem verificarToken_ignora_esquema w token ahora :
  sin_espacio w = true -> sin_espacio token = true -> token <> EmptyString ->
  verificarToken (Some (String.append w (String " "%char token))) ahora =
  verificarToken (Some (String.append "Bearer " token)) ahora.
Proof.
  intros Hw Ht Hne. rewrite verificarToken_esquema by done.
  assert (Eb : String.append "Bearer " token = String.append "Bearer" (String " "%char token))
    by reflexivity.
  by rewrite Eb, verificarToken_esquema.
Qed.


(** C29: [bcrypt.compare] reads only the first 72 bytes of a password,
    so [login] lets an active user in with any password that agrees with
    the registered one on those bytes: it answers 200 with the user's
    token and logs the access exactly as for the right password. *)
Theorem login_acepta_72 correo password q d uid u :
  correo <> EmptyString -> password <> EmptyString ->
  buscar uid (usuarios d) = Some u -> u_correo u = correo ->
  (forall k u', buscar k (usuarios d) = Some u' -> u_correo u' = correo -> k = uid) ->
  activo_u u = true -> u_password u = hash q -> clave72 password = clave72 q ->
  let s := mkSesion uid (u_nombre u) (u_correo u) (rol_de d u) in
  login (Some correo) (Some password) d =
    (ROk 200 (firmar s (reloj d + duracion), s),
     con_historial (insertar (mkAcceso uid "LOGIN" (reloj d)) (historial d)).2 d).
Proof.
  intros Hc Hp Hu Hcu Huniq Ha Hq H72 s. unfold login.
  rewrite (login_tx_fila correo password d uid u) by done.
  rewrite Ha. cbn [res_bind exigir]. rewrite Hq, compare_72 by done. reflexivity.
Qed.
End Rechazos.

(** ** A concrete run, with [Cripto_demo] *)

(** Roles 1 (EMPLEADO) and 2 (ADMINISTRADOR), no user yet, clock at 100. *)
Definition db_roles_demo : Db :=
  con_reloj 100 (con_roles (insertar (mkRol "ADMINISTRADOR" None)
                   (insertar (mkRol "EMPLEADO" None) tabla_vacia).2).2 db_vacia).

(** A self-registration that asks for role 2. *)
Definition registro_admin : BodyRegistro :=
  mkBodyRegistro (Some "Eva") (Some "eva@correo.gt") (Some "clave") (Some 2).

Lemma registrar_login_token_witness :
  let d1 := snd (registrar registro_admin db_roles_demo) in
  let s := mkSesion 1 "Eva" "eva@correo.gt" (ro_nombre <$> buscar 2 (roles db_roles_demo)) in
  exists token d2,
    login (Some "eva@correo.gt") (Some "clave") d1 = (ROk 200 (token, s), d2) /\
    verificarToken (Some (String.append "Bearer " token)) 500 = Sigue s.
Proof.
  exact (registrar_login_token "Eva" "eva@correo.gt" "clave" 2 db_roles_demo 500
           ltac:(done) ltac:(done) ltac:(done) ltac:(lia) tabla_vacia_ok
           ltac:(vm_compute; reflexivity) ltac:(cbn; lia)).
Defined.

Lemma verificarToken_ignora_esquema_witness :
  verificarToken (Some (String.append "Basic" (String " "%char (firmar_demo (mkSesion 1 "Eva" "eva@correo.gt" None) 1000)))) 500 =
  verificarToken (Some (String.append "Bearer " (firmar_demo (mkSesion 1 "Eva" "eva@correo.gt" None) 1000))) 500.
Proof.
  apply verificarToken_ignora_esquema;
    [reflexivity | apply (@firmar_sin_espacio Cripto_demo) | done].
Defined.


(** Two passwords of 73 bytes that differ only in the last one. *)
Fixpoint repetir (n : nat) (c : ascii) : string :=
  match n with O => EmptyString | S n => String c (repetir n c) end.

Definition clave_larga (c : ascii) : string := String.append (repetir 72 "a"%char) (String c EmptyString).

Definition usuario_ana : Usuario :=
  mkUsuario "Ana" "ana@correo.gt" (hash_demo (clave_larga "1"%char)) 1 (Some true).

Definition db_ana : Db := con_usuarios (mkTabla {[1 := usuario_ana]} 2) db_roles_demo.

Lemma login_acepta_72_witness :
  clave_larga "2"%char <> clave_larga "1"%char /\
  fst (login (Some "ana@correo.gt") (Some (clave_larga "2"%char)) db_ana) =
    ROk 200 (firmar_demo (mkSesion 1 "Ana" "ana@correo.gt" (Some "EMPLEADO")) (100 + 86400),
             mkSesion 1 "Ana" "ana@correo.gt" (Some "EMPLEADO")).
Proof.
  split; [vm_compute; discriminate|].
  rewrite (login_acepta_72 "ana@correo.gt" (clave_larga "2"%char) (clave_larga "1"%char) db_ana 1
             usuario_ana ltac:(done) ltac:(vm_compute; discriminate) ltac:(reflexivity) eq_refl).
  - reflexivity.
  - intros k u' Hk _. unfold buscar in Hk. simpl in Hk.
    by apply lookup_singleton_Some in Hk as [-> _].
  - reflexivity.
  - reflexivity.
  - vm_compute. reflexivity.
Defined.

