(* ===== verification/Turnos.v ===== *)
(** * Turnos: work shifts and the HH:MM:SS check

    [crearTurno], [actualizarTurno] and [eliminarTurno] of
    [src/parqueo-api/src/controllers/turnos.controller.js].  The hours of
    a shift are strings checked against the regular expression
    [/^([0-1][0-9]|2[0-3]):([0-5][0-9]):([0-5][0-9])$/]; [hora_regex] is
    that expression as a test on the eight characters of the string, and
    [hora_regex_correcta] shows it accepts exactly the two-digit
    renderings [formato_hora h m s] of the times of a day. *)

From Stdlib Require Import Ascii.
From S2P Require Import Prelude Store.

(** ** The regular expression *)

(** A character class [[lo-hi]] on character codes. *)
Definition rango (lo hi : nat) (c : ascii) : bool :=
  let n := nat_of_ascii c in (lo <=? n)%nat && (n <=? hi)%nat.

(** [^([0-1][0-9]|2[0-3]):([0-5][0-9]):([0-5][0-9])$]: eight characters,
    '0' = 48, '1' = 49, '2' = 50, '3' = 51, '5' = 53, '9' = 57. *)
Definition hora_regex (s : string) : bool :=
  match String.list_ascii_of_string s with
  | [h1; h2; c1; m1; m2; c2; s1; s2] =>
      ((rango 48 49 h1 && rango 48 57 h2) || (Ascii.eqb h1 "2"%char && rango 48 51 h2)) &&
      Ascii.eqb c1 ":"%char && rango 48 53 m1 && rango 48 57 m2 &&
      Ascii.eqb c2 ":"%char && rango 48 53 s1 && rango 48 57 s2
  | _ => false
  end.

(** ** The reference: a time of day rendered with two digits per field *)

Definition digito (n : nat) : ascii := ascii_of_nat (48 + n).

Definition dos_digitos (n : nat) : list ascii := [digito (n / 10); digito (n mod 10)].

Definition formato_hora (h m s : nat) : string :=
  String.string_of_list_ascii (dos_digitos h ++ [":"%char] ++ dos_digitos m ++ [":"%char] ++ dos_digitos s).

(** ** The controllers *)

Record BodyTurno := mkBodyTurno {
  btu_descripcion : option string; btu_hora_inicio : option string; btu_hora_fin : option string }.

(** [if (campo && !horaRegex.test(campo))]: an absent or empty hour is
    not tested. *)
Definition hora_aceptada (o : option string) : bool :=
  match presente_s o with Some h => hora_regex h | None => true end.

(** [crearTurno] (lines 85-130): both hours required and well formed. *)
Definition crearTurno_tx (b : BodyTurno) (d : Db) : Ctrl (Z * Turno) :=
  hi <- de_opcion (presente_s (btu_hora_inicio b)) (400, ECamposRequeridos) ;;
  hf <- de_opcion (presente_s (btu_hora_fin b)) (400, ECamposRequeridos) ;;
  exigir (hora_regex hi && hora_regex hf) (400, EFormatoHoraInvalido) ;;;
  let tu := mkTurno (btu_descripcion b) (Some hi) (Some hf) in
  let '(id, ts) := insertar tu (turnos d) in
  ok (201, (id, tu), con_turnos ts d).

(** [actualizarTurno] (lines 135-189): the hours that are sent are
    tested, then the three columns are overwritten (an hour left out
    becomes NULL). *)
Definition actualizarTurno_tx (id : Z) (b : BodyTurno) (d : Db) : Ctrl Turno :=
  _ <- de_opcion (buscar id (turnos d)) (404, ETurnoNoEncontrado) ;;
  exigir (hora_aceptada (btu_hora_inicio b) && hora_aceptada (btu_hora_fin b))
         (400, EFormatoHoraInvalido) ;;;
  let tu := mkTurno (btu_descripcion b) (btu_hora_inicio b) (btu_hora_fin b) in
  ok (200, tu, con_turnos (actualizar id (fun _ => tu) (turnos d)) d).

(** [eliminarTurno] (lines 194-236): refused while an employee has it. *)
Definition eliminarTurno_tx (id : Z) (d : Db) : Ctrl unit :=
  _ <- de_opcion (buscar id (turnos d)) (404, ETurnoNoEncontrado) ;;
  exigir (Nat.eqb (contar (fun e => bool_decide (em_turno_id e = Some id)) (filas (empleados d))) 0)
         (400, ENoSePuedeEliminar) ;;;
  ok (200, tt, con_turnos (borrar id (turnos d)) d).

Definition crearTurno b d := ejecutar (crearTurno_tx b d) d.
Definition actualizarTurno id b d := ejecutar (actualizarTurno_tx id b d) d.
Definition eliminarTurno id d := ejecutar (eliminarTurno_tx id d) d.

(** ** The check accepts exactly the times of a day *)

Lemma nat_digito n : (n < 208)%nat -> nat_of_ascii (digito n) = (48 + n)%nat.
Proof. intros H. unfold digito. apply nat_ascii_embedding. lia. Qed.

Lemma digito_nat c : (48 <= nat_of_ascii c)%nat -> digito (nat_of_ascii c - 48) = c.
Proof.
  intros H. unfold digito. replace (48 + (nat_of_ascii c - 48))%nat with (nat_of_ascii c) by lia.
  apply ascii_nat_embedding.
Qed.

Lemma rango_digito lo hi n :
  (n < 208)%nat -> rango lo hi (digito n) = ((lo <=? 48 + n) && (48 + n <=? hi))%nat.
Proof. intros H. unfold rango. by rewrite nat_digito. Qed.

Lemma eqb_digito_2 n : (n < 208)%nat -> Ascii.eqb (digito n) "2"%char = (n =? 2)%nat.
Proof.
  intros H. destruct (Ascii.eqb_spec (digito n) "2"%char) as [E|E];
    destruct (Nat.eqb_spec n 2) as [->|Hn]; try done.
  - exfalso. apply Hn. apply (f_equal nat_of_ascii) in E. rewrite nat_digito in E by done.
    change (nat_of_ascii "2"%char) with 50%nat in E. lia.
Qed.

Lemma dos_digitos_de a b : (b < 10)%nat -> dos_digitos (10 * a + b) = [digito a; digito b].
Proof.
  intros Hb. unfold dos_digitos.
  rewrite <- (Nat.div_unique (10 * a + b) 10 a b) by lia.
  rewrite <- (Nat.mod_unique (10 * a + b) 10 a b) by lia. done.
Qed.

Lemma rango_nat lo hi c : rango lo hi c = true -> (lo <= nat_of_ascii c <= hi)%nat.
Proof. unfold rango. rewrite andb_true_iff, !Nat.leb_le. done. Qed.

(** C35: the regular expression of [crearTurno] and [actualizarTurno]
    accepts a string exactly when it is [HH:MM:SS] for some time of day
    [h < 24], [m < 60], [s < 60], each field written with two digits. *)
Theorem hora_regex_correcta s :
  hora_regex s = true <->
  exists h m sec, (h < 24)%nat /\ (m < 60)%nat /\ (sec < 60)%nat /\ s = formato_hora h m sec.
Proof.
  split.
  - unfold hora_regex.
    destruct (String.list_ascii_of_string s)
      as [|h1 [|h2 [|c1 [|m1 [|m2 [|c2 [|s1 [|s2 [|? ?]]]]]]]]] eqn:E; try discriminate.
    intros Hb. repeat match goal with H : _ && _ = true |- _ => apply andb_prop in H as [? ?] end.
    repeat match goal with
           | H : Ascii.eqb _ _ = true |- _ => apply Ascii.eqb_eq in H; subst
           | H : rango _ _ _ = true |- _ => apply rango_nat in H
           end.
    exists (10 * (nat_of_ascii h1 - 48) + (nat_of_ascii h2 - 48))%nat,
      (10 * (nat_of_ascii m1 - 48) + (nat_of_ascii m2 - 48))%nat,
      (10 * (nat_of_ascii s1 - 48) + (nat_of_ascii s2 - 48))%nat.
    assert (Hh : (48 <= nat_of_ascii h1)%nat /\ (48 <= nat_of_ascii h2 <= 57)%nat /\
                 (10 * (nat_of_ascii h1 - 48) + (nat_of_ascii h2 - 48) < 24)%nat).
    { match goal with H : _ || _ = true |- _ => apply orb_prop in H as [H|H] end;
        repeat match goal with H : _ && _ = true |- _ => apply andb_prop in H as [? ?] end;
        repeat match goal with
               | H : Ascii.eqb _ _ = true |- _ => apply Ascii.eqb_eq in H; subst
               | H : rango _ _ _ = true |- _ => apply rango_nat in H
               end; try change (nat_of_ascii "2"%char) with 50%nat in *; lia. }
    split; [lia|]. split; [lia|]. split; [lia|].
    rewrite <- (String.string_of_list_ascii_of_string s), E. unfold formato_hora. f_equal.
    rewrite !dos_digitos_de by lia. rewrite !digito_nat by lia. done.
  - intros (h & m & sec & Hh & Hm & Hs & ->). unfold hora_regex, formato_hora.
    rewrite String.list_ascii_of_string_of_list_ascii. unfold dos_digitos. cbn [app].
    pose proof (Nat.div_mod h 10 ltac:(lia)). pose proof (Nat.mod_upper_bound h 10 ltac:(lia)).
    pose proof (Nat.div_mod m 10 ltac:(lia)). pose proof (Nat.mod_upper_bound m 10 ltac:(lia)).
    pose proof (Nat.div_mod sec 10 ltac:(lia)). pose proof (Nat.mod_upper_bound sec 10 ltac:(lia)).
    rewrite !rango_digito, eqb_digito_2 by lia. rewrite !Ascii.eqb_refl, !andb_true_r.
    destruct (Nat.eqb_spec (h / 10) 2) as [E|E]; cbn [andb]; rewrite ?orb_false_r;
      rewrite ?orb_true_iff, ?andb_true_iff, ?Nat.leb_le, ?orb_true_iff, ?andb_true_iff, ?Nat.leb_le; lia.
Qed.
