(* ===== verification/Roles.v ===== *)
(** * Roles: the role catalogue and the names it keeps distinct

    [crearRol], [actualizarRol] and [eliminarRol] of
    [src/parqueo-api/src/controllers/roles.controller.js].  A role is a
    name and a description; login reports the role's name ([rol_de] in
    [Auth]), so the table is, for the rest of the system, the set of role
    names.  The abstract contract is that set with three operations,
    [alta_abs], [renombrar_abs] and [baja_abs], whose refusal is the 409
    of a duplicate name; [roles_refinan] shows each controller answers as
    its abstract operation does and leaves exactly its result in
    [nombres_roles].  The guard of [eliminarRol] protecting the system
    roles looks at the current name only, and [rol_sistema_eliminable]
    shows a rename defeats it. *)

From S2P Require Import Prelude Store.

(** ** The controllers *)

Record BodyRol := mkBodyRol { bro_nombre : option string; bro_descripcion : option string }.

(** [SELECT id FROM Roles WHERE nombre = ?]. *)
Definition con_nombre_rol (n : string) (r : Rol) : bool := String.eqb (ro_nombre r) n.

(** [crearRol] (lines 83-132). *)
Definition crearRol_tx (b : BodyRol) (d : Db) : Ctrl (Z * Rol) :=
  n <- de_opcion (presente_s (bro_nombre b)) (400, ECampoRequerido) ;;
  exigir (negb (existe (con_nombre_rol n) (filas (roles d)))) (409, ERolYaExiste) ;;;
  let r := mkRol n (bro_descripcion b) in
  let '(rid, rs) := insertar r (roles d) in
  ok (201, (rid, r), con_roles rs d).

(** [if (nombre && nombre !== rolExiste[0].nombre)] then
    [SELECT id FROM Roles WHERE nombre = ? AND id != ?] (lines 156-168). *)
Definition nombre_rol_libre (nombre : option string) (id : Z) (r : Rol) (d : Db) : bool :=
  match presente_s nombre with
  | Some n => String.eqb n (ro_nombre r) || negb (existe_otro (con_nombre_rol n) id (filas (roles d)))
  | None => true
  end.

(** [nombre || rolExiste[0].nombre] (line 173). *)
Definition nombre_o (nombre : option string) (r : Rol) : string :=
  match presente_s nombre with Some n => n | None => ro_nombre r end.

(** [actualizarRol] (lines 137-194): the description is overwritten, the
    name only when one is sent. *)
Definition actualizarRol_tx (id : Z) (b : BodyRol) (d : Db) : Ctrl Rol :=
  r <- de_opcion (buscar id (roles d)) (404, ERolNoEncontrado) ;;
  exigir (nombre_rol_libre (bro_nombre b) id r d) (409, ENombreDuplicado) ;;;
  let r' := mkRol (nombre_o (bro_nombre b) r) (bro_descripcion b) in
  ok (200, r', con_roles (actualizar id (fun _ => r') (roles d)) d).

(** [const rolesSistema = ['ADMIN', 'ADMINISTRADOR', 'USUARIO', 'EMPLEADO'];
    rolesSistema.includes(nombre.toUpperCase())] (lines 217-218). *)
Definition roles_sistema : list string := ["ADMIN"; "ADMINISTRADOR"; "USUARIO"; "EMPLEADO"].

Definition es_rol_sistema (n : string) : bool :=
  existsb (String.eqb (to_upper n)) roles_sistema.

(** [eliminarRol] (lines 199-252): a system role answers 403, a role with
    users 400. *)
Definition eliminarRol_tx (id : Z) (d : Db) : Ctrl unit :=
  r <- de_opcion (buscar id (roles d)) (404, ERolNoEncontrado) ;;
  exigir (negb (es_rol_sistema (ro_nombre r))) (403, ENoSePuedeEliminar) ;;;
  exigir (Nat.eqb (contar (fun u => u_rol_id u =? id) (filas (usuarios d))) 0)
         (400, ENoSePuedeEliminar) ;;;
  ok (200, tt, con_roles (borrar id (roles d)) d).

Definition crearRol b d := ejecutar (crearRol_tx b d) d.
Definition actualizarRol id b d := ejecutar (actualizarRol_tx id b d) d.
Definition eliminarRol id d := ejecutar (eliminarRol_tx id d) d.

(** ** The abstract contract: a set of distinct names

    The contract of the catalogue, on the set [S] of role names: adding
    [n] is refused when [n] is present and otherwise adds it; renaming [a]
    to [n] keeps the set when [n = a], is refused when [n] is another
    present name, and otherwise replaces [a] by [n]; removing [a] takes it
    out of the set.  [None] is the refusal. *)

Definition nombres_roles (d : Db) : gset string := imagen ro_nombre (filas (roles d)).

Definition roles_unicos (d : Db) : Prop := columna_unica ro_nombre (filas (roles d)).

Definition alta_abs (n : string) (S : gset string) : option (gset string) :=
  if decide (n ∈ S) then None else Some ({[n]} ∪ S).

Definition renombrar_abs (a n : string) (S : gset string) : option (gset string) :=
  if decide (n = a) then Some S else alta_abs n (S ∖ {[a]}).

Definition baja_abs (a : string) (S : gset string) : gset string := S ∖ {[a]}.

(** A controller's answer implements an abstract outcome: a refusal is a
    409 with the database rolled back; an accepted step answers 2xx-style
    [ROk] and leaves a well-formed table of distinct names whose set is
    the abstract result. *)
Definition corresponde {A} (d : Db) (x : Resp A * Db) (o : option (gset string)) : Prop :=
  match o with
  | None => (exists e, fst x = RErr 409 e) /\ snd x = d
  | Some t => (exists s v, fst x = ROk s v) /\
      tabla_ok (roles (snd x)) /\ roles_unicos (snd x) /\ nombres_roles (snd x) = t
  end.

(** The calls that write [Roles]. *)
Inductive paso_rol : Db -> Db -> Prop :=
| pr_crear b d : paso_rol d (snd (crearRol b d))
| pr_actualizar id b d : paso_rol d (snd (actualizarRol id b d))
| pr_eliminar id d : paso_rol d (snd (eliminarRol id d)).

(** ** The controllers implement the contract *)

Lemma con_nombre_rol_true n r : con_nombre_rol n r = true <-> ro_nombre r = n.
Proof. apply String.eqb_eq. Qed.

(** [WHERE nombre = ?] found nothing: [n] is not a role name. *)
Lemma nombre_ausente n (t : gmap Z Rol) :
  existe (con_nombre_rol n) t = false -> n ∉ imagen ro_nombre t.
Proof.
  rewrite existe_false, elem_of_imagen. intros H (k & r & Hk & Hn).
  specialize (H k r Hk). apply Bool.not_true_iff_false in H. by apply H, con_nombre_rol_true.
Qed.

(** [WHERE nombre = ?] found a row: [n] is a role name. *)
Lemma nombre_presente n (t : gmap Z Rol) :
  existe (con_nombre_rol n) t = true -> n ∈ imagen ro_nombre t.
Proof.
  rewrite existe_true, elem_of_imagen. intros (k & r & Hk & Hn). exists k, r.
  by rewrite <- con_nombre_rol_true.
Qed.

(** The new name of [actualizarRol] is the old one or held by no other row. *)
Lemma nombre_o_libre nombre id r d :
  buscar id (roles d) = Some r -> roles_unicos d -> nombre_rol_libre nombre id r d = true ->
  forall k x, filas (roles d) !! k = Some x -> ro_nombre x = nombre_o nombre r -> k = id.
Proof.
  unfold nombre_rol_libre, nombre_o, buscar. intros Hr Hu Hg k x Hk Hn.
  destruct (presente_s nombre) as [n|]; [|exact (Hu _ _ _ _ Hk Hr Hn)].
  apply orb_true_iff in Hg as [Heq|Hg].
  - apply String.eqb_eq in Heq. subst n. exact (Hu _ _ _ _ Hk Hr Hn).
  - apply negb_true_iff in Hg.
    apply (proj1 (existe_otro_false _ _ _) Hg k x Hk), con_nombre_rol_true, Hn.
Qed.

(** The guard of [actualizarRol] refused: the name sent is another role's. *)
Lemma nombre_o_ocupado nombre id r d :
  buscar id (roles d) = Some r -> nombre_rol_libre nombre id r d = false ->
  nombre_o nombre r <> ro_nombre r /\ nombre_o nombre r ∈ nombres_roles d.
Proof.
  unfold nombre_rol_libre, nombre_o, buscar, nombres_roles. intros Hr Hg.
  destruct (presente_s nombre) as [n|]; [|done].
  apply orb_false_iff in Hg as [Hne Hg]. apply negb_false_iff in Hg. split.
  - intros ->. by rewrite String.eqb_refl in Hne.
  - unfold existe_otro in Hg. apply existsb_exists in Hg as ([k x] & Hkx & Hg).
    apply andb_true_iff in Hg as [Hn _]. apply list_elem_of_In, elem_of_map_to_list in Hkx.
    apply elem_of_imagen. exists k, x. split; [done|]. by apply con_nombre_rol_true.
Qed.

Lemma renombrar_abs_libre a n S :
  a ∈ S -> (n <> a -> n ∉ S) -> renombrar_abs a n S = Some ({[n]} ∪ (S ∖ {[a]})).
Proof.
  intros Ha Hn. unfold renombrar_abs, alta_abs. destruct (decide (n = a)) as [->|Hne].
  - by rewrite <- union_difference_singleton_L.
  - rewrite decide_False; [done|]. intros [Hs _]%elem_of_difference. by apply (Hn Hne).
Qed.

Lemma renombrar_abs_ocupado a n S : n <> a -> n ∈ S -> renombrar_abs a n S = None.
Proof.
  intros Hne Hn. unfold renombrar_abs, alta_abs. rewrite decide_False by done.
  rewrite decide_True; [done|]. apply elem_of_difference. split; [done|].
  by intros ->%elem_of_singleton.
Qed.

Section Refinamiento.
Context (d : Db) (Hok : tabla_ok (roles d)) (Hu : roles_unicos d).

Lemma crearRol_corresponde b n :
  presente_s (bro_nombre b) = Some n -> corresponde d (crearRol b d) (alta_abs n (nombres_roles d)).
Proof.
  intros Hn. unfold crearRol, crearRol_tx, alta_abs. rewrite Hn. cbn [res_bind de_opcion].
  destruct (existe (con_nombre_rol n) (filas (roles d))) eqn:E.
  - rewrite decide_True by (by apply nombre_presente). cbn. eauto.
  - rewrite decide_False by (by apply nombre_ausente). cbn. split; [eauto|].
    pose proof (tabla_ok_fresca _ Hok) as Hf. split; [by apply (insertar_ok _ _ Hok)|]. split.
    + apply columna_unica_insert_fresca; [done| |done]. intros k r Hk Hr. simpl in Hr.
      apply (nombre_ausente _ _ E), elem_of_imagen. eauto.
    + unfold nombres_roles. simpl. by rewrite imagen_insert_fresca.
Qed.

Lemma actualizarRol_corresponde id r b :
  buscar id (roles d) = Some r ->
  corresponde d (actualizarRol id b d)
    (renombrar_abs (ro_nombre r) (nombre_o (bro_nombre b) r) (nombres_roles d)).
Proof.
  intros Hr. assert (Ha : ro_nombre r ∈ nombres_roles d) by (apply elem_of_imagen; eauto).
  unfold actualizarRol, actualizarRol_tx. rewrite Hr. cbn [res_bind de_opcion].
  destruct (nombre_rol_libre (bro_nombre b) id r d) eqn:Hg.
  - pose proof (nombre_o_libre _ _ _ _ Hr Hu Hg) as Hl. unfold buscar in Hr.
    rewrite renombrar_abs_libre by
      (done || (intros Hne Hin; apply elem_of_imagen in Hin as (k & x & Hk & Hx);
                pose proof (Hl k x Hk Hx) as ->; congruence)).
    cbn. split; [eauto|]. split; [by apply actualizar_ok|]. split.
    + eapply columna_unica_alter; [exact Hr| |exact Hu]. exact Hl.
    + unfold nombres_roles. simpl. by rewrite (imagen_alter _ _ _ _ _ Hr Hu).
  - destruct (nombre_o_ocupado _ _ _ _ Hr Hg) as [Hne Hin].
    rewrite renombrar_abs_ocupado by done. cbn. eauto.
Qed.

Lemma eliminarRol_corresponde id r :
  buscar id (roles d) = Some r ->
  (exists s e, eliminarRol id d = (RErr s e, d)) \/
  corresponde d (eliminarRol id d) (Some (baja_abs (ro_nombre r) (nombres_roles d))).
Proof.
  intros Hr. unfold eliminarRol. destruct (eliminarRol_tx id d) as [[s e]|[[s x] d']] eqn:E.
  { left. eauto. }
  right. unfold eliminarRol_tx in E. res_inv. res_fin. rewrite Hr in *.
  match goal with H : Some _ = Some _ |- _ => injection H as <- end. unfold buscar in Hr.
  split; [eauto|]. split; [by apply borrar_ok|]. split; [by apply columna_unica_delete|].
  unfold nombres_roles. simpl. by rewrite (imagen_delete _ _ _ _ Hr Hu).
Qed.

End Refinamiento.

(** The invariant of the catalogue along any sequence of calls. *)
Lemma paso_rol_preserva d d' :
  rtc paso_rol d d' -> tabla_ok (roles d) -> roles_unicos d -> tabla_ok (roles d') /\ roles_unicos d'.
Proof.
  induction 1 as [|d1 d2 d3 Hp _ IH]; [done|]. intros Hok Hu.
  enough (tabla_ok (roles d2) /\ roles_unicos d2) as [] by auto.
  destruct Hp as [b d0|id b d0|id d0].
  - destruct (presente_s (bro_nombre b)) as [n|] eqn:Hn.
    + pose proof (crearRol_corresponde d0 Hok Hu b n Hn) as Hc.
      destruct (alta_abs n _); [by destruct Hc as (_ & ? & ? & _)|by destruct Hc as [_ ->]].
    + unfold crearRol, crearRol_tx. rewrite Hn. done.
  - destruct (buscar id (roles d0)) as [r|] eqn:Hr.
    + pose proof (actualizarRol_corresponde d0 Hok Hu id r b Hr) as Hc.
      destruct (renombrar_abs _ _ _); [by destruct Hc as (_ & ? & ? & _)|by destruct Hc as [_ ->]].
    + unfold actualizarRol, actualizarRol_tx. rewrite Hr. done.
  - destruct (buscar id (roles d0)) as [r|] eqn:Hr.
    + destruct (eliminarRol_corresponde d0 Hok Hu id r Hr) as [(s & e & ->)|(_ & ? & ? & _)]; done.
    + unfold eliminarRol, eliminarRol_tx. rewrite Hr. done.
Qed.

(** C36: the role controllers implement the abstract contract on the set
    of role names, operation by operation.  From a well-formed table of
    distinct names: [crearRol] without a name answers 400, and with a name
    [n] is refused with 409 exactly when [alta_abs] refuses ([n] present)
    and otherwise leaves exactly [{[n]} ∪ S]; [actualizarRol] of a missing
    id answers 404, and of a present role named [a] follows
    [renombrar_abs a n'] for the name [n'] the code writes (409 exactly
    when [n'] is another present name); [eliminarRol] of a missing id
    answers 404, and of a present role either refuses with the database
    unchanged or removes exactly [a].  Every accepted call keeps the
    table well formed and its names distinct. *)
Theorem roles_refinan d :
  tabla_ok (roles d) -> roles_unicos d ->
  (forall b, match presente_s (bro_nombre b) with
     | None => crearRol b d = (RErr 400 ECampoRequerido, d)
     | Some n => corresponde d (crearRol b d) (alta_abs n (nombres_roles d))
     end) /\
  (forall id b, match buscar id (roles d) with
     | None => actualizarRol id b d = (RErr 404 ERolNoEncontrado, d)
     | Some r => corresponde d (actualizarRol id b d)
                   (renombrar_abs (ro_nombre r) (nombre_o (bro_nombre b) r) (nombres_roles d))
     end) /\
  (forall id, match buscar id (roles d) with
     | None => eliminarRol id d = (RErr 404 ERolNoEncontrado, d)
     | Some r => (exists s e, eliminarRol id d = (RErr s e, d)) \/
                 corresponde d (eliminarRol id d) (Some (baja_abs (ro_nombre r) (nombres_roles d)))
     end).
Proof.
  intros Hok Hu. split; [|split].
  - intros b. destruct (presente_s (bro_nombre b)) as [n|] eqn:Hn; [by apply crearRol_corresponde|].
    unfold crearRol, crearRol_tx. by rewrite Hn.
  - intros id b. destruct (buscar id (roles d)) as [r|] eqn:Hr; [by apply actualizarRol_corresponde|].
    unfold actualizarRol, actualizarRol_tx. by rewrite Hr.
  - intros id. destruct (buscar id (roles d)) as [r|] eqn:Hr; [by apply eliminarRol_corresponde|].
    unfold eliminarRol, eliminarRol_tx. by rewrite Hr.
Qed.

(** ** The protection of the system roles *)

(** [actualizarRol] with a name no other role holds. *)
Lemma actualizarRol_renombra d id r n desc :
  buscar id (roles d) = Some r -> n <> EmptyString ->
  existe_otro (con_nombre_rol n) id (filas (roles d)) = false ->
  actualizarRol_tx id (mkBodyRol (Some n) desc) d =
    inr (200, mkRol n desc, con_roles (actualizar id (fun _ => mkRol n desc) (roles d)) d).
Proof.
  intros Hr Hn Ho. unfold actualizarRol_tx, nombre_rol_libre, nombre_o. cbn [bro_nombre bro_descripcion].
  rewrite Hr. cbn [res_bind de_opcion]. rewrite presente_s_Some by done. rewrite Ho. simpl negb.
  rewrite orb_true_r. reflexivity.
Qed.

(** C37: [eliminarRol] protects a role only by its current name.  A
    system role ([ADMINISTRADOR], ...) with no users is refused with 403,
    but after [actualizarRol] renames it to any free name that is not a
    system name, the same [eliminarRol] deletes it. *)
Theorem rol_sistema_eliminable d id r n desc :
  buscar id (roles d) = Some r -> es_rol_sistema (ro_nombre r) = true ->
  contar (fun u => u_rol_id u =? id) (filas (usuarios d)) = 0%nat ->
  n <> EmptyString -> es_rol_sistema n = false ->
  existe_otro (con_nombre_rol n) id (filas (roles d)) = false ->
  fst (eliminarRol id d) = RErr 403 ENoSePuedeEliminar /\
  (let d1 := snd (actualizarRol id (mkBodyRol (Some n) desc) d) in
   fst (eliminarRol id d1) = ROk 200 tt /\ buscar id (roles (snd (eliminarRol id d1))) = None).
Proof.
  intros Hr Hs Hc Hn Hns Ho. split.
  - unfold eliminarRol, eliminarRol_tx. rewrite Hr. cbn -[es_rol_sistema]. by rewrite Hs.
  - unfold actualizarRol. rewrite (actualizarRol_renombra d id r n desc Hr Hn Ho).
    unfold eliminarRol, eliminarRol_tx. cbn [ejecutar snd roles con_roles].
    rewrite buscar_actualizar, decide_True by done. rewrite Hr.
    cbn -[contar es_rol_sistema]. rewrite Hns, Hc. cbn. split; [done|]. apply lookup_delete_eq.
Qed.

(** ** Witnesses *)

Lemma roles_unicos_vacia : roles_unicos db_vacia.
Proof. intros k1 k2 x1 x2 H1. simpl in H1. by rewrite lookup_empty in H1. Qed.

Definition db_roles_sistema : Db :=
  let d1 := snd (crearRol (mkBodyRol (Some "ADMINISTRADOR") None) db_vacia) in
  snd (crearRol (mkBodyRol (Some "EMPLEADO") None) d1).

Lemma db_roles_sistema_ok : tabla_ok (roles db_roles_sistema) /\ roles_unicos db_roles_sistema.
Proof.
  apply (paso_rol_preserva db_vacia); [|apply tabla_vacia_ok|apply roles_unicos_vacia].
  eapply rtc_l; [apply pr_crear|]. eapply rtc_l; [apply pr_crear|]. apply rtc_refl.
Qed.

(** On the two system roles: renaming [EMPLEADO] to [ADMINISTRADOR] is the
    refused abstract step (409, nothing written), and creating [Jefe]
    gives the set of three names. *)
Lemma roles_refinan_witness :
  corresponde db_roles_sistema (actualizarRol 2 (mkBodyRol (Some "ADMINISTRADOR") None) db_roles_sistema) None /\
  corresponde db_roles_sistema (crearRol (mkBodyRol (Some "Jefe") None) db_roles_sistema)
    (Some {[ "Jefe"; "ADMINISTRADOR"; "EMPLEADO" ]}).
Proof.
  destruct db_roles_sistema_ok as [Hok Hu].
  destruct (roles_refinan db_roles_sistema Hok Hu) as (Hc & Ha & _).
  specialize (Ha 2 (mkBodyRol (Some "ADMINISTRADOR") None)).
  specialize (Hc (mkBodyRol (Some "Jefe") None)).
  change (buscar 2 (roles db_roles_sistema)) with (Some (mkRol "EMPLEADO" None)) in Ha.
  change (presente_s (bro_nombre (mkBodyRol (Some "Jefe") None))) with (Some "Jefe") in Hc.
  cbn iota beta in Ha, Hc.
  assert (E1 : renombrar_abs (ro_nombre (mkRol "EMPLEADO" None))
                 (nombre_o (bro_nombre (mkBodyRol (Some "ADMINISTRADOR") None)) (mkRol "EMPLEADO" None))
                 (nombres_roles db_roles_sistema) = None) by (vm_compute; reflexivity).
  assert (E2 : alta_abs "Jefe" (nombres_roles db_roles_sistema) = Some {[ "Jefe"; "ADMINISTRADOR"; "EMPLEADO" ]})
    by (vm_compute; reflexivity).
  rewrite E1 in Ha. rewrite E2 in Hc. split; [exact Ha|exact Hc].
Defined.

Lemma rol_sistema_eliminable_witness :
  fst (eliminarRol 1 db_roles_sistema) = RErr 403 ENoSePuedeEliminar /\
  (let d1 := snd (actualizarRol 1 (mkBodyRol (Some "Jefe") None) db_roles_sistema) in
   fst (eliminarRol 1 d1) = ROk 200 tt /\ buscar 1 (roles (snd (eliminarRol 1 d1))) = None).
Proof.
  apply (rol_sistema_eliminable db_roles_sistema 1 (mkRol "ADMINISTRADOR" None) "Jefe" None);
    try vm_compute; try reflexivity; discriminate.
Defined.
