(* ===== verification/Empleados.v ===== *)
(** * Empleados: employee records of users

    [crearEmpleado], [actualizarEmpleado], [cambiarEstado] and
    [eliminarEmpleado] of
    [src/parqueo-api/src/controllers/empleados.controller.js].  An
    employee row links a user ([usuario_id]) to a shift and a DPI.
    [crearEmpleado] refuses a second row for a user and a repeated DPI;
    [actualizarEmpleado] keeps the user but overwrites the DPI unchecked;
    [cambiarEstado] writes [Usuarios.activo] of the employee's user;
    [eliminarEmpleado] refuses an employee with tickets, counting
    [Tickets.empleado_id], which [registrarEntrada] (in [Tickets]) fills
    with the user id of the session and not the employee id. *)

From S2P Require Import Prelude Store Tickets.

(** ** The controllers *)

Record BodyEmpleado := mkBodyEmpleado {
  bem_usuario_id : option Z; bem_turno_id : option Z; bem_telefono : option string;
  bem_direccion : option string; bem_dpi : option string }.

(** [SELECT id FROM Empleados WHERE usuario_id = ?]. *)
Definition con_usuario (uid : Z) (e : Empleado) : bool := em_usuario_id e =? uid.

(** [SELECT id FROM Empleados WHERE dpi = ?]. *)
Definition con_dpi (dpi : string) (e : Empleado) : bool := bool_decide (em_dpi e = Some dpi).

(** [if (turno_id) { SELECT id FROM Turnos WHERE id = ? ... }] (lines 145-158). *)
Definition turno_valido (turno : option Z) (d : Db) : bool :=
  match presente turno with
  | Some tid => match buscar tid (turnos d) with Some _ => true | None => false end
  | None => true
  end.

(** [crearEmpleado] (lines 85-199), a transaction rolled back on every
    early return. *)
Definition crearEmpleado_tx (b : BodyEmpleado) (d : Db) : Ctrl (Z * Empleado) :=
  uid <- de_opcion (presente (bem_usuario_id b)) (400, ECamposRequeridos) ;;
  dpi <- de_opcion (presente_s (bem_dpi b)) (400, ECamposRequeridos) ;;
  _ <- de_opcion (buscar uid (usuarios d)) (404, EUsuarioNoEncontrado) ;;
  exigir (negb (existe (con_usuario uid) (filas (empleados d)))) (409, EUsuarioYaEsEmpleado) ;;;
  exigir (negb (existe (con_dpi dpi) (filas (empleados d)))) (409, EDpiDuplicado) ;;;
  exigir (turno_valido (bem_turno_id b) d) (404, ETurnoNoEncontrado) ;;;
  let e := mkEmpleado uid (bem_turno_id b) (bem_telefono b) (bem_direccion b) (Some dpi) in
  let '(id, es) := insertar e (empleados d) in
  ok (201, (id, e), con_empleados es d).

(** [UPDATE Empleados SET turno_id = ?, telefono = ?, direccion = ?, dpi = ?]
    (lines 223-228): [usuario_id] is kept. *)
Definition empleado_actualizado (b : BodyEmpleado) (e : Empleado) : Empleado :=
  mkEmpleado (em_usuario_id e) (bem_turno_id b) (bem_telefono b) (bem_direccion b) (bem_dpi b).

(** [actualizarEmpleado] (lines 204-257): no check of the DPI or the shift. *)
Definition actualizarEmpleado_tx (id : Z) (b : BodyEmpleado) (d : Db) : Ctrl Empleado :=
  e <- de_opcion (buscar id (empleados d)) (404, EEmpleadoNoEncontrado) ;;
  ok (200, empleado_actualizado b e,
      con_empleados (actualizar id (empleado_actualizado b) (empleados d)) d).

(** [UPDATE Usuarios SET activo = ? WHERE id = ?] (lines 280-283). *)
Definition con_activo (activo : option bool) (u : Usuario) : Usuario :=
  mkUsuario (u_nombre u) (u_correo u) (u_password u) (u_rol_id u) activo.

(** [cambiarEstado] (lines 262-305): the state of the employee's user. *)
Definition cambiarEstado_tx (id : Z) (activo : option bool) (d : Db) : Ctrl (option bool) :=
  e <- de_opcion (buscar id (empleados d)) (404, EEmpleadoNoEncontrado) ;;
  ok (200, activo, con_usuarios (actualizar (em_usuario_id e) (con_activo activo) (usuarios d)) d).

(** [eliminarEmpleado] (lines 310-351): [SELECT COUNT( * ) FROM Tickets
    WHERE empleado_id = ?]. *)
Definition eliminarEmpleado_tx (id : Z) (d : Db) : Ctrl unit :=
  _ <- de_opcion (buscar id (empleados d)) (404, EEmpleadoNoEncontrado) ;;
  exigir (Nat.eqb (contar (fun t => t_empleado_id t =? id) (filas (tickets d))) 0)
         (400, ENoSePuedeEliminar) ;;;
  ok (200, tt, con_empleados (borrar id (empleados d)) d).

Definition crearEmpleado b d := ejecutar (crearEmpleado_tx b d) d.
Definition actualizarEmpleado id b d := ejecutar (actualizarEmpleado_tx id b d) d.
Definition cambiarEstado id a d := ejecutar (cambiarEstado_tx id a d) d.
Definition eliminarEmpleado id d := ejecutar (eliminarEmpleado_tx id d) d.

(** The calls that write [Empleados] or the state of their users. *)
Inductive paso_empleado : Db -> Db -> Prop :=
| pe_crear b d : paso_empleado d (snd (crearEmpleado b d))
| pe_actualizar id b d : paso_empleado d (snd (actualizarEmpleado id b d))
| pe_estado id a d : paso_empleado d (snd (cambiarEstado id a d))
| pe_eliminar id d : paso_empleado d (snd (eliminarEmpleado id d)).

(** At most one employee row per user. *)
Definition un_empleado_por_usuario (d : Db) : Prop :=
  columna_unica em_usuario_id (filas (empleados d)).

(** ** One employee row per user *)

Lemma con_usuario_false uid (t : gmap Z Empleado) :
  existe (con_usuario uid) t = false -> forall k e, t !! k = Some e -> em_usuario_id e <> uid.
Proof.
  rewrite existe_false. intros H k e Hk Heq. specialize (H k e Hk).
  unfold con_usuario in H. rewrite Heq, Z.eqb_refl in H. discriminate.
Qed.

Lemma paso_empleado_preserva d d' :
  tabla_ok (empleados d) -> un_empleado_por_usuario d -> paso_empleado d d' ->
  tabla_ok (empleados d') /\ un_empleado_por_usuario d'.
Proof.
  intros Hok Hu Hp.
  destruct Hp; unfold crearEmpleado, actualizarEmpleado, cambiarEstado, eliminarEmpleado;
    apply ejecutar_preserva; try done; intros s x d' Hc.
  - unfold crearEmpleado_tx in Hc. res_inv. res_fin. split; [by apply insertar_ok|].
    apply columna_unica_insert_fresca; [by apply tabla_ok_fresca| |done].
    intros k e Hk. match goal with Hn : negb (existe (con_usuario _) _) = true |- _ =>
      apply negb_true_iff in Hn; exact (con_usuario_false _ _ Hn k e Hk) end.
  - unfold actualizarEmpleado_tx in Hc. res_inv. res_fin. unfold buscar in *.
    split; [by apply actualizar_ok|]. eapply columna_unica_alter; [eassumption| |done].
    intros k e Hk He. match goal with Hb : filas (empleados _) !! _ = Some _ |- _ =>
      exact (Hu _ _ _ _ Hk Hb He) end.
  - unfold cambiarEstado_tx in Hc. res_inv. by res_fin.
  - unfold eliminarEmpleado_tx in Hc. res_inv. res_fin.
    split; [by apply borrar_ok | by apply columna_unica_delete].
Qed.

(** C38: from a table with one employee row per user, any sequence of
    [crearEmpleado], [actualizarEmpleado], [cambiarEstado] and
    [eliminarEmpleado] calls keeps one row per user: creation checks
    [WHERE usuario_id = ?] and the update never writes [usuario_id]. *)
Theorem un_empleado_por_usuario_inv d d' :
  tabla_ok (empleados d) -> un_empleado_por_usuario d -> rtc paso_empleado d d' ->
  un_empleado_por_usuario d'.
Proof.
  intros Hok Hu Hr. cut (tabla_ok (empleados d') /\ un_empleado_por_usuario d'); [by intros []|].
  induction Hr as [|d1 d2 d3 Hp _ IH] in Hok, Hu |- *; [done|].
  destruct (paso_empleado_preserva d1 d2 Hok Hu Hp). by apply IH.
Qed.

(** ** Deleting an employee who registered tickets *)

(** C39: [registrarEntrada] stores the session's user id as the ticket's
    [empleado_id] and [eliminarEmpleado] counts tickets by employee id.
    When the employee id [eid] of the session's user differs from that
    user id, the employee can register an entry and then be deleted:
    the new ticket names the user, and the deletion answers 200. *)
Theorem eliminarEmpleado_ignora_tickets u b d eid e nid t d1 :
  buscar eid (empleados d) = Some e -> em_usuario_id e = s_id u -> s_id u <> eid ->
  contar (fun t => t_empleado_id t =? eid) (filas (tickets d)) = 0%nat ->
  registrarEntrada u b d = (ROk 201 (nid, t), d1) ->
  t_empleado_id t = em_usuario_id e /\ fst (eliminarEmpleado eid d1) = ROk 200 tt.
Proof.
  intros He Hu Hne Hc H. apply ejecutar_ok, registrarEntrada_tx_inr in H
    as (vid & eid' & tid & e' & _ & _ & _ & _ & _ & _ & _ & _ & Hx & ->).
  injection Hx as -> ->. split; [simpl; congruence|].
  unfold eliminarEmpleado, eliminarEmpleado_tx. cbn [empleados tickets con_espacios con_tickets].
  rewrite He. cbn [res_bind de_opcion].
  assert (Hz : existe (fun t => t_empleado_id t =? eid)
                 (filas (insertar (ticket_nuevo u vid eid' tid (reloj d)) (tickets d)).2) = false).
  { apply contar_cero in Hc. destruct (existe _ (filas (insertar _ _).2)) eqn:E; [|done].
    apply existe_insert in E as [E|E]; [|congruence]. simpl in E. apply Z.eqb_eq in E. congruence. }
  apply contar_cero in Hz. rewrite Hz. reflexivity.
Qed.

(** ** DPI uniqueness *)

(** No two employee rows share a DPI. *)
Definition dpis_unicos (d : Db) : Prop :=
  forall k1 k2 e1 e2 x, filas (empleados d) !! k1 = Some e1 -> filas (empleados d) !! k2 = Some e2 ->
    em_dpi e1 = Some x -> em_dpi e2 = Some x -> k1 = k2.

Lemma crearEmpleado_dpis_unicos b d :
  tabla_ok (empleados d) -> dpis_unicos d -> dpis_unicos (snd (crearEmpleado b d)).
Proof.
  intros Hok Hu. unfold crearEmpleado. apply ejecutar_preserva; [done|]. intros s x d' Hc.
  unfold crearEmpleado_tx in Hc. res_inv. res_fin.
  match goal with Hn : negb (existe (con_dpi _) _) = true |- _ =>
    apply negb_true_iff in Hn; rewrite existe_false in Hn; rename Hn into Hno end.
  pose proof (tabla_ok_fresca _ Hok) as Hf. intros k1 k2 e1 e2 y L1 L2 Hy1 Hy2. simpl in L1, L2.
  assert (Hnew : forall k e, filas (empleados d) !! k = Some e -> em_dpi e <> Some x1).
  { intros k e Hk He. specialize (Hno k e Hk). unfold con_dpi in Hno.
    rewrite bool_decide_eq_false in Hno. done. }
  destruct (decide (sig_id (empleados d) = k1)) as [<-|N1],
    (decide (sig_id (empleados d) = k2)) as [<-|N2]; try done.
  - rewrite lookup_insert_eq in L1. rewrite lookup_insert_ne in L2 by done.
    injection L1 as <-. simpl in Hy1. injection Hy1 as <-. by destruct (Hnew _ _ L2 Hy2).
  - rewrite lookup_insert_eq in L2. rewrite lookup_insert_ne in L1 by done.
    injection L2 as <-. simpl in Hy2. injection Hy2 as <-. by destruct (Hnew _ _ L1 Hy1).
  - rewrite lookup_insert_ne in L1, L2 by done. eauto.
Qed.

(** C40: [crearEmpleado] keeps DPIs unique ([WHERE dpi = ?] before the
    INSERT), but [actualizarEmpleado] writes the DPI of the body with no
    check: giving employee [id2] the DPI of employee [id1] answers 200
    and leaves two rows with that DPI. *)
Theorem actualizarEmpleado_dpi_duplicado d id1 id2 e1 e2 dpi b :
  id1 <> id2 -> buscar id1 (empleados d) = Some e1 -> buscar id2 (empleados d) = Some e2 ->
  em_dpi e1 = Some dpi -> bem_dpi b = Some dpi ->
  fst (actualizarEmpleado id2 b d) = ROk 200 (empleado_actualizado b e2) /\
  ~ dpis_unicos (snd (actualizarEmpleado id2 b d)).
Proof.
  intros Hne H1 H2 Hd1 Hb. unfold actualizarEmpleado, actualizarEmpleado_tx.
  rewrite H2. cbn [res_bind de_opcion ejecutar fst snd]. split; [done|].
  intros Hu. apply Hne, (Hu id1 id2 e1 (empleado_actualizado b e2) dpi).
  - cbn. rewrite lookup_alter_ne by done. exact H1.
  - cbn. rewrite lookup_alter_eq. unfold buscar in H2. by rewrite H2.
  - exact Hd1.
  - exact Hb.
Qed.

(** ** Witnesses *)

Lemma un_empleado_por_usuario_vacia d : filas (empleados d) = ∅ -> un_empleado_por_usuario d.
Proof. intros E k1 k2 x1 x2 H1. by rewrite E, lookup_empty in H1. Qed.

(** Users 7 (Ana) and 8 (Luis) on top of the lot of [Tickets]. *)
Definition db_usuarios : Db :=
  con_usuarios (mkTabla {[7 := mkUsuario "Ana" "ana@parqueo.gt" "h$a" 1 (Some true);
                          8 := mkUsuario "Luis" "luis@parqueo.gt" "h$l" 1 (Some true)]} 9) db_demo.

(** Ana is employee 1, Luis employee 2; a second record for Ana is
    refused (409); Luis gets Ana's DPI; Ana is deactivated; Luis's
    record is deleted. *)
Definition db_personal_traza : Db :=
  let d1 := snd (crearEmpleado (mkBodyEmpleado (Some 7) None None None (Some "1111")) db_usuarios) in
  let d2 := snd (crearEmpleado (mkBodyEmpleado (Some 7) None None None (Some "2222")) d1) in
  let d3 := snd (crearEmpleado (mkBodyEmpleado (Some 8) None None None (Some "2222")) d2) in
  let d4 := snd (actualizarEmpleado 2 (mkBodyEmpleado None None None None (Some "1111")) d3) in
  let d5 := snd (cambiarEstado 1 (Some false) d4) in
  snd (eliminarEmpleado 2 d5).

Lemma un_empleado_por_usuario_inv_witness : un_empleado_por_usuario db_personal_traza.
Proof.
  apply (un_empleado_por_usuario_inv db_usuarios); [apply tabla_vacia_ok | by apply un_empleado_por_usuario_vacia |].
  unfold db_personal_traza.
  eapply rtc_l; [apply pe_crear|]. eapply rtc_l; [apply pe_crear|]. eapply rtc_l; [apply pe_crear|].
  eapply rtc_l; [apply pe_actualizar|]. eapply rtc_l; [apply pe_estado|].
  eapply rtc_l; [apply pe_eliminar|]. apply rtc_refl.
Defined.

(** Ana (user 7) is employee 1 and the session of [sesion_demo]. *)
Definition db_personal : Db :=
  snd (crearEmpleado (mkBodyEmpleado (Some 7) None None None (Some "1111")) db_usuarios).

Lemma eliminarEmpleado_ignora_tickets_witness :
  t_empleado_id (mkTicket 1 1 7 1 36000 None ACTIVO) = em_usuario_id (mkEmpleado 7 None None None (Some "1111")) /\
  fst (eliminarEmpleado 1 (snd (registrarEntrada sesion_demo entrada_demo db_personal))) = ROk 200 tt.
Proof.
  apply (eliminarEmpleado_ignora_tickets sesion_demo entrada_demo db_personal 1
           (mkEmpleado 7 None None None (Some "1111")) 1 (mkTicket 1 1 7 1 36000 None ACTIVO));
    [vm_compute; reflexivity | reflexivity | discriminate | vm_compute; reflexivity |].
  vm_compute. reflexivity.
Defined.

(** Ana and Luis as employees 1 and 2 with DPIs 1111 and 2222. *)
Definition db_dos_empleados : Db :=
  snd (crearEmpleado (mkBodyEmpleado (Some 8) None None None (Some "2222")) db_personal).

Lemma actualizarEmpleado_dpi_duplicado_witness :
  let b := mkBodyEmpleado None None None None (Some "1111") in
  fst (actualizarEmpleado 2 b db_dos_empleados) =
    ROk 200 (empleado_actualizado b (mkEmpleado 8 None None None (Some "2222"))) /\
  ~ dpis_unicos (snd (actualizarEmpleado 2 b db_dos_empleados)).
Proof.
  apply (actualizarEmpleado_dpi_duplicado db_dos_empleados 1 2
           (mkEmpleado 7 None None None (Some "1111")) (mkEmpleado 8 None None None (Some "2222")) "1111");
    try (vm_compute; reflexivity); discriminate.
Defined.
