(* ===== verification/Multas.v ===== *)
(** * Multas: fines attached to tickets

    [crearMulta], [actualizarMulta] and [eliminarMulta] of
    [src/parqueo-api/src/controllers/multas.controller.js].  A fine
    references a ticket and carries a reason and an amount (in cents).
    Creation requires an amount greater than zero; the update tests the
    amount only when it is truthy, so an update can store 0 or NULL:
    [montos_multas] says exactly which calls keep every amount positive. *)

From S2P Require Import Prelude Store Tickets Pagos.

Record BodyMulta := mkBodyMulta {
  bm_ticket_id : option Z; bm_motivo : option string; bm_monto : option Z }.

(** [crearMulta] (lines 109-174); [fecha] takes the column default
    [CURRENT_TIMESTAMP], the clock of the store. *)
Definition crearMulta_tx (b : BodyMulta) (d : Db) : Ctrl (Z * Multa) :=
  tid <- de_opcion (presente (bm_ticket_id b)) (400, ECamposRequeridos) ;;
  motivo <- de_opcion (presente_s (bm_motivo b)) (400, ECamposRequeridos) ;;
  monto <- de_opcion (presente (bm_monto b)) (400, ECamposRequeridos) ;;
  exigir (negb (monto <=? 0)) (400, EMontoInvalido) ;;;
  _ <- de_opcion (buscar tid (tickets d)) (404, ETicketNoEncontrado) ;;
  let m := mkMulta tid (Some motivo) (Some monto) (reloj d) in
  let '(mid, ms) := insertar m (multas d) in
  ok (201, (mid, m), con_multas ms d).

(** [if (monto && monto <= 0)] (line 197). *)
Definition monto_invalido (monto : option Z) : bool :=
  match presente monto with Some z => z <=? 0 | None => false end.

(** [actualizarMulta] (lines 179-236): [UPDATE Multas SET motivo = ?,
    monto = ?] with the values of the body. *)
Definition actualizarMulta_tx (id : Z) (b : BodyMulta) (d : Db) : Ctrl Multa :=
  m <- de_opcion (buscar id (multas d)) (404, EMultaNoEncontrada) ;;
  exigir (negb (monto_invalido (bm_monto b))) (400, EMontoInvalido) ;;;
  let m' := mkMulta (m_ticket_id m) (bm_motivo b) (bm_monto b) (m_fecha m) in
  ok (200, m', con_multas (actualizar id (fun _ => m') (multas d)) d).

(** [eliminarMulta] (lines 241-269). *)
Definition eliminarMulta_tx (id : Z) (d : Db) : Ctrl unit :=
  _ <- de_opcion (buscar id (multas d)) (404, EMultaNoEncontrada) ;;
  ok (200, tt, con_multas (borrar id (multas d)) d).

Definition crearMulta b d := ejecutar (crearMulta_tx b d) d.
Definition actualizarMulta id b d := ejecutar (actualizarMulta_tx id b d) d.
Definition eliminarMulta id d := ejecutar (eliminarMulta_tx id d) d.

(** Every stored fine has a positive amount. *)
Definition montos_positivos (d : Db) : Prop :=
  forall k m, buscar k (multas d) = Some m -> exists z, m_monto m = Some z /\ 0 < z.

(** [crearMulta] keeps the amounts positive. *)
Lemma crearMulta_montos b d :
  montos_positivos d -> montos_positivos (snd (crearMulta b d)).
Proof.
  intros Hm. unfold crearMulta. apply ejecutar_preserva; [done|]. intros s x d' Hc.
  unfold crearMulta_tx in Hc. res_inv. res_fin.
  intros k m Hk. unfold buscar in Hk. simpl in Hk. rewrite lookup_insert in Hk.
  case_decide; [injection Hk as <- | by apply (Hm k)].
  match goal with Hz : negb (_ <=? 0) = true |- _ => apply negb_true_iff, Z.leb_gt in Hz end.
  simpl. eauto.
Qed.

(** [actualizarMulta] with amount 0 passes the check and stores 0. *)
Lemma actualizarMulta_monto_cero id d m :
  buscar id (multas d) = Some m ->
  fst (actualizarMulta id (mkBodyMulta None (m_motivo m) (Some 0)) d) =
    ROk 200 (mkMulta (m_ticket_id m) (m_motivo m) (Some 0) (m_fecha m)) /\
  ~ montos_positivos (snd (actualizarMulta id (mkBodyMulta None (m_motivo m) (Some 0)) d)).
Proof.
  intros Hm. unfold actualizarMulta, actualizarMulta_tx. rewrite Hm. cbn. split; [done|].
  intros Hp. destruct (Hp id (mkMulta (m_ticket_id m) (m_motivo m) (Some 0) (m_fecha m))) as (z & [= <-] & Hz);
    [|lia]. unfold buscar. cbn. rewrite lookup_alter_eq. unfold buscar in Hm. by rewrite Hm.
Qed.

(** Writing [m'] over an existing fine keeps the amounts positive exactly
    when [m'] has a positive amount. *)
Lemma montos_actualizar d id m m' :
  montos_positivos d -> buscar id (multas d) = Some m ->
  montos_positivos (con_multas (actualizar id (fun _ => m') (multas d)) d) <->
  exists z, m_monto m' = Some z /\ 0 < z.
Proof.
  unfold montos_positivos, buscar. intros Hp Hm. split.
  - intros H. apply (H id). simpl. by rewrite lookup_alter_eq, Hm.
  - intros Hz k x Hk. simpl in Hk. destruct (decide (id = k)) as [<-|Hne].
    + rewrite lookup_alter_eq, Hm in Hk. by injection Hk as <-.
    + rewrite lookup_alter_ne in Hk by done. by apply (Hp k).
Qed.

(** C21: the positive amounts that [crearMulta] enforces
    ([monto <= 0] answers 400) are kept by [crearMulta] and
    [eliminarMulta], and by [actualizarMulta] exactly when the fine is
    missing (404) or the body carries a non-zero amount: the update tests
    [monto && monto <= 0], so an absent amount (stored as NULL) or an
    amount of 0 passes and breaks the invariant, while a negative one is
    refused. *)
Theorem montos_multas d :
  montos_positivos d ->
  (forall b, montos_positivos (snd (crearMulta b d))) /\
  (forall id, montos_positivos (snd (eliminarMulta id d))) /\
  (forall id b, montos_positivos (snd (actualizarMulta id b d)) <->
     buscar id (multas d) = None \/ exists z, bm_monto b = Some z /\ z <> 0).
Proof.
  intros Hp. split; [|split].
  - intros b. by apply crearMulta_montos.
  - intros id. unfold eliminarMulta, eliminarMulta_tx. destruct (buscar id (multas d)); [|done].
    cbn. intros k x Hk. unfold buscar in Hk. simpl in Hk. apply lookup_delete_Some in Hk as [_ Hk].
    by apply (Hp k).
  - intros id b. unfold actualizarMulta, actualizarMulta_tx.
    destruct (buscar id (multas d)) as [m|] eqn:Hm; cbn; [|naive_solver].
    unfold monto_invalido, presente. destruct (bm_monto b) as [z|]; cbn.
    + destruct (Z.eqb_spec z 0) as [->|Hz0]; cbn.
      * rewrite (montos_actualizar d id m) by done. split; [intros (z & [= <-] & ?); lia|].
        intros [H|(z & [= <-] & ?)]; congruence.
      * destruct (Z.leb_spec z 0); cbn; [naive_solver|].
        rewrite (montos_actualizar d id m) by done. cbn. split; [eauto|]. intros _. eauto.
    + rewrite (montos_actualizar d id m) by done. cbn. split; [intros (? & ? & _); discriminate|].
      intros [H|(? & ? & _)]; discriminate.
Qed.

(** A fine of 50.00 on the closed ticket of the demo lot. *)
Definition db_multa_demo : Db :=
  snd (crearMulta (mkBodyMulta (Some 1) (Some "Mal estacionado") (Some 5000)) db_pago_demo).

Lemma db_multa_demo_positivos : montos_positivos db_multa_demo.
Proof.
  apply crearMulta_montos. intros k m Hk. vm_compute in Hk. discriminate.
Qed.

(** Deleting the fine keeps the invariant; updating it without an amount
    breaks it. *)
Lemma montos_multas_witness :
  montos_positivos (snd (eliminarMulta 1 db_multa_demo)) /\
  ~ montos_positivos (snd (actualizarMulta 1 (mkBodyMulta None (Some "Otro") None) db_multa_demo)).
Proof.
  destruct (montos_multas db_multa_demo db_multa_demo_positivos) as (_ & He & Ha).
  split; [apply He|]. rewrite Ha. intros [H|(z & H & _)]; [vm_compute in H|]; discriminate.
Defined.
