(* ===== verification/Historial.v ===== *)
(** * Historial: the access log

    [registrarAcceso] and [limpiarHistorial] of
    [src/parqueo-api/src/controllers/historialaccesos.controller.js]; the
    other writers of [HistorialAccesos] are [login] and [logout] in
    [Auth].  [limpiarHistorial] deletes the rows older than a number of
    days, at least 30; [limpiarHistorial_exacto] shows it deletes exactly
    those rows and reports how many. *)

From S2P Require Import Prelude Store Tickets.

Record BodyAcceso := mkBodyAcceso { ba_usuario_id : option Z; ba_accion : option string }.

(** [registrarAcceso] (lines 156-210). *)
Definition registrarAcceso_tx (b : BodyAcceso) (d : Db) : Ctrl (Z * Acceso) :=
  uid <- de_opcion (presente (ba_usuario_id b)) (400, ECamposRequeridos) ;;
  accion <- de_opcion (presente_s (ba_accion b)) (400, ECamposRequeridos) ;;
  _ <- de_opcion (buscar uid (usuarios d)) (404, EUsuarioNoEncontrado) ;;
  let a := mkAcceso uid accion (reloj d) in
  let '(hid, hs) := insertar a (historial d) in
  ok (201, (hid, a), con_historial hs d).

(** [fecha < DATE_SUB(NOW(), INTERVAL ? DAY)], times in seconds. *)
Definition antiguo (limite : Z) (a : Acceso) : bool := h_fecha a <? limite.

Definition limite_dias (dias : Z) (d : Db) : Z := reloj d - dias * 86400.

(** [limpiarHistorial] (lines 304-333): [if (!dias || dias < 30)] then
    [DELETE FROM HistorialAccesos WHERE fecha < ...]; the answer reports
    [affectedRows]. *)
Definition limpiarHistorial_tx (dias : option Z) (d : Db) : Ctrl nat :=
  n <- de_opcion (presente dias) (400, EParametroInvalido) ;;
  exigir (negb (n <? 30)) (400, EParametroInvalido) ;;;
  let lim := limite_dias n d in
  ok (200, contar (antiguo lim) (filas (historial d)),
      con_historial (mkTabla (filter (fun kv => antiguo lim kv.2 = false) (filas (historial d)))
                             (sig_id (historial d))) d).

Definition registrarAcceso b d := ejecutar (registrarAcceso_tx b d) d.
Definition limpiarHistorial dias d := ejecutar (limpiarHistorial_tx dias d) d.

(** C15: [limpiarHistorial] refuses fewer than 30 days with 400 and
    changes nothing; with [dias >= 30] it answers 200, keeps exactly the
    rows dated at or after [NOW() - dias days], and reports as
    [registros_eliminados] the number of rows dated before. *)
Theorem limpiarHistorial_exacto dias d :
  (dias < 30 -> limpiarHistorial (Some dias) d = (RErr 400 EParametroInvalido, d)) /\
  (30 <= dias ->
   fst (limpiarHistorial (Some dias) d) = ROk 200 (contar (antiguo (limite_dias dias d)) (filas (historial d))) /\
   forall k a, buscar k (historial (snd (limpiarHistorial (Some dias) d))) = Some a <->
               buscar k (historial d) = Some a /\ limite_dias dias d <= h_fecha a).
Proof.
  unfold limpiarHistorial, limpiarHistorial_tx. split; intros Hd.
  - destruct (Z.eqb_spec dias 0) as [->|Hz].
    + reflexivity.
    + rewrite (presente_Some (Some dias) dias) by done. cbn. by rewrite (proj2 (Z.ltb_lt _ _) Hd).
  - rewrite (presente_Some (Some dias) dias) by (done || lia). cbn [res_bind de_opcion].
    rewrite (proj2 (Z.ltb_ge _ _) Hd). cbn. split; [done|].
    intros k a. unfold buscar. cbn. rewrite map_lookup_filter_Some. unfold antiguo. cbn.
    rewrite Z.ltb_ge. done.
Qed.

Lemma limpiarHistorial_exacto_witness :
  let d := con_historial (mkTabla {[1 := mkAcceso 7 "LOGIN" 0; 2 := mkAcceso 7 "LOGOUT" 5000000]} 3)
                         (con_reloj 6000000 db_vacia) in
  (20 < 30 -> limpiarHistorial (Some 20) d = (RErr 400 EParametroInvalido, d)) /\
  (30 <= 30 ->
   fst (limpiarHistorial (Some 30) d) = ROk 200 (contar (antiguo (limite_dias 30 d)) (filas (historial d))) /\
   forall k a, buscar k (historial (snd (limpiarHistorial (Some 30) d))) = Some a <->
               buscar k (historial d) = Some a /\ limite_dias 30 d <= h_fecha a).
Proof.
  intros d. split; intros _.
  - apply (limpiarHistorial_exacto 20 d). lia.
  - apply (limpiarHistorial_exacto 30 d). lia.
Defined.
