(* ===== verification/Listados.v ===== *)
(** * Listados: the read-only controllers that compute

    The controllers that only read the store but compute something from
    it: the ticket listings and lookup of [tickets.controller.js], the
    payment listing, lookups and report of [pagos.controller.js], the
    listings and statistics of [historialaccesos.controller.js], the
    reservation listings of [reservas.controller.js], the fine listings
    of [multas.controller.js] and the permission table of
    [obtenerPermisos] in [roles.controller.js].  A listing is the rows of
    one table that pass the [WHERE] of the query, with their keys, sorted
    by its [ORDER BY] ([merge_sort]; rows that tie keep the order of the
    scan, one of the orders SQL allows).  Date filters take the day
    number of ['YYYY-MM-DD'] ([DATE(x)] is [dia x]); [GROUP BY] is
    [grupos], one group per distinct key; SQL aggregates are [agregado]
    ([NULL] on no rows) and the JavaScript [reduce] of [parseFloat] is
    [suma], or [suma_js] where a NULL amount makes it [NaN].  The columns
    the [LEFT JOIN]s add for display are modelled where a property reads
    them.  [reporte_cuadra] shows that the report of payments agrees with
    their listing; the lemmas at the end show what the listings answer
    after the NULL writes of [actualizarMulta] and [actualizarReserva],
    and which system role [obtenerPermisos] gives no permission. *)

From stdpp Require Import sorting.
From S2P Require Import Prelude Store Billing Tickets Reservas Roles Multas.

(** ** Filters and sums *)

(** [DATE(x)] of a time in seconds. *)
Definition dia (t : Z) : Z := t / 86400.

(** [if (fecha_inicio) query += ' AND DATE(x) >= ?'] and
    [if (fecha_fin) query += ' AND DATE(x) <= ?']. *)
Definition en_fechas (ini fin : option Z) (t : Z) : bool :=
  match ini with Some a => a <=? dia t | None => true end &&
  match fin with Some b => dia t <=? b | None => true end.

(** The rows of a table that pass a [WHERE], with their keys. *)
Definition donde {A} (P : A -> bool) (t : Tabla A) : list (Z * A) :=
  filter (fun kv => P kv.2 = true) (map_to_list (filas t)).

(** A sum of [DECIMAL] amounts, in cents. *)
Definition suma {A} (f : A -> Z) (l : list A) : Z := foldr (fun x s => f x + s) 0 l.

(** ** Tickets (tickets.controller.js) *)

(** The text of the [estado] column. *)
Definition estado_texto (e : EstadoTicket) : string :=
  match e with ACTIVO => "ACTIVO" | CERRADO => "CERRADO" end.

(** [ORDER BY t.hora_entrada DESC]. *)
Definition entrada_desc (a b : Z * Ticket) : Prop := t_hora_entrada b.2 <= t_hora_entrada a.2.

#[export] Instance entrada_desc_dec : RelDecision entrada_desc.
Proof. intros a b. unfold entrada_desc. apply _. Defined.

(** The [WHERE] of [listarTickets] (lines 235-248). *)
Definition ticket_en (estado : option string) (ini fin : option Z) (t : Ticket) : bool :=
  match presente_s estado with Some s => String.eqb (estado_texto (t_estado t)) s | None => true end &&
  en_fechas ini fin (t_hora_entrada t).

(** [listarTickets] (lines 216-267): [total] and the rows. *)
Definition listarTickets (estado : option string) (ini fin : option Z) (d : Db) : nat * list (Z * Ticket) :=
  let ts := merge_sort entrada_desc (donde (ticket_en estado ini fin) (tickets d)) in
  (length ts, ts).

(** [listarActivos] (lines 272-304): the ACTIVO tickets with
    [TIMESTAMPDIFF(MINUTE, t.hora_entrada, NOW())]. *)
Definition listarActivos (d : Db) : nat * list (Z * Ticket * Z) :=
  let ts := merge_sort entrada_desc
              (donde (fun t => estado_eqb (t_estado t) ACTIVO) (tickets d)) in
  (length ts, map (fun kv => (kv, minutos_entre (t_hora_entrada kv.2) (reloj d))) ts).

(** [LEFT JOIN Empleados emp ON t.empleado_id = emp.id
    LEFT JOIN Usuarios u ON emp.usuario_id = u.id]: [u.nombre as
    empleado_nombre]. *)
Definition empleado_nombre (d : Db) (t : Ticket) : option string :=
  buscar (t_empleado_id t) (empleados d) ≫= fun e =>
  u_nombre <$> buscar (em_usuario_id e) (usuarios d).

Record VistaTicket := mkVistaTicket {
  vt_ticket : Ticket; vt_minutos_totales : option Z; vt_empleado_nombre : option string }.

(** [obtenerTicket] (lines 309-354): [CASE WHEN t.estado = 'ACTIVO' THEN
    TIMESTAMPDIFF(MINUTE, t.hora_entrada, NOW()) ELSE
    TIMESTAMPDIFF(MINUTE, t.hora_entrada, t.hora_salida) END]. *)
Definition obtenerTicket (id : Z) (d : Db) : Resp VistaTicket :=
  match buscar id (tickets d) with
  | None => RErr 404 ETicketNoEncontrado
  | Some t =>
      let m := match t_estado t with
               | ACTIVO => Some (minutos_entre (t_hora_entrada t) (reloj d))
               | CERRADO => minutos_entre (t_hora_entrada t) <$> t_hora_salida t
               end in
      ROk 200 (mkVistaTicket t m (empleado_nombre d t))
  end.

(** [buscarPorVehiculo] (lines 359-390): [INNER JOIN Vehiculos v ...
    WHERE v.placa = ?]. *)
Definition buscarPorVehiculo (placa : string) (d : Db) : nat * list (Z * Ticket) :=
  let ts := merge_sort entrada_desc
              (donde (fun t => match buscar (t_vehiculo_id t) (vehiculos d) with
                               | Some v => bool_decide (v_placa v = Some placa)
                               | None => false
                               end) (tickets d)) in
  (length ts, ts).

(** ** Payments (pagos.controller.js) *)

(** [ORDER BY p.fecha_pago DESC]. *)
Definition fecha_desc (a b : Z * Pago) : Prop := p_fecha_pago b.2 <= p_fecha_pago a.2.

#[export] Instance fecha_desc_dec : RelDecision fecha_desc.
Proof. intros a b. unfold fecha_desc. apply _. Defined.

(** The [WHERE] of [listarPagos] (lines 144-159); a query parameter is
    a string, so any [tipo_pago_id] that is given is truthy. *)
Definition pago_en (tipo ini fin : option Z) (p : Pago) : bool :=
  match tipo with Some k => p_tipo_pago_id p =? k | None => true end &&
  en_fechas ini fin (p_fecha_pago p).

Record ListaPagos := mkListaPagos {
  lp_total : nat; lp_total_monto : Z; lp_pagos : list (Z * Pago) }.

(** [listarPagos] (lines 128-173): the rows, [total: pagos.length] and
    [total_monto], the [reduce] of the amounts from 0. *)
Definition listarPagos (tipo ini fin : option Z) (d : Db) : ListaPagos :=
  let ps := merge_sort fecha_desc (donde (pago_en tipo ini fin) (pagos d)) in
  mkListaPagos (length ps) (suma (fun kv => p_monto kv.2) ps) ps.

(** [obtenerPago] (lines 186-231): [WHERE p.id = ?], 404 on no row. *)
Definition obtenerPago (id : Z) (d : Db) : Resp Pago :=
  match buscar id (pagos d) with
  | Some p => ROk 200 p
  | None => RErr 404 EPagoNoEncontrado
  end.

(** [obtenerPagoPorTicket] (lines 236-267): [WHERE p.ticket_id = ?] and
    [pagos[0]], the first row of the scan. *)
Definition obtenerPagoPorTicket (tid : Z) (d : Db) : Resp (Z * Pago) :=
  match donde (fun p => p_ticket_id p =? tid) (pagos d) with
  | kv :: _ => ROk 200 kv
  | [] => RErr 404 EPagoNoEncontrado
  end.

(** An aggregate of SQL: [NULL] on no rows. *)
Definition agregado (f : Z -> Z -> Z) (l : list Z) : option Z :=
  match l with [] => None | x :: r => Some (foldr f x r) end.

Record Resumen := mkResumen {
  total_pagos : nat; total_recaudado : option Z;
  pago_minimo : option Z; pago_maximo : option Z }.

(** One row of [por_tipo_pago]: [tp.id], [tp.nombre], [COUNT( * )] and
    [SUM(p.monto)]. *)
Record PorTipo := mkPorTipo {
  pt_id : option Z; pt_nombre : option string; pt_cantidad : nat; pt_total : Z }.

(** One row of [por_dia]: [DATE(fecha_pago)], [COUNT( * )], [SUM(monto)]. *)
Record PorDia := mkPorDia { pd_fecha : Z; pd_cantidad : nat; pd_total : Z }.

Record Reporte := mkReporte {
  rp_resumen : Resumen; rp_por_tipo : list PorTipo; rp_por_dia : list PorDia }.

(** [LEFT JOIN TiposPago tp ON p.tipo_pago_id = tp.id]: [tp.id]. *)
Definition clave_tipo (d : Db) (p : Pago) : option Z :=
  if buscar (p_tipo_pago_id p) (tipos_pago d) is Some _ then Some (p_tipo_pago_id p) else None.

(** [GROUP BY] on a key: one group per distinct key, in the order the
    keys first appear. *)
Definition grupos {A K} `{EqDecision K} (clave : A -> K) (l : list A) : list (K * list A) :=
  map (fun k => (k, filter (fun x => clave x = k) l)) (remove_dups (map clave l)).

(** [ORDER BY total DESC] and [ORDER BY fecha DESC]. *)
Definition total_desc (a b : PorTipo) : Prop := pt_total b <= pt_total a.
Definition fecha_grupo_desc (a b : PorDia) : Prop := pd_fecha b <= pd_fecha a.

#[export] Instance total_desc_dec : RelDecision total_desc.
Proof. intros a b. unfold total_desc. apply _. Defined.
#[export] Instance fecha_grupo_desc_dec : RelDecision fecha_grupo_desc.
Proof. intros a b. unfold fecha_grupo_desc. apply _. Defined.

(** [reportePagos] (lines 272-337): the three queries over the same
    [WHERE]; [AVG(monto)] is [total_recaudado / total_pagos] and is
    left out. *)
Definition reportePagos (ini fin : option Z) (d : Db) : Reporte :=
  let ps := (donde (pago_en None ini fin) (pagos d)).*2 in
  let montos := p_monto <$> ps in
  let resumen := mkResumen (length ps) (agregado Z.add montos)
                           (agregado Z.min montos) (agregado Z.max montos) in
  let por_tipo := merge_sort total_desc
        ((fun g => mkPorTipo g.1 (g.1 ≫= fun k => buscar k (tipos_pago d) ≫= tp_nombre)
                             (length g.2) (suma p_monto g.2)) <$> grupos (clave_tipo d) ps) in
  let por_dia := take 30 (merge_sort fecha_grupo_desc
        ((fun g => mkPorDia g.1 (length g.2) (suma p_monto g.2)) <$>
           grupos (fun p => dia (p_fecha_pago p)) ps)) in
  mkReporte resumen por_tipo por_dia.

(** ** Access history (historialaccesos.controller.js) *)

(** [ORDER BY h.fecha DESC]. *)
Definition acceso_desc (a b : Z * Acceso) : Prop := h_fecha b.2 <= h_fecha a.2.

#[export] Instance acceso_desc_dec : RelDecision acceso_desc.
Proof. intros a b. unfold acceso_desc. apply _. Defined.

(** [if (limit) query += ' LIMIT ?'] with [parseInt(limit)]. *)
Definition limitar {A} (limit : option nat) (l : list A) : list A :=
  match limit with Some n => take n l | None => l end.

(** The [WHERE] of [listarHistorial] (lines 21-39). *)
Definition acceso_en (usuario : option Z) (accion : option string) (ini fin : option Z)
    (a : Acceso) : bool :=
  match usuario with Some u => h_usuario_id a =? u | None => true end &&
  match presente_s accion with Some s => String.eqb (h_accion a) s | None => true end &&
  en_fechas ini fin (h_fecha a).

(** [listarHistorial] (lines 6-53). *)
Definition listarHistorial (usuario : option Z) (accion : option string) (ini fin : option Z)
    (limit : option nat) (d : Db) : nat * list (Z * Acceso) :=
  let hs := limitar limit (merge_sort acceso_desc (donde (acceso_en usuario accion ini fin) (historial d))) in
  (length hs, hs).

(** [obtenerHistorialPorUsuario] (lines 67-105): 404 for an unknown
    user; [total_accesos] is the length of the answer, after the
    [LIMIT]. *)
Definition obtenerHistorialPorUsuario (uid : Z) (limit : option nat) (d : Db)
    : Resp (Usuario * nat * list (Z * Acceso)) :=
  match buscar uid (usuarios d) with
  | None => RErr 404 EUsuarioNoEncontrado
  | Some u =>
      let hs := limitar limit (merge_sort acceso_desc
                  (donde (fun a => h_usuario_id a =? uid) (historial d))) in
      ROk 200 (u, length hs, hs)
  end.

(** [obtenerRegistro] (lines 118-150). *)
Definition obtenerRegistro (id : Z) (d : Db) : Resp Acceso :=
  match buscar id (historial d) with
  | Some a => ROk 200 a
  | None => RErr 404 ERegistroNoEncontrado
  end.

Record ResumenAccesos := mkResumenAccesos {
  total_accesos : nat; usuarios_unicos : nat; total_logins : nat; total_logouts : nat }.

(** One row of [top_usuarios]: [u.nombre], [u.correo], [COUNT( * )],
    [MAX(h.fecha)]. *)
Record PorUsuario := mkPorUsuario {
  pu_usuario : option string; pu_correo : option string; pu_total : nat; pu_ultimo : option Z }.

Record Estadisticas := mkEstadisticas {
  es_resumen : ResumenAccesos; es_top_usuarios : list PorUsuario;
  es_por_accion : list (string * nat); es_por_dia : list (Z * nat) }.

Definition total_usuario_desc (a b : PorUsuario) : Prop := (pu_total b <= pu_total a)%nat.
Definition cantidad_desc {K} (a b : K * nat) : Prop := (b.2 <= a.2)%nat.
Definition dia_desc {V} (a b : Z * V) : Prop := b.1 <= a.1.

#[export] Instance total_usuario_desc_dec : RelDecision total_usuario_desc.
Proof. intros a b. unfold total_usuario_desc. apply _. Defined.
#[export] Instance cantidad_desc_dec {K} : RelDecision (@cantidad_desc K).
Proof. intros a b. unfold cantidad_desc. apply _. Defined.
#[export] Instance dia_desc_dec {V} : RelDecision (@dia_desc V).
Proof. intros a b. unfold dia_desc. apply _. Defined.

(** [obtenerEstadisticas] (lines 215-291): the four queries over the
    same dates. *)
Definition obtenerEstadisticas (ini fin : option Z) (d : Db) : Estadisticas :=
  let hs := (donde (en_fechas ini fin ∘ h_fecha) (historial d)).*2 in
  let cuenta (s : string) := length (filter (fun a => h_accion a = s) hs) in
  let resumen := mkResumenAccesos (length hs) (length (remove_dups (h_usuario_id <$> hs)))
                   (cuenta "LOGIN") (cuenta "LOGOUT") in
  let top := take 10 (merge_sort total_usuario_desc
        ((fun g => let u := buscar g.1 (usuarios d) in
                   mkPorUsuario (u_nombre <$> u) (u_correo <$> u) (length g.2)
                                (agregado Z.max (h_fecha <$> g.2)))
           <$> grupos h_usuario_id hs)) in
  let por_accion := merge_sort cantidad_desc
        ((fun g => (g.1, length g.2)) <$> grupos h_accion hs) in
  let por_dia := take 30 (merge_sort dia_desc
        ((fun g => (g.1, length g.2)) <$> grupos (dia ∘ h_fecha) hs)) in
  mkEstadisticas resumen top por_accion por_dia.

(** ** Reservations (reservas.controller.js) *)

(** [DATE(c) >= ?] and [DATE(c) <= ?] on a nullable column: NULL fails. *)
Definition desde (ini t : option Z) : bool :=
  match ini, t with None, _ => true | Some a, Some x => a <=? dia x | Some _, None => false end.
Definition hasta (fin t : option Z) : bool :=
  match fin, t with None, _ => true | Some b, Some x => dia x <=? b | Some _, None => false end.

(** The [WHERE] of [listarReservas] (lines 23-41). *)
Definition reserva_en (estado : option string) (cliente ini fin : option Z) (r : Reserva) : bool :=
  match presente_s estado with Some s => bool_decide (r_estado r = Some s) | None => true end &&
  match cliente with Some c => r_cliente_id r =? c | None => true end &&
  desde ini (r_fecha_inicio r) && hasta fin (r_fecha_fin r).

(** [ORDER BY r.fecha_reserva DESC]. *)
Definition reserva_desc (a b : Z * Reserva) : Prop := r_fecha_reserva b.2 <= r_fecha_reserva a.2.

#[export] Instance reserva_desc_dec : RelDecision reserva_desc.
Proof. intros a b. unfold reserva_desc. apply _. Defined.

(** [reservas.filter(r => r.estado === s).length]. *)
Definition cuantas_en (s : string) (rs : list (Z * Reserva)) : nat :=
  length (filter (fun kv => r_estado kv.2 = Some s) rs).

Record ListaReservas := mkListaReservas {
  lr_total : nat; lr_activas : nat; lr_finalizadas : nat; lr_canceladas : nat;
  lr_reservas : list (Z * Reserva) }.

(** [listarReservas] (lines 6-62). *)
Definition listarReservas (estado : option string) (cliente ini fin : option Z) (d : Db) : ListaReservas :=
  let rs := merge_sort reserva_desc (donde (reserva_en estado cliente ini fin) (reservas d)) in
  mkListaReservas (length rs) (cuantas_en ACTIVA rs) (cuantas_en FINALIZADA rs)
                  (cuantas_en CANCELADA rs) rs.

(** [ORDER BY r.fecha_inicio ASC]: NULL first. *)
Definition inicio_asc (a b : Z * Reserva) : Prop :=
  match r_fecha_inicio a.2, r_fecha_inicio b.2 with
  | None, _ => True | Some _, None => False | Some x, Some y => x <= y
  end.

#[export] Instance inicio_asc_dec : RelDecision inicio_asc.
Proof. intros [? [? ? ? [x|] ? ?]] [? [? ? ? [y|] ? ?]]; unfold inicio_asc; simpl; apply _. Defined.

(** [listarReservasActivas] (lines 67-95). *)
Definition listarReservasActivas (d : Db) : nat * list (Z * Reserva) :=
  let rs := merge_sort inicio_asc (donde es_activa (reservas d)) in (length rs, rs).

(** [obtenerReserva] (lines 100-139). *)
Definition obtenerReserva (id : Z) (d : Db) : Resp Reserva :=
  match buscar id (reservas d) with
  | Some r => ROk 200 r
  | None => RErr 404 EReservaNoEncontrada
  end.

(** ** Fines (multas.controller.js) *)

(** [ORDER BY m.fecha DESC]. *)
Definition multa_desc (a b : Z * Multa) : Prop := m_fecha b.2 <= m_fecha a.2.

#[export] Instance multa_desc_dec : RelDecision multa_desc.
Proof. intros a b. unfold multa_desc. apply _. Defined.

(** The [WHERE] of [listarMultas] (lines 23-36). *)
Definition multa_en (ticket ini fin : option Z) (m : Multa) : bool :=
  match ticket with Some t => m_ticket_id m =? t | None => true end &&
  en_fechas ini fin (m_fecha m).

(** [multas.reduce((sum, m) => sum + parseFloat(m.monto), 0)]: a NULL
    amount reads as [parseFloat(null)], which is [NaN] ([None]), and
    [NaN] absorbs every later sum. *)
Definition suma_js (l : list (option Z)) : option Z :=
  foldl (fun acc x => acc ≫= fun s => (fun v => s + v) <$> x) (Some 0) l.

Record ListaMultas := mkListaMultas {
  lm_total : nat; lm_total_monto : option Z; lm_multas : list (Z * Multa) }.

(** [listarMultas] (lines 6-58); [total_monto] is [totalMonto.toFixed(2)],
    the text ['NaN'] when the sum is [NaN]. *)
Definition listarMultas (ticket ini fin : option Z) (d : Db) : ListaMultas :=
  let ms := merge_sort multa_desc (donde (multa_en ticket ini fin) (multas d)) in
  mkListaMultas (length ms) (suma_js ((fun kv => m_monto kv.2) <$> ms)) ms.

(** [obtenerMulta] (lines 63-104). *)
Definition obtenerMulta (id : Z) (d : Db) : Resp Multa :=
  match buscar id (multas d) with
  | Some m => ROk 200 m
  | None => RErr 404 EMultaNoEncontrada
  end.

(** [buscarPorTicket] (lines 274-304). *)
Definition buscarPorTicket (tid : Z) (d : Db) : nat * list (Z * Multa) :=
  let ms := merge_sort multa_desc (donde (fun m => m_ticket_id m =? tid) (multas d)) in
  (length ms, ms).

(** ** Permissions (roles.controller.js) *)

(** The [permisos] object of [obtenerPermisos] (lines 273-300), module
    by module.  Its keys are upper case and the names of
    [Object.prototype] are not, so [permisos[nombreRol]] reads only
    these three entries. *)
Definition permisos : list (string * list (string * list string)) :=
  [("ADMIN", [("clientes", ["crear"; "leer"; "actualizar"; "eliminar"]);
              ("vehiculos", ["crear"; "leer"; "actualizar"; "eliminar"]);
              ("empleados", ["crear"; "leer"; "actualizar"; "eliminar"]);
              ("tickets", ["crear"; "leer"; "actualizar"; "eliminar"]);
              ("pagos", ["crear"; "leer"; "reporte"]);
              ("tarifas", ["crear"; "leer"; "actualizar"; "eliminar"]);
              ("espacios", ["crear"; "leer"; "actualizar"; "eliminar"]);
              ("multas", ["crear"; "leer"; "actualizar"; "eliminar"]);
              ("reservas", ["crear"; "leer"; "actualizar"; "eliminar"]);
              ("reportes", ["acceso_completo"])]);
   ("EMPLEADO", [("clientes", ["crear"; "leer"; "actualizar"]);
                 ("vehiculos", ["crear"; "leer"; "actualizar"]);
                 ("tickets", ["crear"; "leer"; "actualizar"]);
                 ("pagos", ["crear"; "leer"]);
                 ("espacios", ["leer"]);
                 ("multas", ["crear"; "leer"]);
                 ("reservas", ["leer"])]);
   ("USUARIO", [("tickets", ["leer"]); ("vehiculos", ["leer"]);
                ("reservas", ["crear"; "leer"])])].

(** [obtenerPermisos] (lines 257-317): [permisos[nombreRol] || {}]. *)
Definition obtenerPermisos (id : Z) (d : Db) : Resp (Rol * list (string * list string)) :=
  match buscar id (roles d) with
  | None => RErr 404 ERolNoEncontrado
  | Some r =>
      ROk 200 (r, default [] (snd <$> List.find (fun e => String.eqb e.1 (to_upper (ro_nombre r))) permisos))
  end.

(** ** Sums and groups *)


Lemma suma_cons {A} (f : A -> Z) x l : suma f (x :: l) = f x + suma f l.
Proof. done. Qed.

Lemma suma_app {A} (f : A -> Z) l1 l2 : suma f (l1 ++ l2) = suma f l1 + suma f l2.
Proof. induction l1; simpl; lia. Qed.

#[export] Instance suma_proper {A} (f : A -> Z) : Proper ((≡ₚ) ==> (=)) (suma f).
Proof. intros l1 l2 Hp. induction Hp; simpl; lia. Qed.

Lemma suma_add {A} (f g : A -> Z) l : suma (fun x => f x + g x) l = suma f l + suma g l.
Proof. induction l; simpl; lia. Qed.

Lemma suma_ext {A} (f g : A -> Z) l : (forall x, x ∈ l -> f x = g x) -> suma f l = suma g l.
Proof. induction l as [|x l IH]; intros Hfg; simpl; [done|]. rewrite Hfg, IH; set_solver. Qed.

Lemma suma_cero {A} (l : list A) : suma (fun _ => 0) l = 0.
Proof. induction l; simpl; lia. Qed.

Lemma suma_uno {A} (l : list A) : suma (fun _ => 1) l = Z.of_nat (length l).
Proof. induction l; simpl; lia. Qed.

(** A sum over distinct keys of a term that is nonzero at one key. *)
Lemma suma_unica `{EqDecision K} (ks : list K) (k0 : K) (c : Z) :
  NoDup ks -> k0 ∈ ks -> suma (fun k => if decide (k0 = k) then c else 0) ks = c.
Proof.
  induction 1 as [|k ks Hk Hnd IH]; intros Hin; [set_solver|]. rewrite suma_cons.
  case_decide as E; subst.
  - rewrite (suma_ext _ (fun _ => 0)); [|intros k' Hk'; case_decide; set_solver].
    rewrite suma_cero; lia.
  - rewrite IH; [lia | set_solver].
Qed.

(** Summing the groups over a duplicate-free list of keys that covers
    every row sums every row once. *)
Lemma suma_particion {A} `{EqDecision K} (clave : A -> K) (f : A -> Z) (ks : list K) l :
  NoDup ks -> (forall x, x ∈ l -> clave x ∈ ks) ->
  suma (fun k => suma f (filter (fun x => clave x = k) l)) ks = suma f l.
Proof.
  intros Hnd. induction l as [|x l IH]; intros Hin; rewrite ?suma_cons.
  - rewrite (suma_ext _ (fun _ => 0)); [apply suma_cero|]. intros; by rewrite filter_nil.
  - rewrite (suma_ext _ (fun k => (if decide (clave x = k) then f x else 0) +
                                   suma f (filter (fun x => clave x = k) l)));
      [|intros k _; rewrite filter_cons; case_decide; simpl; lia].
    rewrite suma_add, suma_unica, IH by (done || set_solver). done.
Qed.

Lemma suma_fmap {A B} (h : B -> Z) (m : A -> B) l : suma h (m <$> l) = suma (fun x => h (m x)) l.
Proof. induction l as [|x l IH]; [done|]. by rewrite fmap_cons, !suma_cons, IH. Qed.

(** The groups of [grupos] add up to the whole. *)
Lemma suma_grupos {A} `{EqDecision K} (clave : A -> K) (h : list A -> Z) (f : A -> Z) l :
  (forall g, h g = suma f g) ->
  suma (fun g => h g.2) (grupos clave l) = suma f l.
Proof.
  intros Hh. unfold grupos. rewrite suma_fmap. simpl.
  rewrite (suma_ext _ (fun k => suma f (filter (fun x => clave x = k) l))) by auto.
  apply suma_particion; [apply NoDup_remove_dups|].
  intros x Hx. rewrite elem_of_remove_dups. by apply list_elem_of_fmap_2.
Qed.


Lemma agregado_suma (l : list Z) :
  agregado Z.add l = match l with [] => None | _ => Some (suma id l) end.
Proof.
  destruct l as [|x r]; [done|]. cbn [agregado]. f_equal. rewrite suma_cons.
  induction r as [|y r IH]; [simpl; lia|]. rewrite suma_cons. cbn [foldr]. unfold id in *. lia.
Qed.

(** C25: the summary of [reportePagos] agrees with [listarPagos] over the
    same dates: [total_pagos] is the listing's [total]; [total_recaudado]
    is its [total_monto] when there are payments and [NULL] (not 0, as the
    listing answers) when there are none; and the rows of
    [por_tipo_pago], one per payment type, count every payment once and
    add up to the same amount. *)
Theorem reporte_cuadra ini fin d :
  let r := reportePagos ini fin d in
  let l := listarPagos None ini fin d in
  total_pagos (rp_resumen r) = lp_total l /\
  total_recaudado (rp_resumen r) = (if lp_total l =? 0 then None else Some (lp_total_monto l))%nat /\
  suma (fun g => Z.of_nat (pt_cantidad g)) (rp_por_tipo r) = Z.of_nat (lp_total l) /\
  suma pt_total (rp_por_tipo r) = lp_total_monto l.
Proof.
  cbn zeta. unfold reportePagos, listarPagos. cbn [rp_resumen rp_por_tipo lp_total lp_total_monto
    total_pagos total_recaudado].
  set (ps := donde (pago_en None ini fin) (pagos d)).
  rewrite !merge_sort_Permutation, !suma_fmap. cbn [pt_cantidad pt_total].
  rewrite (suma_grupos _ (fun g => Z.of_nat (length g)) (fun _ => 1))
    by (intros; symmetry; apply suma_uno).
  rewrite (suma_grupos _ (suma p_monto) p_monto) by done.
  rewrite suma_uno, suma_fmap, length_fmap, agregado_suma.
  split_and!; try done.
  destruct ps as [|[k p] ps']; [done|]. rewrite !fmap_cons, !suma_cons, !suma_fmap. done.
Qed.

(** ** The [NaN] total of [listarMultas] *)

Lemma foldl_suma_js_nan (l : list (option Z)) :
  foldl (fun acc x => acc ≫= fun s => (fun v => s + v) <$> x) None l = None.
Proof. induction l; simpl; auto. Qed.

Lemma foldl_suma_js (l : list (option Z)) (a : Z) :
  foldl (fun acc x => acc ≫= fun s => (fun v => s + v) <$> x) (Some a) l = None <-> None ∈ l.
Proof.
  revert a. induction l as [|[x|] l IH]; intros a; simpl.
  - split; [done | set_solver].
  - rewrite IH, elem_of_cons. naive_solver.
  - rewrite foldl_suma_js_nan. set_solver.
Qed.

(** [total_monto] is ['NaN'] exactly when a listed fine has a NULL amount. *)
Lemma listarMultas_nan ticket ini fin d :
  lm_total_monto (listarMultas ticket ini fin d) = None <->
  exists k m, (k, m) ∈ lm_multas (listarMultas ticket ini fin d) /\ m_monto m = None.
Proof.
  unfold listarMultas, suma_js; simpl. rewrite foldl_suma_js, list_elem_of_fmap.
  split; [intros ([k m] & Hm & Hin); eauto | intros (k & m & Hin & Hm); by exists (k, m)].
Qed.

(** C18: [actualizarMulta] without [monto] passes the amount check
    ([monto && monto <= 0] is false for [undefined]), answers 200 with the
    fine it wrote, stores NULL as its amount, and from then on every
    listing of [listarMultas] that shows the fine has [total_monto]
    ['NaN'] ([parseFloat(null)] in the [reduce]). *)
Lemma actualizarMulta_total_nan id m motivo ticket ini fin d :
  buscar id (multas d) = Some m ->
  multa_en ticket ini fin (mkMulta (m_ticket_id m) motivo None (m_fecha m)) = true ->
  fst (actualizarMulta id (mkBodyMulta None motivo None) d) =
    ROk 200 (mkMulta (m_ticket_id m) motivo None (m_fecha m)) /\
  lm_total_monto (listarMultas ticket ini fin
                    (snd (actualizarMulta id (mkBodyMulta None motivo None) d))) = None.
Proof.
  intros Hm Hen. split; [unfold actualizarMulta, actualizarMulta_tx; by rewrite Hm|].
  apply listarMultas_nan.
  exists id, (mkMulta (m_ticket_id m) motivo None (m_fecha m)). split; [|done].
  unfold listarMultas, actualizarMulta, actualizarMulta_tx. rewrite Hm. simpl.
  rewrite merge_sort_Permutation. unfold donde. apply list_elem_of_filter. split; [done|].
  apply elem_of_map_to_list. simpl. unfold buscar in Hm. by rewrite lookup_alter_eq, Hm.
Qed.

(** ** The permissions of the system roles *)

(** C20: of the four names [eliminarRol] protects as system roles
    ([ADMIN], [ADMINISTRADOR], [USUARIO], [EMPLEADO] after
    [toUpperCase]), [obtenerPermisos] answers an empty permission object
    for exactly one: [ADMINISTRADOR], the name of the administrator role,
    has no entry in [permisos] (its keys are [ADMIN], [EMPLEADO],
    [USUARIO]). *)
Lemma permisos_rol_sistema id r d :
  buscar id (roles d) = Some r -> es_rol_sistema (ro_nombre r) = true ->
  (obtenerPermisos id d = ROk 200 (r, []) <-> to_upper (ro_nombre r) = "ADMINISTRADOR").
Proof.
  intros Hr. unfold es_rol_sistema, obtenerPermisos. rewrite Hr.
  generalize (to_upper (ro_nombre r)) as u. intros u. cbn [existsb roles_sistema].
  destruct (String.eqb_spec u "ADMIN"); [subst; vm_compute; split; congruence|].
  destruct (String.eqb_spec u "ADMINISTRADOR"); [subst; vm_compute; tauto|].
  destruct (String.eqb_spec u "USUARIO"); [subst; vm_compute; split; congruence|].
  destruct (String.eqb_spec u "EMPLEADO"); [subst; vm_compute; split; congruence|].
  done.
Qed.

(** ** The counts of [listarReservas] *)

(** After the date-only update of [actualizarReserva] (which stores a
    NULL [estado]), [listarReservas] lists two reservations of which one
    is ACTIVA and none FINALIZADA or CANCELADA: the three counts no
    longer add up to [total]. *)
Example listarReservas_estado_nulo :
  let d' := snd (actualizarReserva 1 (mkBodyActualizarReserva (Some 100000) (Some 200000) None)
                   db_dos_reservas) in
  let l := listarReservas None None None None d' in
  (lr_total l, lr_activas l, lr_finalizadas l, lr_canceladas l) = (2, 1, 0, 0)%nat.
Proof. vm_compute. reflexivity. Qed.

(** ** Witnesses *)

(** The demo fine, updated with no amount: the listing of all fines
    totals ['NaN']. *)
Lemma actualizarMulta_total_nan_witness :
  fst (actualizarMulta 1 (mkBodyMulta None (Some "Otro") None) db_multa_demo) =
    ROk 200 (mkMulta 1 (Some "Otro") None 43500) /\
  lm_total_monto (listarMultas None None None
                    (snd (actualizarMulta 1 (mkBodyMulta None (Some "Otro") None) db_multa_demo))) = None.
Proof.
  apply (actualizarMulta_total_nan 1 (mkMulta 1 (Some "Mal estacionado") (Some 5000) 43500));
    vm_compute; reflexivity.
Defined.

(** The role [ADMINISTRADOR] of the catalogue gets no permission. *)
Lemma permisos_rol_sistema_witness :
  obtenerPermisos 1 db_roles_sistema = ROk 200 (mkRol "ADMINISTRADOR" None, []).
Proof.
  apply (proj2 (permisos_rol_sistema 1 (mkRol "ADMINISTRADOR" None) db_roles_sistema
                  ltac:(vm_compute; reflexivity) ltac:(vm_compute; reflexivity))).
  vm_compute. reflexivity.
Defined.
