(* ===== verification/Consultas.v ===== *)
(** * Consultas: the reading controllers of the catalogues

    The listing and lookup controllers of clients, vehicles, tariffs,
    zones, spaces, payment types, shifts, employees and roles, and
    [obtenerPerfil].  Most are one [SELECT]; those that compute
    something do it in SQL: the [COUNT] and [SUM] of a [LEFT JOIN] grouped
    by the row ([listarZonas], [listarTiposPago], [listarTurnos],
    [listarRoles]).  Their [ORDER BY] on a text column compares with the
    collation of the column, which the code does not fix: the Section
    [Cotejo] takes it as a decidable relation [cotejo] (the [<=] of the
    collation), and NULL sorts first, as in MySQL.  A [TIME] column
    ([hora_inicio]) is ordered as its ['HH:MM:SS'] text.  At the end,
    [listarZonas_cuadra] gives the two conditions under which the zone
    listing counts what [listarEspacios] counts, with boolean checks of
    both. *)

From stdpp Require Import sorting.
From S2P Require Import Prelude Store Tickets Espacios Listados.

(** [e.disponible = 1]: true only for a stored 1; NULL and every other
    number fail it. *)
Definition disponible_sql (e : Espacio) : bool := bool_decide (e_disponible e = Some 1).

(** [LEFT JOIN Espacios e ON z.id = e.zona_id]: the spaces of a zone. *)
Definition espacios_de (z : Z) (d : Db) : list (Z * Espacio) :=
  donde (fun e => bool_decide (e_zona_id e = Some z)) (espacios d).

(** One row of [listarZonas] and [obtenerZona]: [z.*], [COUNT(e.id) as
    total_espacios] and [SUM(CASE WHEN e.disponible = 1 THEN 1 ELSE 0 END)
    as espacios_disponibles]; a zone without spaces joins one row of
    NULLs, which counts 0 and adds 0. *)
Record FilaZona := mkFilaZona {
  fz_id : Z; fz_zona : Zona; fz_total_espacios : nat; fz_espacios_disponibles : nat }.

Definition fila_zona (d : Db) (kv : Z * Zona) : FilaZona :=
  let es := espacios_de kv.1 d in
  mkFilaZona kv.1 kv.2 (length es) (length (filter (fun e => disponible_sql e.2 = true) es)).

Section Cotejo.
Context (cotejo : relation string) `{!RelDecision cotejo}.

(** [ORDER BY c ASC] on a nullable text column. *)
Definition texto_asc (a b : option string) : Prop :=
  match a, b with
  | None, _ => True
  | Some _, None => False
  | Some x, Some y => cotejo x y
  end.

#[local] Instance texto_asc_dec : RelDecision texto_asc.
Proof. intros [x|] [y|]; unfold texto_asc; apply _. Defined.

Definition columna_asc {A} (col : A -> option string) (a b : A) : Prop := texto_asc (col a) (col b).

#[local] Instance columna_asc_dec {A} (col : A -> option string) : RelDecision (columna_asc col).
Proof. intros a b. unfold columna_asc. apply _. Defined.

(** [ORDER BY c1, c2 ASC]: by the first column, ties by the second. *)
Definition dos_columnas_asc {A} (c1 c2 : A -> option string) (a b : A) : Prop :=
  (texto_asc (c1 a) (c1 b) /\ ~ texto_asc (c1 b) (c1 a)) \/
  (texto_asc (c1 a) (c1 b) /\ texto_asc (c1 b) (c1 a) /\ texto_asc (c2 a) (c2 b)).

#[local] Instance dos_columnas_asc_dec {A} (c1 c2 : A -> option string) :
  RelDecision (dos_columnas_asc c1 c2).
Proof. intros a b. unfold dos_columnas_asc. apply _. Defined.

(** A listing: [total] and the rows. *)
Definition listado {A} (R : relation A) `{!RelDecision R} (l : list A) : nat * list A :=
  let s := merge_sort R l in (length s, s).

(** ** Clients (clientes.controller.js) *)

(** [listarClientes] (lines 6-24): [SELECT * FROM Clientes ORDER BY
    nombre ASC]. *)
Definition listarClientes (d : Db) : nat * list (Z * Cliente) :=
  listado (columna_asc (c_nombre ∘ snd)) (map_to_list (filas (clientes d))).

(** [obtenerCliente] (lines 29-56). *)
Definition obtenerCliente (id : Z) (d : Db) : Resp Cliente :=
  match buscar id (clientes d) with Some c => ROk 200 c | None => RErr 404 EClienteNoEncontrado end.

(** ** Vehicles (vehiculos.controller.js) *)

(** [LEFT JOIN Clientes c ON v.cliente_id = c.id]: [c.nombre]. *)
Definition cliente_nombre (d : Db) (v : Vehiculo) : option string :=
  v_cliente_id v ≫= fun c => buscar c (clientes d) ≫= c_nombre.

(** [listarVehiculos] (lines 6-27): [ORDER BY v.placa ASC]. *)
Definition listarVehiculos (d : Db) : nat * list (Z * Vehiculo * option string) :=
  let (n, vs) := listado (columna_asc (v_placa ∘ snd)) (map_to_list (filas (vehiculos d))) in
  (n, (fun kv => (kv, cliente_nombre d kv.2)) <$> vs).

(** [obtenerVehiculo] (lines 32-61). *)
Definition obtenerVehiculo (id : Z) (d : Db) : Resp (Vehiculo * option string) :=
  match buscar id (vehiculos d) with
  | Some v => ROk 200 (v, cliente_nombre d v)
  | None => RErr 404 EVehiculoNoEncontrado
  end.

(** [buscarPorPlaca] (lines 66-96): [WHERE v.placa = ?] with the
    parameter as given, and [vehiculos[0]]. *)
Definition buscarPorPlaca (placa : string) (d : Db) : Resp (Z * Vehiculo * option string) :=
  match donde (fun v => bool_decide (v_placa v = Some placa)) (vehiculos d) with
  | kv :: _ => ROk 200 (kv, cliente_nombre d kv.2)
  | [] => RErr 404 EVehiculoNoEncontrado
  end.

(** ** Tariffs (tarifas.controller.js) *)

(** [listarTarifas] (lines 6-24): [ORDER BY descripcion ASC]. *)
Definition listarTarifas (d : Db) : nat * list (Z * Tarifa) :=
  listado (columna_asc (ta_descripcion ∘ snd)) (map_to_list (filas (tarifas d))).

(** [obtenerTarifa] (lines 29-56). *)
Definition obtenerTarifa (id : Z) (d : Db) : Resp Tarifa :=
  match buscar id (tarifas d) with Some t => ROk 200 t | None => RErr 404 ETarifaNoEncontrada end.

(** ** Zones (zonas.controller.js) *)

(** [listarZonas] (lines 6-30): one row per zone, [ORDER BY z.nombre]. *)
Definition listarZonas (d : Db) : nat * list FilaZona :=
  listado (columna_asc (z_nombre ∘ fz_zona)) (fila_zona d <$> map_to_list (filas (zonas d))).

(** [obtenerZona] (lines 35-74): the row of the zone, then its spaces
    [ORDER BY codigo ASC]. *)
Definition obtenerZona (id : Z) (d : Db) : Resp (FilaZona * list (Z * Espacio)) :=
  match buscar id (zonas d) with
  | None => RErr 404 EZonaNoEncontrada
  | Some z => ROk 200 (fila_zona d (id, z), merge_sort (columna_asc (e_codigo ∘ snd)) (espacios_de id d))
  end.

(** ** Spaces (espacios.controller.js) *)

(** [LEFT JOIN Zonas z ON e.zona_id = z.id]: [z.nombre as zona_nombre]. *)
Definition zona_nombre (d : Db) (e : Espacio) : option string :=
  e_zona_id e ≫= fun z => buscar z (zonas d) ≫= z_nombre.

(** [listarDisponibles] (lines 33-65): [WHERE e.disponible = 1], the
    zone filter when [zona_id] is given, [ORDER BY z.nombre, e.codigo]. *)
Definition listarDisponibles (zona : option Z) (d : Db) : nat * list (Z * Espacio) :=
  listado (dos_columnas_asc (zona_nombre d ∘ snd) (e_codigo ∘ snd))
    (donde (fun e => disponible_sql e &&
                     match zona with Some z => bool_decide (e_zona_id e = Some z) | None => true end)
           (espacios d)).

(** [obtenerEspacio] (lines 70-99). *)
Definition obtenerEspacio (id : Z) (d : Db) : Resp (Espacio * option string) :=
  match buscar id (espacios d) with
  | Some e => ROk 200 (e, zona_nombre d e)
  | None => RErr 404 EEspacioNoEncontrado
  end.

(** ** Payment types (tipospago.controller.js) *)

(** One row of [listarTiposPago] and [obtenerTipoPago]: [COUNT(p.id) as
    total_pagos] and [COALESCE(SUM(p.monto), 0) as monto_total]. *)
Record FilaTipoPago := mkFilaTipoPago {
  ft_id : Z; ft_tipo : TipoPago; ft_total_pagos : nat; ft_monto_total : Z }.

Definition fila_tipo_pago (d : Db) (kv : Z * TipoPago) : FilaTipoPago :=
  let ps := (donde (fun p => p_tipo_pago_id p =? kv.1) (pagos d)).*2 in
  mkFilaTipoPago kv.1 kv.2 (length ps) (default 0 (agregado Z.add (p_monto <$> ps))).

(** [listarTiposPago] (lines 6-30): [ORDER BY tp.nombre ASC]. *)
Definition listarTiposPago (d : Db) : nat * list FilaTipoPago :=
  listado (columna_asc (tp_nombre ∘ ft_tipo)) (fila_tipo_pago d <$> map_to_list (filas (tipos_pago d))).

(** [obtenerTipoPago] (lines 35-68). *)
Definition obtenerTipoPago (id : Z) (d : Db) : Resp FilaTipoPago :=
  match buscar id (tipos_pago d) with
  | Some tp => ROk 200 (fila_tipo_pago d (id, tp))
  | None => RErr 404 ETipoPagoNoEncontrado
  end.

(** ** Shifts (turnos.controller.js) *)

(** One row of [listarTurnos]: [COUNT(e.id) as total_empleados]. *)
Record FilaTurno := mkFilaTurno { fu_id : Z; fu_turno : Turno; fu_total_empleados : nat }.

Definition empleados_de_turno (id : Z) (d : Db) : list (Z * Empleado) :=
  donde (fun e => bool_decide (em_turno_id e = Some id)) (empleados d).

Definition fila_turno (d : Db) (kv : Z * Turno) : FilaTurno :=
  mkFilaTurno kv.1 kv.2 (length (empleados_de_turno kv.1 d)).

(** [ORDER BY t.hora_inicio ASC] on a [TIME] column: ['HH:MM:SS']
    compares as its text. *)
Definition hora_asc (a b : FilaTurno) : Prop :=
  match tu_hora_inicio (fu_turno a), tu_hora_inicio (fu_turno b) with
  | None, _ => True
  | Some _, None => False
  | Some x, Some y => String.leb x y = true
  end.

#[local] Instance hora_asc_dec : RelDecision hora_asc.
Proof.
  intros a b. unfold hora_asc. destruct (tu_hora_inicio (fu_turno a)), (tu_hora_inicio (fu_turno b)); apply _.
Defined.

(** [listarTurnos] (lines 6-29). *)
Definition listarTurnos (d : Db) : nat * list FilaTurno :=
  listado hora_asc (fila_turno d <$> map_to_list (filas (turnos d))).

(** [obtenerTurno] (lines 34-80): the row, then the employees of the
    shift [INNER JOIN Usuarios u] [ORDER BY u.nombre ASC]. *)
Definition obtenerTurno (id : Z) (d : Db) : Resp (FilaTurno * list (Z * Empleado * Usuario)) :=
  match buscar id (turnos d) with
  | None => RErr 404 ETurnoNoEncontrado
  | Some t =>
      let es := omap (fun kv => (fun u => (kv, u)) <$> buscar (em_usuario_id kv.2) (usuarios d))
                     (empleados_de_turno id d) in
      ROk 200 (fila_turno d (id, t), merge_sort (columna_asc (fun x => Some (u_nombre x.2))) es)
  end.

(** ** Employees (empleados.controller.js) *)

(** [LEFT JOIN Usuarios u ON e.usuario_id = u.id]: [u.nombre as
    usuario_nombre]. *)
Definition usuario_nombre (d : Db) (e : Empleado) : option string :=
  u_nombre <$> buscar (em_usuario_id e) (usuarios d).

(** [listarEmpleados] (lines 6-36): [ORDER BY u.nombre ASC]. *)
Definition listarEmpleados (d : Db) : nat * list (Z * Empleado) :=
  listado (columna_asc (usuario_nombre d ∘ snd)) (map_to_list (filas (empleados d))).

(** [obtenerEmpleado] (lines 41-80). *)
Definition obtenerEmpleado (id : Z) (d : Db) : Resp (Empleado * option string) :=
  match buscar id (empleados d) with
  | Some e => ROk 200 (e, usuario_nombre d e)
  | None => RErr 404 EEmpleadoNoEncontrado
  end.

(** ** Roles (roles.controller.js) *)

(** One row of [listarRoles]: [COUNT(u.id) as total_usuarios]. *)
Record FilaRol := mkFilaRol { fr_id : Z; fr_rol : Rol; fr_total_usuarios : nat }.

Definition usuarios_de_rol (id : Z) (d : Db) : list (Z * Usuario) :=
  donde (fun u => u_rol_id u =? id) (usuarios d).

Definition fila_rol (d : Db) (kv : Z * Rol) : FilaRol :=
  mkFilaRol kv.1 kv.2 (length (usuarios_de_rol kv.1 d)).

(** [listarRoles] (lines 6-29): [ORDER BY r.nombre ASC]. *)
Definition listarRoles (d : Db) : nat * list FilaRol :=
  listado (columna_asc (fun r => Some (ro_nombre (fr_rol r)))) (fila_rol d <$> map_to_list (filas (roles d))).

(** [obtenerRol] (lines 34-78): the row, then the users of the role
    [ORDER BY nombre ASC]. *)
Definition obtenerRol (id : Z) (d : Db) : Resp (FilaRol * list (Z * Usuario)) :=
  match buscar id (roles d) with
  | None => RErr 404 ERolNoEncontrado
  | Some r => ROk 200 (fila_rol d (id, r),
                       merge_sort (columna_asc (fun x => Some (u_nombre x.2))) (usuarios_de_rol id d))
  end.

End Cotejo.

(** ** The profile (auth.controller.js) *)

(** [obtenerPerfil] (lines 150-176): the user of the token with
    [r.nombre as rol] of [LEFT JOIN Roles r]. *)
Definition obtenerPerfil (uid : Z) (d : Db) : Resp (Usuario * option string) :=
  match buscar uid (usuarios d) with
  | Some u => ROk 200 (u, ro_nombre <$> buscar (u_rol_id u) (roles d))
  | None => RErr 404 EUsuarioNoEncontrado
  end.

(** A binary collation: text compared by its bytes. *)
Definition cotejo_binario (x y : string) : Prop := String.leb x y = true.

#[export] Instance cotejo_binario_dec : RelDecision cotejo_binario.
Proof. intros x y. unfold cotejo_binario. apply _. Defined.

(** ** The counts of [listarZonas] against [listarEspacios] *)

(** Every space belongs to a zone that exists. *)
Definition zonas_ok (d : Db) : Prop :=
  forall k e, buscar k (espacios d) = Some e ->
    exists z, e_zona_id e = Some z /\ is_Some (buscar z (zonas d)).

(** The stored availability is one the ticket controllers write, or NULL. *)
Definition booleano (e : Espacio) : bool :=
  match e_disponible e with None | Some 0 | Some 1 => true | Some _ => false end.

Definition booleanos_ok (d : Db) : Prop :=
  forall k e, buscar k (espacios d) = Some e -> booleano e = true.

(** The two predicates checked row by row, for concrete databases. *)
Definition zonas_okb (d : Db) : bool :=
  forallb (fun kv => match e_zona_id kv.2 with
                     | Some z => bool_decide (is_Some (buscar z (zonas d)))
                     | None => false
                     end) (map_to_list (filas (espacios d))).

Definition booleanos_okb (d : Db) : bool :=
  forallb (fun kv => booleano kv.2) (map_to_list (filas (espacios d))).

Lemma forallb_map_to_list {A} (f : Z * A -> bool) (m : gmap Z A) k x :
  forallb f (map_to_list m) = true -> m !! k = Some x -> f (k, x) = true.
Proof.
  rewrite forallb_forall. intros H Hk. apply H, list_elem_of_In, elem_of_map_to_list, Hk.
Qed.

Lemma zonas_okb_ok d : zonas_okb d = true -> zonas_ok d.
Proof.
  intros H k e Hk. pose proof (forallb_map_to_list _ _ k e H Hk) as He. simpl in He.
  destruct (e_zona_id e) as [z|]; [|discriminate]. apply bool_decide_eq_true in He. eauto.
Qed.

Lemma booleanos_okb_ok d : booleanos_okb d = true -> booleanos_ok d.
Proof. intros H k e Hk. exact (forallb_map_to_list _ _ k e H Hk). Qed.

(** [e.disponible = 1] and the truthiness of [e.disponible] agree on
    the values 0, 1 and NULL, and only on those. *)
Lemma disponible_sql_disponible e : booleano e = true -> disponible_sql e = disponible e.
Proof.
  unfold booleano, disponible_sql, disponible. destruct (e_disponible e) as [[|[]|]|]; done.
Qed.

Lemma filter_ext_en {A} (P Q : A -> Prop) `{!forall x, Decision (P x), !forall x, Decision (Q x)}
    (l : list A) :
  (forall x, x ∈ l -> P x <-> Q x) -> filter P l = filter Q l.
Proof.
  induction l as [|x l IH]; intros Hpq; [done|]. rewrite !filter_cons.
  rewrite IH by set_solver. specialize (Hpq x ltac:(set_solver)).
  destruct (decide (P x)), (decide (Q x)); naive_solver.
Qed.

(** Counting per key over distinct keys that cover every row counts
    every row once. *)
Lemma suma_conteos {A K} `{EqDecision K} (clave : A -> K) (ks : list K) (l : list A) :
  NoDup ks -> (forall x, x ∈ l -> clave x ∈ ks) ->
  suma (fun k => Z.of_nat (length (filter (fun x => clave x = k) l))) ks = Z.of_nat (length l).
Proof.
  intros Hnd Hin. rewrite <-(suma_uno l), <-(suma_particion clave _ ks l) by done.
  apply suma_ext. intros k _. by rewrite suma_uno.
Qed.

Lemma filter_todo {A} (P : A -> Prop) `{!forall x, Decision (P x)} (l : list A) :
  (forall x, P x) -> filter P l = l.
Proof. intros HP. induction l as [|x l IH]; [done|]. by rewrite filter_cons_True, IH. Qed.

Lemma filter_snd {A B} (P : B -> Prop) `{!forall x, Decision (P x)} (l : list (A * B)) :
  filter P l.*2 = (filter (fun x => P x.2) l).*2.
Proof. induction l as [|[a b] l IH]; [done|]. rewrite fmap_cons, !filter_cons. case_decide; simpl; by rewrite IH. Qed.

(** Over the zones, the spaces of each zone that pass a test add up to
    all the spaces that pass it, when every space has its zone. *)
Lemma zonas_cuentan d (Q : Espacio -> Prop) `{!forall e, Decision (Q e)} :
  zonas_ok d ->
  suma (fun kv => Z.of_nat (length (filter (fun e => Q e.2) (espacios_de kv.1 d))))
       (map_to_list (filas (zonas d))) =
  Z.of_nat (length (filter (fun e => Q e.2) (map_to_list (filas (espacios d))))).
Proof.
  intros Hz. set (E := filter (fun e => Q e.2) (map_to_list (filas (espacios d)))).
  rewrite (suma_ext _ (fun kv => Z.of_nat (length (filter (fun x => e_zona_id x.2 = Some kv.1) E)))).
  2:{ intros kv _. do 2 f_equal. unfold espacios_de, donde, E.
      rewrite !list_filter_filter. apply list_filter_iff. intros x. rewrite bool_decide_eq_true. tauto. }
  rewrite <-(suma_fmap (fun k => Z.of_nat (length (filter (fun x => e_zona_id x.2 = k) E)))
                       (fun kv => Some kv.1)).
  apply suma_conteos.
  - change ((fun kv : Z * Zona => Some kv.1) <$> ?l) with ((Some ∘ fst) <$> l).
    rewrite list_fmap_compose. apply NoDup_fmap_2; [apply _|]. apply NoDup_fst_map_to_list.
  - intros [k e] Hx. apply list_elem_of_filter, proj2, elem_of_map_to_list in Hx.
    destruct (Hz k e Hx) as (z & Hze & [zz Hzz]). cbn [snd]. rewrite Hze. apply list_elem_of_fmap.
    exists (z, zz). split; [done|]. by apply elem_of_map_to_list.
Qed.

(** When every space has its zone, the rows of [listarZonas] count every
    space of [listarEspacios] once; when moreover every stored
    availability is 0, 1 or NULL, they count every available one once. *)
Lemma listarZonas_cuadra (cotejo : relation string) `{!RelDecision cotejo} d :
  zonas_ok d ->
  suma (fun r => Z.of_nat (fz_total_espacios r)) (listarZonas cotejo d).2 =
    Z.of_nat (ce_total (listarEspacios d)) /\
  (booleanos_ok d ->
   suma (fun r => Z.of_nat (fz_espacios_disponibles r)) (listarZonas cotejo d).2 =
     Z.of_nat (ce_disponibles (listarEspacios d))).
Proof.
  intros Hz. unfold listarZonas, listado, listarEspacios. cbn [snd ce_total ce_disponibles].
  rewrite !merge_sort_Permutation, !suma_fmap. cbn [fila_zona fz_total_espacios fz_espacios_disponibles].
  split.
  - rewrite length_fmap. etransitivity; [|etransitivity; [exact (zonas_cuentan d (fun _ => True) Hz)|]].
    + apply suma_ext. intros kv _. by rewrite filter_todo.
    + by rewrite filter_todo.
  - intros Hb. rewrite filter_snd, length_fmap.
    rewrite (filter_ext_en _ (fun e => disponible_sql e.2 = true)).
    2:{ intros [k e] Hx. apply elem_of_map_to_list in Hx. simpl.
        by rewrite disponible_sql_disponible by exact (Hb k e Hx). }
    exact (zonas_cuentan d (fun e => disponible_sql e = true) Hz).
Qed.
