(* ===== verification/Concurrencia.v ===== *)
(** * Concurrencia: two entries interleaved on one store

    [registrarEntrada] (tickets.controller.js, lines 6-84) runs in a
    transaction on its own connection: first the plain [SELECT]s that
    validate the request (lines 25-70), then the [INSERT] of the ticket
    and the [UPDATE] of the space (lines 73-82), then [commit()].  Under
    MySQL's default isolation, REPEATABLE READ, a plain [SELECT] is a
    consistent non-locking read of a snapshot: it neither waits for nor
    sees the uncommitted writes of another transaction, and the later
    [UPDATE] does not check the row again.  The model splits the
    controller into its read phase [entrada_lectura] on the snapshot and
    its write phase [entrada_escritura] on the database current at
    commit; [registrarEntrada_fases] shows the sequential controller is
    exactly the two phases run back to back.  [paso_conc] lets several
    requests take their phases in any order;
    [entradas_concurrentes_mismo_espacio] shows an interleaving in which
    two vehicles both enter one free space. *)

From S2P Require Import Prelude Store Tickets.

(** ** The two phases of [registrarEntrada] *)

(** Lines 16-70: the checks, on the snapshot [d]. *)
Definition entrada_lectura (b : BodyEntrada) (d : Db) : res Falla (Z * Z * Z) :=
  vid <- de_opcion (presente (be_vehiculo_id b)) (400, ECamposRequeridos) ;;
  eid <- de_opcion (presente (be_espacio_id b)) (400, ECamposRequeridos) ;;
  tid <- de_opcion (presente (be_tarifa_id b)) (400, ECamposRequeridos) ;;
  _ <- de_opcion (buscar vid (vehiculos d)) (404, EVehiculoNoEncontrado) ;;
  e <- de_opcion (buscar eid (espacios d)) (404, EEspacioNoEncontrado) ;;
  exigir (disponible e) (400, EEspacioNoDisponible) ;;;
  exigir (negb (existe (activo_de vid) (filas (tickets d)))) (400, ETicketActivoExistente) ;;;
  ok (vid, eid, tid).

(** Lines 73-84: the INSERT and the UPDATE, on the database [d] current
    when they run; the new ticket and the database after commit. *)
Definition entrada_escritura (u : Sesion) (vid eid tid : Z) (d : Db) : (Z * Ticket) * Db :=
  let t := ticket_nuevo u vid eid tid (reloj d) in
  let '(nid, tks) := insertar t (tickets d) in
  let d1 := con_tickets tks d in
  ((nid, t), con_espacios (actualizar eid (con_disponible false) (espacios d1)) d1).

(** The sequential controller is its read phase followed by its write
    phase on the same database. *)
Lemma registrarEntrada_fases u b d :
  registrarEntrada_tx u b d =
    (r <- entrada_lectura b d ;;
     let '(vid, eid, tid) := r in
     let '(x, d') := entrada_escritura u vid eid tid d in
     ok (201, x, d')).
Proof.
  unfold registrarEntrada_tx, entrada_lectura, entrada_escritura.
  destruct (presente (be_vehiculo_id b)), (presente (be_espacio_id b)), (presente (be_tarifa_id b));
    try reflexivity; simpl.
  destruct (buscar _ (vehiculos d)); [|reflexivity]. simpl.
  destruct (buscar _ (espacios d)) as [e|]; [|reflexivity]. simpl.
  destruct (disponible e); [|reflexivity]. simpl.
  destruct (existe _ _); reflexivity.
Qed.

(** ** Requests in flight *)

Record Peticion := mkPeticion { pe_sesion : Sesion; pe_cuerpo : BodyEntrada }.

(** A request not yet run, one whose checks passed on its snapshot, or
    one answered. *)
Inductive Fase :=
| Pendiente (p : Peticion)
| Leida (u : Sesion) (vid eid tid : Z)
| Respondida (r : Resp (Z * Ticket)).

Record Conc := mkConc { c_db : Db; c_fases : list Fase }.

(** The outcome of the read phase: an early answer (after [rollback()])
    or the values the write phase uses. *)
Definition tras_lectura (p : Peticion) (d : Db) : Fase :=
  match entrada_lectura (pe_cuerpo p) d with
  | inl (s, e) => Respondida (RErr s e)
  | inr (vid, eid, tid) => Leida (pe_sesion p) vid eid tid
  end.

(** One request takes its next phase; the others wait. *)
Inductive paso_conc : Conc -> Conc -> Prop :=
| pc_leer c i p :
    c_fases c !! i = Some (Pendiente p) ->
    paso_conc c (mkConc (c_db c) (<[i := tras_lectura p (c_db c)]> (c_fases c)))
| pc_confirmar c i u vid eid tid :
    c_fases c !! i = Some (Leida u vid eid tid) ->
    paso_conc c (mkConc (entrada_escritura u vid eid tid (c_db c)).2
                        (<[i := Respondida (ROk 201 (entrada_escritura u vid eid tid (c_db c)).1)]>
                           (c_fases c))).

(** ** Two entries into one free space *)

Lemma entrada_lectura_ok d v e tid esp :
  v <> 0 -> e <> 0 -> tid <> 0 -> is_Some (buscar v (vehiculos d)) ->
  buscar e (espacios d) = Some esp -> disponible esp = true ->
  existe (activo_de v) (filas (tickets d)) = false ->
  entrada_lectura (mkBodyEntrada (Some v) (Some e) (Some tid)) d = inr (v, e, tid).
Proof.
  intros Hv He Ht [x Hx] Hesp Hd Ha. unfold entrada_lectura. cbn [be_vehiculo_id be_espacio_id be_tarifa_id].
  rewrite (presente_Some (Some v) v), (presente_Some (Some e) e), (presente_Some (Some tid) tid)
    by done. cbn [res_bind de_opcion]. rewrite Hx, Hesp. cbn [res_bind de_opcion].
  rewrite Hd, Ha. reflexivity.
Qed.

(** C33: the specification (section 5) expects the store to serialize
    two simultaneous entries into one space, the second seeing the
    first's commit or being rejected.  Run one after the other, the
    second entry is refused with 400 'Espacio no disponible'.  But with
    both read phases on the same snapshot before either commits, both
    entries answer 201 and the store holds two ACTIVO tickets, under two
    keys, on the one space. *)
Theorem entradas_concurrentes_mismo_espacio u1 u2 d v1 v2 e tid esp :
  v1 <> 0 -> v2 <> 0 -> e <> 0 -> tid <> 0 ->
  is_Some (buscar v1 (vehiculos d)) -> is_Some (buscar v2 (vehiculos d)) ->
  buscar e (espacios d) = Some esp -> disponible esp = true ->
  existe (activo_de v1) (filas (tickets d)) = false ->
  existe (activo_de v2) (filas (tickets d)) = false ->
  let b1 := mkBodyEntrada (Some v1) (Some e) (Some tid) in
  let b2 := mkBodyEntrada (Some v2) (Some e) (Some tid) in
  fst (registrarEntrada u2 b2 (snd (registrarEntrada u1 b1 d))) = RErr 400 EEspacioNoDisponible /\
  exists c, rtc paso_conc (mkConc d [Pendiente (mkPeticion u1 b1); Pendiente (mkPeticion u2 b2)]) c /\
    exists k1 k2 t1 t2,
      c_fases c = [Respondida (ROk 201 (k1, t1)); Respondida (ROk 201 (k2, t2))] /\
      k1 <> k2 /\ buscar k1 (tickets (c_db c)) = Some t1 /\ buscar k2 (tickets (c_db c)) = Some t2 /\
      t_estado t1 = ACTIVO /\ t_estado t2 = ACTIVO /\ t_espacio_id t1 = e /\ t_espacio_id t2 = e.
Proof.
  intros H1 H2 He Ht V1 V2 Hesp Hd A1 A2 b1 b2. subst b1 b2.
  pose proof (entrada_lectura_ok d v1 e tid esp H1 He Ht V1 Hesp Hd A1) as L1.
  pose proof (entrada_lectura_ok d v2 e tid esp H2 He Ht V2 Hesp Hd A2) as L2.
  split.
  - unfold registrarEntrada. rewrite !registrarEntrada_fases. rewrite L1.
    cbn [res_bind ejecutar snd fst entrada_escritura insertar ok]. unfold entrada_lectura.
    cbn [be_vehiculo_id be_espacio_id be_tarifa_id].
    rewrite (presente_Some (Some v2) v2), (presente_Some (Some e) e), (presente_Some (Some tid) tid)
      by done. cbn [res_bind de_opcion]. destruct V2 as [x Hx]. cbn [vehiculos con_espacios con_tickets espacios].
    rewrite Hx. cbn [res_bind de_opcion]. rewrite buscar_actualizar, decide_True by done.
    cbn [espacios con_tickets]. rewrite Hesp. reflexivity.
  - assert (T1 : tras_lectura (mkPeticion u1 (mkBodyEntrada (Some v1) (Some e) (Some tid))) d =
                 Leida u1 v1 e tid) by (unfold tras_lectura; cbn [pe_cuerpo pe_sesion]; by rewrite L1).
    assert (T2 : tras_lectura (mkPeticion u2 (mkBodyEntrada (Some v2) (Some e) (Some tid))) d =
                 Leida u2 v2 e tid) by (unfold tras_lectura; cbn [pe_cuerpo pe_sesion]; by rewrite L2).
    eexists. split.
    + eapply rtc_l; [apply (pc_leer _ 0); reflexivity|]. cbn [c_db c_fases]. rewrite T1.
      eapply rtc_l; [apply (pc_leer _ 1); reflexivity|]. cbn [c_db c_fases]. rewrite T2.
      eapply rtc_l; [apply (pc_confirmar _ 0); reflexivity|].
      eapply rtc_l; [apply (pc_confirmar _ 1); reflexivity|]. apply rtc_refl.
    + do 4 eexists. split; [reflexivity|]. unfold buscar. cbn.
      repeat split; [lia| |].
      * rewrite lookup_insert_ne by lia. apply lookup_insert_eq.
      * apply lookup_insert_eq.
Qed.

(** Vehicles 1 and 2, space 1 free, tariff 1; Ana (user 7) and Luis
    (user 8) register one vehicle each into space 1 at the same time. *)
Definition db_carrera : Db :=
  con_vehiculos (mkTabla {[1 := mkVehiculo (Some 1) (Some "P123ABC") None None None;
                           2 := mkVehiculo (Some 1) (Some "P456DEF") None None None]} 3) db_demo.

Definition sesion_luis : Sesion := mkSesion 8 "Luis" "luis@parqueo.gt" (Some "EMPLEADO").

Lemma entradas_concurrentes_mismo_espacio_witness :
  let b1 := mkBodyEntrada (Some 1) (Some 1) (Some 1) in
  let b2 := mkBodyEntrada (Some 2) (Some 1) (Some 1) in
  fst (registrarEntrada sesion_luis b2 (snd (registrarEntrada sesion_demo b1 db_carrera))) =
    RErr 400 EEspacioNoDisponible /\
  exists c, rtc paso_conc (mkConc db_carrera [Pendiente (mkPeticion sesion_demo b1);
                                              Pendiente (mkPeticion sesion_luis b2)]) c /\
    exists k1 k2 t1 t2,
      c_fases c = [Respondida (ROk 201 (k1, t1)); Respondida (ROk 201 (k2, t2))] /\
      k1 <> k2 /\ buscar k1 (tickets (c_db c)) = Some t1 /\ buscar k2 (tickets (c_db c)) = Some t2 /\
      t_estado t1 = ACTIVO /\ t_estado t2 = ACTIVO /\ t_espacio_id t1 = 1 /\ t_espacio_id t2 = 1.
Proof.
  apply (entradas_concurrentes_mismo_espacio sesion_demo sesion_luis db_carrera 1 2 1 1
           (mkEspacio (Some 1) (Some "A-01") (Some 1)));
    try lia; try (vm_compute; reflexivity); eexists; vm_compute; reflexivity.
Defined.
