(* ===== verification/Sistema.v ===== *)
(** * Sistema: the service as a transition system

    Each constructor of [paso] is one call of a modelled controller that
    writes the store (tickets, payments, spaces, catalogues, reservations,
    authentication, shifts, roles, employees, fines, access history), or
    the clock moving forward; the database after the call is the second
    component of the controller's result, so a call that answers an error
    is a step that changes nothing.  [alcanzable] is the
    reflexive-transitive closure of [paso] from the empty database.  The
    invariant [inv] collects what the specification promises of every
    reachable database (section 8); each step preserves it: the
    controllers that leave the tables of the ticket lifecycle alone do so
    by their frame lemmas [marco_*], the others by their own lemmas.  The
    theorems at the end read its consequences.

    The two controllers that write [Espacios.disponible] by hand,
    [cambiarDisponibilidad] and [actualizarEspacio], are steps of [paso]
    too; the invariant keeps only what they preserve, and the theorems at
    the end show, in reachable databases, what they break: a freed
    occupied space taking a second ACTIVO ticket, availabilities other
    than 0 and 1 read two ways, spaces moved out of every zone. *)

From stdpp Require Import sorting.
From S2P Require Import Prelude Store Billing Tickets Pagos Espacios Catalogos Reservas Auth Turnos Roles Empleados Multas Historial Listados Consultas.

(** ** The invariant of the ticket lifecycle *)

Definition activo (t : Ticket) : Prop := t_estado t = ACTIVO.

Record inv (d : Db) : Prop := {
  inv_tickets_ok : tabla_ok (tickets d);
  inv_pagos_ok : tabla_ok (pagos d);
  inv_espacios_ok : tabla_ok (espacios d);
  (* entry before now; exit time set exactly when CERRADO, between entry and now *)
  inv_tiempos : forall k t, buscar k (tickets d) = Some t ->
    t_hora_entrada t <= reloj d /\ (activo t <-> t_hora_salida t = None) /\
    forall s, t_hora_salida t = Some s -> t_hora_entrada t <= s <= reloj d;
  (* every ticket references an existing vehicle and space *)
  inv_refs : forall k t, buscar k (tickets d) = Some t ->
    is_Some (buscar (t_vehiculo_id t) (vehiculos d)) /\
    is_Some (buscar (t_espacio_id t) (espacios d));
  inv_vehiculo_unico : forall k1 k2 t1 t2,
    buscar k1 (tickets d) = Some t1 -> buscar k2 (tickets d) = Some t2 ->
    activo t1 -> activo t2 -> t_vehiculo_id t1 = t_vehiculo_id t2 -> k1 = k2;
  (* payments exist only for closed tickets, at most one per ticket *)
  inv_pago_cerrado : forall k p, buscar k (pagos d) = Some p ->
    exists t, buscar (p_ticket_id p) (tickets d) = Some t /\ t_estado t = CERRADO;
  inv_pago_unico : forall k1 k2 p1 p2,
    buscar k1 (pagos d) = Some p1 -> buscar k2 (pagos d) = Some p2 ->
    p_ticket_id p1 = p_ticket_id p2 -> k1 = k2
}.

Lemma inv_db_vacia : inv db_vacia.
Proof.
  split; try apply tabla_vacia_ok; unfold buscar; simpl;
    intros *; rewrite ?lookup_empty; intros; discriminate.
Qed.

(** ** Shared facts *)

Lemma buscar_fresca {R} (t : Tabla R) k x :
  tabla_ok t -> buscar k t = Some x -> k <> sig_id t.
Proof. intros Hok Hk ->. unfold buscar in Hk. by rewrite tabla_ok_fresca in Hk. Qed.

Lemma activo_de_false vid (T : gmap Z Ticket) k t :
  existe (activo_de vid) T = false -> T !! k = Some t -> activo t ->
  t_vehiculo_id t <> vid.
Proof.
  intros Hno Hk Ha Hv. rewrite existe_false in Hno. specialize (Hno k t Hk).
  unfold activo_de, estado_eqb in Hno. rewrite Ha, Hv, Z.eqb_refl in Hno. discriminate.
Qed.

Lemma disponible_con_disponible b e : disponible (con_disponible b e) = b.
Proof. by destruct b. Qed.

Lemma cerrar_no_activo ahora t : ~ activo (cerrar ahora t).
Proof. unfold activo. simpl. discriminate. Qed.

#[export] Hint Resolve buscar_fresca cerrar_no_activo : parqueo.

(** ** Each step preserves the invariant *)

(** Entry: the new ticket is the only active one of its vehicle (the
    duplicate guard) and of its space (the space was available, and every
    active ticket's space is occupied). *)
Lemma inv_entrada_exito u b d s x d' :
  inv d -> registrarEntrada_tx u b d = inr (s, x, d') -> inv d'.
Proof.
  intros [Htk Hpg Hes Hti Hrf Hvu Hpc Hpu] H.
  apply registrarEntrada_tx_inr in H
    as (vid & eid & tid & e & _ & _ & _ & Hveh & He & Hdisp & Hact & _ & _ & ->).
  assert (Hn : forall k t, buscar k (tickets d) = Some t -> k <> sig_id (tickets d))
    by eauto with parqueo.
  split; unfold buscar in *; simpl.
  - by apply insertar_ok.
  - done.
  - by apply actualizar_ok.
  - intros k t Hk. rewrite lookup_insert in Hk.
    case_decide; simplify_eq.
    + unfold activo; simpl. split; [lia|]. split; [done|]. discriminate.
    + by apply (Hti k).
  - intros k t Hk. rewrite lookup_insert in Hk. rewrite lookup_alter.
    case_decide; simplify_eq; simpl.
    + split; [done|]. rewrite decide_True by done. by rewrite He.
    + destruct (Hrf k t Hk) as [Hv Hs]. split; [done|].
      case_decide as Heq; [rewrite <- Heq in *; by destruct Hs as [? ->]|done].
  - intros k1 k2 t1 t2 Hk1 Hk2 Ha1 Ha2 Hv. rewrite lookup_insert in Hk1, Hk2.
    repeat case_decide; simplify_eq; [done| | |eauto]; exfalso; simpl in Hv;
      match goal with
      | Hk : filas (tickets d) !! ?k = Some ?t, Ha : activo ?t |- _ =>
          apply (activo_de_false vid _ k t Hact Hk Ha); congruence
      end.
  - intros k p Hk. destruct (Hpc k p Hk) as (t & Ht & Hc). exists t.
    rewrite lookup_insert, decide_False; [done|]. intros Heq. by apply (Hn _ _ Ht).
  - exact Hpu.
Qed.

(** Exit: the closed ticket was the only active one on its space, so
    freeing the space leaves every active ticket's space occupied. *)
Lemma inv_salida_exito id d s x d' :
  inv d -> registrarSalida_tx id d = inr (s, x, d') -> inv d'.
Proof.
  intros [Htk Hpg Hes Hti Hrf Hvu Hpc Hpu] H.
  apply registrarSalida_tx_inr in H as (t & Ht & Ha & _ & -> & _).
  unfold buscar in Ht.
  assert (Hl : forall k, alter (cerrar (reloj d)) id (filas (tickets d)) !! k =
             if decide (id = k) then Some (cerrar (reloj d) t) else filas (tickets d) !! k).
  { intros k. rewrite lookup_alter. case_decide; subst; [by rewrite Ht|done]. }
  split; unfold buscar in *; simpl.
  - by apply actualizar_ok.
  - done.
  - by apply actualizar_ok.
  - intros k t' Hk. rewrite lookup_alter in Hk.
    case_decide; simplify_eq.
    + rewrite Ht in Hk. simpl in Hk. simplify_eq. destruct (Hti _ _ Ht) as (Hin & _ & _).
      unfold activo; simpl. split; [done|]. split; [split; intros; discriminate|].
      intros s' [= <-]. lia.
    + by apply (Hti k).
  - intros k t' Hk. rewrite lookup_alter in Hk. rewrite lookup_alter.
    case_decide; simplify_eq.
    + rewrite Ht in Hk. simpl in Hk. simplify_eq. simpl. destruct (Hrf _ _ Ht) as [Hv [e He]].
      split; [done|]. rewrite decide_True, He by done. by eexists.
    + destruct (Hrf k t' Hk) as [Hv [e He]]. split; [done|].
      case_decide as Heq; [rewrite <- Heq in He; rewrite He|]; by eexists.
  - intros k1 k2 t1 t2 Hk1 Hk2 Ha1 Ha2 Hv. rewrite !Hl in Hk1, Hk2.
    repeat case_decide; simplify_eq; try done;
      match goal with H : activo (cerrar _ _) |- _ => by apply cerrar_no_activo in H | _ => eauto end.
  - intros k p Hk. destruct (Hpc k p Hk) as (t' & Ht' & Hc). rewrite Hl.
    case_decide as Heq; [|eauto]. rewrite <- Heq, Ht in Ht'. congruence.
  - exact Hpu.
Qed.

(** Payment: the new row references a closed ticket that had none. *)
Lemma inv_pago_exito b d s x d' :
  inv d -> registrarPago_tx b d = inr (s, x, d') -> inv d'.
Proof.
  intros [Htk Hpg Hes Hti Hrf Hvu Hpc Hpu] H.
  apply registrarPago_tx_inr in H
    as (tid & tpid & monto & t & _ & _ & _ & Ht & Hc & Hno & _ & _ & _ & ->).
  assert (Hn : forall k p, buscar k (pagos d) = Some p -> k <> sig_id (pagos d))
    by eauto with parqueo.
  split; unfold buscar in *; simpl; try done.
  - by apply insertar_ok.
  - intros k p Hk. rewrite lookup_insert in Hk. case_decide; simplify_eq; eauto.
  - intros k1 k2 p1 p2 Hk1 Hk2 Hp. rewrite lookup_insert in Hk1, Hk2.
    repeat case_decide; simplify_eq; [done| | |eauto]; exfalso; simpl in Hp;
      match goal with
      | Hk : filas (pagos d) !! ?k = Some ?p |- _ =>
          rewrite existe_false in Hno; specialize (Hno k p Hk);
          unfold pago_de in Hno; rewrite ?Hp, <- ?Hp, Z.eqb_refl in Hno; discriminate
      end.
Qed.

(** A step that leaves the tables of the lifecycle alone, and does not
    move the clock, preserves the invariant. *)
Lemma inv_marco d d' :
  tickets d' = tickets d -> pagos d' = pagos d -> espacios d' = espacios d ->
  vehiculos d' = vehiculos d -> reloj d' = reloj d -> inv d -> inv d'.
Proof.
  intros Ht Hp He Hv Hr [Htk Hpg Hes Hti Hrf Hvu Hpc Hpu].
  split; rewrite ?Ht, ?Hp, ?He, ?Hv, ?Hr; done.
Qed.

(** A controller call whose successful runs leave the tables of the
    lifecycle and the clock as they were. *)
Definition marco {A} (c : Ctrl A) (d : Db) : Prop :=
  forall s x d', c = inr (s, x, d') ->
    tickets d' = tickets d /\ pagos d' = pagos d /\ espacios d' = espacios d /\
    vehiculos d' = vehiculos d /\ reloj d' = reloj d.

Lemma inv_marco_tx {A} (c : Ctrl A) d : marco c d -> inv d -> inv (snd (ejecutar c d)).
Proof.
  intros Hm Hi. apply ejecutar_preserva; [done|]. intros s x d' Hc.
  destruct (Hm s x d' Hc) as (? & ? & ? & ? & ?). by apply (inv_marco d).
Qed.

Lemma tickets_marco_tx {A} (c : Ctrl A) d : marco c d -> tickets (snd (ejecutar c d)) = tickets d.
Proof.
  intros Hm. destruct (ejecutar_snd c d) as [-> | (s & x & Hc)]; [done|].
  by destruct (Hm s x _ Hc).
Qed.

Lemma inv_reloj d n : 0 <= n -> inv d -> inv (con_reloj (reloj d + n) d).
Proof.
  intros Hn [Htk Hpg Hes Hti Hrf Hvu Hpc Hpu].
  split; simpl; try done.
  intros k t Hk. destruct (Hti k t Hk) as (H1 & H2 & H3).
  split; [lia|]. split; [done|]. intros s Hs. specialize (H3 s Hs). lia.
Qed.

(** Replacing the spaces table keeps the invariant when every ticket's
    space is still there. *)
Lemma inv_espacios d E :
  tabla_ok E ->
  (forall k t, buscar k (tickets d) = Some t -> is_Some (filas E !! t_espacio_id t)) ->
  inv d -> inv (con_espacios E d).
Proof.
  intros Hok Hr [Htk Hpg Hes Hti Hrf Hvu Hpc Hpu].
  split; unfold buscar in *; simpl; try done.
  intros k t Hk. split; [apply (Hrf k t Hk)|]. eauto.
Qed.

Lemma inv_vehiculos d V :
  (forall k t, buscar k (tickets d) = Some t -> is_Some (filas V !! t_vehiculo_id t)) ->
  inv d -> inv (con_vehiculos V d).
Proof.
  intros Hv [Htk Hpg Hes Hti Hrf Hvu Hpc Hpu].
  split; unfold buscar in *; simpl; try done.
  intros k t Hk. split; [eauto|apply (Hrf k t Hk)].
Qed.

Lemma inv_espacio_nuevo d e : inv d -> inv (con_espacios (insertar e (espacios d)).2 d).
Proof.
  intros Hi. pose proof Hi as [_ _ Hes _ Hrf _ _ _].
  apply inv_espacios; [by apply insertar_ok| |done]; simpl.
  intros k t Hk. rewrite lookup_insert. case_decide; [done|]. apply (Hrf k t Hk).
Qed.

(** [actualizarEspacio] and [cambiarDisponibilidad] rewrite a row in
    place: every space is still there. *)
Lemma inv_espacio_cambio d id f : inv d -> inv (con_espacios (actualizar id f (espacios d)) d).
Proof.
  intros Hi. pose proof Hi as [_ _ Hes _ Hrf _ _ _].
  apply inv_espacios; [by apply actualizar_ok| |done]; simpl.
  intros k t Hk. rewrite lookup_alter_is_Some. apply (Hrf k t Hk).
Qed.

Lemma inv_espacio_borrado d id :
  existe (en_espacio id) (filas (tickets d)) = false -> inv d ->
  inv (con_espacios (borrar id (espacios d)) d).
Proof.
  intros Hno Hi. pose proof Hi as [_ _ Hes _ Hrf _ _ _].
  rewrite existe_false in Hno.
  assert (Hne : forall k t, buscar k (tickets d) = Some t -> id <> t_espacio_id t).
  { intros k t Hk ->. specialize (Hno k t Hk). unfold en_espacio in Hno.
    by rewrite Z.eqb_refl in Hno. }
  apply inv_espacios; [by apply borrar_ok| |done]; simpl.
  intros k t Hk. rewrite lookup_delete_ne by eauto. apply (Hrf k t Hk).
Qed.

Lemma inv_vehiculo_cambio d V :
  (forall k, is_Some (filas (vehiculos d) !! k) -> is_Some (filas V !! k)) ->
  inv d -> inv (con_vehiculos V d).
Proof.
  intros HV Hi. pose proof Hi as [_ _ _ _ Hrf _ _ _].
  apply inv_vehiculos; [|done]. intros k t Hk. apply HV, (Hrf k t Hk).
Qed.

Lemma inv_vehiculo_borrado d id :
  existe (fun t => t_vehiculo_id t =? id) (filas (tickets d)) = false -> inv d ->
  inv (con_vehiculos (borrar id (vehiculos d)) d).
Proof.
  intros Hno Hi. pose proof Hi as [_ _ _ _ Hrf _ _ _].
  rewrite existe_false in Hno. apply inv_vehiculos; [|done]. intros k t Hk. simpl.
  rewrite lookup_delete_ne; [apply (Hrf k t Hk)|].
  intros ->. specialize (Hno k t Hk). by rewrite Z.eqb_refl in Hno.
Qed.

(** ** The catalogue steps *)

(** Open a successful controller body down to its final database. *)
Ltac abrir_tx H :=
  unfold crearEspacio_tx, eliminarEspacio_tx, cambiarDisponibilidad_tx, actualizarEspacio_tx,
    crearCliente_tx, actualizarCliente_tx,
    eliminarCliente_tx, crearVehiculo_tx, actualizarVehiculo_tx, eliminarVehiculo_tx,
    crearZona_tx, actualizarZona_tx, eliminarZona_tx, crearTarifa_tx, actualizarTarifa_tx,
    eliminarTarifa_tx, crearTipoPago_tx, actualizarTipoPago_tx, eliminarTipoPago_tx,
    crearReserva_tx, actualizarReserva_tx, cancelarReserva_tx, finalizarReserva_tx,
    registrar_tx, login_tx, logout_tx, crearTurno_tx, actualizarTurno_tx, eliminarTurno_tx,
    crearRol_tx, actualizarRol_tx, eliminarRol_tx, crearEmpleado_tx, actualizarEmpleado_tx,
    cambiarEstado_tx, eliminarEmpleado_tx, crearMulta_tx, actualizarMulta_tx, eliminarMulta_tx,
    registrarAcceso_tx, limpiarHistorial_tx in H;
  res_inv; res_fin.

Ltac tx_exito H := intros Hi H; abrir_tx H.

(** The controllers that write only tables the lifecycle does not read. *)
Section Marcos.
Context {CR : Cripto} (d : Db).

Ltac marco_tx := intros ? ? ? H0; abrir_tx H0; by repeat split.

Lemma marco_crearCliente b : marco (crearCliente_tx b d) d. Proof. marco_tx. Qed.
Lemma marco_actualizarCliente id b : marco (actualizarCliente_tx id b d) d. Proof. marco_tx. Qed.
Lemma marco_eliminarCliente id : marco (eliminarCliente_tx id d) d. Proof. marco_tx. Qed.
Lemma marco_crearZona b : marco (crearZona_tx b d) d. Proof. marco_tx. Qed.
Lemma marco_actualizarZona id b : marco (actualizarZona_tx id b d) d. Proof. marco_tx. Qed.
Lemma marco_eliminarZona id : marco (eliminarZona_tx id d) d. Proof. marco_tx. Qed.
Lemma marco_crearTarifa b : marco (crearTarifa_tx b d) d. Proof. marco_tx. Qed.
Lemma marco_actualizarTarifa id b : marco (actualizarTarifa_tx id b d) d. Proof. marco_tx. Qed.
Lemma marco_eliminarTarifa id : marco (eliminarTarifa_tx id d) d. Proof. marco_tx. Qed.
Lemma marco_crearTipoPago n : marco (crearTipoPago_tx n d) d. Proof. marco_tx. Qed.
Lemma marco_actualizarTipoPago id n : marco (actualizarTipoPago_tx id n d) d. Proof. marco_tx. Qed.
Lemma marco_eliminarTipoPago id : marco (eliminarTipoPago_tx id d) d. Proof. marco_tx. Qed.
Lemma marco_crearReserva b : marco (crearReserva_tx b d) d. Proof. marco_tx. Qed.
Lemma marco_actualizarReserva id b : marco (actualizarReserva_tx id b d) d. Proof. marco_tx. Qed.
Lemma marco_cancelarReserva id : marco (cancelarReserva_tx id d) d. Proof. marco_tx. Qed.
Lemma marco_finalizarReserva id : marco (finalizarReserva_tx id d) d. Proof. marco_tx. Qed.
Lemma marco_registrar b : marco (registrar_tx b d) d. Proof. marco_tx. Qed.
Lemma marco_login c p : marco (login_tx c p d) d.
Proof.
  intros ? ? ? H0. unfold login_tx in H0. res_inv.
  match goal with Hf : primero _ _ = Some ?f |- _ => destruct f end.
  res_inv. res_fin. by repeat split.
Qed.
Lemma marco_logout u : marco (logout_tx u d) d. Proof. marco_tx. Qed.
Lemma marco_crearTurno b : marco (crearTurno_tx b d) d. Proof. marco_tx. Qed.
Lemma marco_actualizarTurno id b : marco (actualizarTurno_tx id b d) d. Proof. marco_tx. Qed.
Lemma marco_eliminarTurno id : marco (eliminarTurno_tx id d) d. Proof. marco_tx. Qed.
Lemma marco_crearRol b : marco (crearRol_tx b d) d. Proof. marco_tx. Qed.
Lemma marco_actualizarRol id b : marco (actualizarRol_tx id b d) d. Proof. marco_tx. Qed.
Lemma marco_eliminarRol id : marco (eliminarRol_tx id d) d. Proof. marco_tx. Qed.
Lemma marco_crearEmpleado b : marco (crearEmpleado_tx b d) d. Proof. marco_tx. Qed.
Lemma marco_actualizarEmpleado id b : marco (actualizarEmpleado_tx id b d) d. Proof. marco_tx. Qed.
Lemma marco_cambiarEstado id a : marco (cambiarEstado_tx id a d) d. Proof. marco_tx. Qed.
Lemma marco_eliminarEmpleado id : marco (eliminarEmpleado_tx id d) d. Proof. marco_tx. Qed.
Lemma marco_crearMulta b : marco (crearMulta_tx b d) d. Proof. marco_tx. Qed.
Lemma marco_actualizarMulta id b : marco (actualizarMulta_tx id b d) d. Proof. marco_tx. Qed.
Lemma marco_eliminarMulta id : marco (eliminarMulta_tx id d) d. Proof. marco_tx. Qed.
Lemma marco_registrarAcceso b : marco (registrarAcceso_tx b d) d. Proof. marco_tx. Qed.
Lemma marco_limpiarHistorial n : marco (limpiarHistorial_tx n d) d. Proof. marco_tx. Qed.
End Marcos.

#[export] Hint Resolve marco_crearCliente marco_actualizarCliente marco_eliminarCliente
  marco_crearZona marco_actualizarZona marco_eliminarZona marco_crearTarifa
  marco_actualizarTarifa marco_eliminarTarifa marco_crearTipoPago marco_actualizarTipoPago
  marco_eliminarTipoPago marco_crearReserva marco_actualizarReserva marco_cancelarReserva
  marco_finalizarReserva marco_registrar marco_login marco_logout : parqueo.
#[export] Hint Resolve marco_crearTurno marco_actualizarTurno marco_eliminarTurno marco_crearRol
  marco_actualizarRol marco_eliminarRol marco_crearEmpleado marco_actualizarEmpleado
  marco_cambiarEstado marco_eliminarEmpleado marco_crearMulta marco_actualizarMulta
  marco_eliminarMulta marco_registrarAcceso marco_limpiarHistorial : parqueo.

Section Catalogo.
Context (d d' : Db) (s : Z).

Lemma inv_crearEspacio b (x : Z * Espacio) : inv d -> crearEspacio_tx b d = inr (s, x, d') -> inv d'.
Proof. tx_exito H. by apply inv_espacio_nuevo. Qed.
Lemma inv_eliminarEspacio id (x : unit) : inv d -> eliminarEspacio_tx id d = inr (s, x, d') -> inv d'.
Proof.
  intros Hi H. apply eliminarEspacio_tx_inr in H as [Hno ->]. by apply inv_espacio_borrado.
Qed.
Lemma inv_cambiarDisponibilidad id v (x : Espacio) :
  inv d -> cambiarDisponibilidad_tx id v d = inr (s, x, d') -> inv d'.
Proof. tx_exito H. by apply inv_espacio_cambio. Qed.
Lemma inv_actualizarEspacio id b (x : Espacio) :
  inv d -> actualizarEspacio_tx id b d = inr (s, x, d') -> inv d'.
Proof. tx_exito H. by apply inv_espacio_cambio. Qed.

Lemma inv_crearVehiculo b (x : Z * Vehiculo) : inv d -> crearVehiculo_tx b d = inr (s, x, d') -> inv d'.
Proof.
  tx_exito H. apply inv_vehiculo_cambio; [|done]. intros k Hk. simpl.
  rewrite lookup_insert. by case_decide.
Qed.
Lemma inv_actualizarVehiculo id b (x : Vehiculo) : inv d -> actualizarVehiculo_tx id b d = inr (s, x, d') -> inv d'.
Proof.
  tx_exito H. apply inv_vehiculo_cambio; [|done]. intros k [v Hk]. simpl.
  rewrite lookup_alter. case_decide; subst; rewrite Hk; by eexists.
Qed.
Lemma inv_eliminarVehiculo id (x : unit) : inv d -> eliminarVehiculo_tx id d = inr (s, x, d') -> inv d'.
Proof.
  tx_exito H. apply inv_vehiculo_borrado; [|done]. apply contar_cero. by apply Nat.eqb_eq.
Qed.
End Catalogo.

(** ** The transition system *)

Section Servicio.
Context {CR : Cripto}.

(** One controller call, or the clock moving forward: every controller
    of the model that writes the store. *)
Inductive paso : Db -> Db -> Prop :=
| paso_entrada u b d : paso d (snd (registrarEntrada u b d))
| paso_salida id d : paso d (snd (registrarSalida id d))
| paso_pago b d : paso d (snd (registrarPago b d))
| paso_reloj n d : 0 <= n -> paso d (con_reloj (reloj d + n) d)
| paso_crearEspacio b d : paso d (snd (crearEspacio b d))
| paso_eliminarEspacio id d : paso d (snd (eliminarEspacio id d))
| paso_cambiarDisponibilidad id v d : paso d (snd (cambiarDisponibilidad id v d))
| paso_actualizarEspacio id b d : paso d (snd (actualizarEspacio id b d))
| paso_crearVehiculo b d : paso d (snd (crearVehiculo b d))
| paso_actualizarVehiculo id b d : paso d (snd (actualizarVehiculo id b d))
| paso_eliminarVehiculo id d : paso d (snd (eliminarVehiculo id d))
| paso_crearCliente b d : paso d (snd (crearCliente b d))
| paso_actualizarCliente id b d : paso d (snd (actualizarCliente id b d))
| paso_eliminarCliente id d : paso d (snd (eliminarCliente id d))
| paso_crearZona b d : paso d (snd (crearZona b d))
| paso_actualizarZona id b d : paso d (snd (actualizarZona id b d))
| paso_eliminarZona id d : paso d (snd (eliminarZona id d))
| paso_crearTarifa b d : paso d (snd (crearTarifa b d))
| paso_actualizarTarifa id b d : paso d (snd (actualizarTarifa id b d))
| paso_eliminarTarifa id d : paso d (snd (eliminarTarifa id d))
| paso_crearTipoPago n d : paso d (snd (crearTipoPago n d))
| paso_actualizarTipoPago id n d : paso d (snd (actualizarTipoPago id n d))
| paso_eliminarTipoPago id d : paso d (snd (eliminarTipoPago id d))
| paso_crearReserva b d : paso d (snd (crearReserva b d))
| paso_actualizarReserva id b d : paso d (snd (actualizarReserva id b d))
| paso_cancelarReserva id d : paso d (snd (cancelarReserva id d))
| paso_finalizarReserva id d : paso d (snd (finalizarReserva id d))
| paso_registrar b d : paso d (snd (registrar b d))
| paso_login c p d : paso d (snd (login c p d))
| paso_logout u d : paso d (snd (logout u d))
| paso_crearTurno b d : paso d (snd (crearTurno b d))
| paso_actualizarTurno id b d : paso d (snd (actualizarTurno id b d))
| paso_eliminarTurno id d : paso d (snd (eliminarTurno id d))
| paso_crearRol b d : paso d (snd (crearRol b d))
| paso_actualizarRol id b d : paso d (snd (actualizarRol id b d))
| paso_eliminarRol id d : paso d (snd (eliminarRol id d))
| paso_crearEmpleado b d : paso d (snd (crearEmpleado b d))
| paso_actualizarEmpleado id b d : paso d (snd (actualizarEmpleado id b d))
| paso_cambiarEstado id a d : paso d (snd (cambiarEstado id a d))
| paso_eliminarEmpleado id d : paso d (snd (eliminarEmpleado id d))
| paso_crearMulta b d : paso d (snd (crearMulta b d))
| paso_actualizarMulta id b d : paso d (snd (actualizarMulta id b d))
| paso_eliminarMulta id d : paso d (snd (eliminarMulta id d))
| paso_registrarAcceso b d : paso d (snd (registrarAcceso b d))
| paso_limpiarHistorial n d : paso d (snd (limpiarHistorial n d)).

(** The databases the service can reach from the empty one. *)
Inductive alcanzable : Db -> Prop :=
| alc_inicio : alcanzable db_vacia
| alc_paso d d' : alcanzable d -> paso d d' -> alcanzable d'.

(** The wrappers: a call is [ejecutar] of its controller body. *)
Ltac abrir_llamada :=
  unfold registrarEntrada, registrarSalida, registrarPago, crearEspacio, eliminarEspacio,
    cambiarDisponibilidad, actualizarEspacio,
    crearVehiculo, actualizarVehiculo, eliminarVehiculo, crearCliente, actualizarCliente,
    eliminarCliente, crearZona, actualizarZona, eliminarZona, crearTarifa, actualizarTarifa,
    eliminarTarifa, crearTipoPago, actualizarTipoPago, eliminarTipoPago, crearReserva,
    actualizarReserva, cancelarReserva, finalizarReserva, registrar, login, logout,
    crearTurno, actualizarTurno, eliminarTurno, crearRol, actualizarRol, eliminarRol,
    crearEmpleado, actualizarEmpleado, cambiarEstado, eliminarEmpleado, crearMulta,
    actualizarMulta, eliminarMulta, registrarAcceso, limpiarHistorial.

(** A call either changed nothing or succeeded. *)
Ltac caso_llamada lem :=
  match goal with
  | |- inv (snd (ejecutar ?c ?d)) =>
      destruct (ejecutar_snd c d) as [-> | (? & ? & ?H)]; [assumption | eapply lem; eauto]
  end.

(** Every step of the service preserves the invariant. *)
Lemma paso_preserva_inv d d' : paso d d' -> inv d -> inv d'.
Proof.
  intros Hp Hi. destruct Hp; abrir_llamada;
    try solve [apply inv_marco_tx; [eauto with parqueo | done]].
  - caso_llamada inv_entrada_exito.
  - caso_llamada inv_salida_exito.
  - caso_llamada inv_pago_exito.
  - by apply inv_reloj.
  - caso_llamada inv_crearEspacio.
  - caso_llamada inv_eliminarEspacio.
  - caso_llamada inv_cambiarDisponibilidad.
  - caso_llamada inv_actualizarEspacio.
  - caso_llamada inv_crearVehiculo.
  - caso_llamada inv_actualizarVehiculo.
  - caso_llamada inv_eliminarVehiculo.
Qed.

Lemma alcanzable_inv d : alcanzable d -> inv d.
Proof.
  induction 1 as [|d d' _ IH Hp]; [apply inv_db_vacia | exact (paso_preserva_inv d d' Hp IH)].
Qed.

(** ** What every reachable database satisfies (specification, section 8) *)

(** C6: in every reachable database a vehicle has at most one ACTIVO
    ticket. *)
Theorem un_activo_por_vehiculo d k1 k2 t1 t2 :
  alcanzable d ->
  buscar k1 (tickets d) = Some t1 -> buscar k2 (tickets d) = Some t2 ->
  t_estado t1 = ACTIVO -> t_estado t2 = ACTIVO ->
  t_vehiculo_id t1 = t_vehiculo_id t2 -> k1 = k2.
Proof. intros Ha. apply (inv_vehiculo_unico _ (alcanzable_inv d Ha)). Qed.

(** C8: in every reachable database a ticket's exit time is NULL exactly
    while it is ACTIVO, and entry <= exit <= now. *)
Theorem tiempos_ticket d k t :
  alcanzable d -> buscar k (tickets d) = Some t ->
  (t_estado t = ACTIVO <-> t_hora_salida t = None) /\
  t_hora_entrada t <= reloj d /\
  (forall s, t_hora_salida t = Some s -> t_hora_entrada t <= s <= reloj d).
Proof.
  intros Ha Hk. destruct (inv_tiempos _ (alcanzable_inv d Ha) k t Hk) as (H1 & H2 & H3).
  auto.
Qed.

(** C9: in every reachable database each payment references a CERRADO
    ticket, and no ticket has two payments. *)
Theorem pagos_validos d k p :
  alcanzable d -> buscar k (pagos d) = Some p ->
  (exists t, buscar (p_ticket_id p) (tickets d) = Some t /\ t_estado t = CERRADO) /\
  (forall k' p', buscar k' (pagos d) = Some p' -> p_ticket_id p' = p_ticket_id p -> k' = k).
Proof.
  intros Ha Hk. destruct (alcanzable_inv d Ha) as [_ _ _ _ _ _ Hpc Hpu].
  split; [exact (Hpc k p Hk)|]. intros k' p' Hk' Hp. exact (Hpu k' k p' p Hk' Hk Hp).
Qed.

(** C10: the ticket state machine.  In a step from a reachable database,
    every existing ticket either stays as it is, or was ACTIVO and becomes
    CERRADO with the current time as its exit: there is no other edge,
    and none leaves CERRADO. *)
Theorem transicion_ticket d d' k t :
  alcanzable d -> paso d d' -> buscar k (tickets d) = Some t ->
  buscar k (tickets d') = Some t \/
  (t_estado t = ACTIVO /\ buscar k (tickets d') = Some (cerrar (reloj d) t)).
Proof.
  intros Ha Hp Hk. pose proof (alcanzable_inv d Ha) as Hi.
  destruct Hp; abrir_llamada; [| | | left; exact Hk | ..];
    try solve [left; rewrite tickets_marco_tx; [exact Hk | eauto with parqueo]];
    match goal with
    | |- context [snd (ejecutar ?c ?d0)] =>
        pose proof (ejecutar_snd c d0) as Hs; revert Hs;
        generalize (snd (ejecutar c d0)); intros d1 [E | (? & ? & H)];
        [left; rewrite E; exact Hk|]
    end.
  - apply registrarEntrada_tx_inr in H as (? & ? & ? & ? & _ & _ & _ & _ & _ & _ & _ & _ & _ & E).
    left. rewrite E. unfold buscar in *; simpl. rewrite lookup_insert_ne; [done|].
    intros Heq. rewrite <- Heq, tabla_ok_fresca in Hk; [done|apply Hi].
  - apply registrarSalida_tx_inr in H as (t0 & Ht0 & Ha0 & _ & E & _).
    rewrite E. unfold buscar in *; simpl. rewrite lookup_alter.
    case_decide as Heq; [subst; rewrite Ht0 in Hk; injection Hk as <-; right; by rewrite Ht0|].
    by left.
  - apply registrarPago_tx_inr in H as (? & ? & ? & ? & _ & _ & _ & _ & _ & _ & _ & _ & _ & E).
    left. by rewrite E.
  - abrir_tx H. by left.
  - apply eliminarEspacio_tx_inr in H as [_ E]. left. by rewrite E.
  - abrir_tx H. by left.
  - abrir_tx H. by left.
  - abrir_tx H. by left.
  - abrir_tx H. by left.
  - abrir_tx H. by left.
Qed.

End Servicio.

(** ** A reachable lot

    From the empty database: a client, two of her vehicles, a zone, space
    A-01 (created with [disponible] omitted, so free), a tariff of 10.00
    per hour, ten hours on the clock, and vehicle 1 parked on space 1. *)
Definition traza_demo : Db :=
  let d1 := snd (crearCliente (mkBodyCliente (Some "Luis Perez") None None None) db_vacia) in
  let d2 := snd (crearVehiculo (mkBodyVehiculo (Some 1) (Some "p123abc") None None None) d1) in
  let d3 := snd (crearVehiculo (mkBodyVehiculo (Some 1) (Some "p456def") None None None) d2) in
  let d4 := snd (crearZona (mkBodyZona (Some "Norte") None) d3) in
  let d5 := snd (crearEspacio (mkBodyEspacio (Some 1) (Some "a-01") None) d4) in
  let d6 := snd (crearTarifa (mkBodyTarifa (Some "Normal") (Some 1000)) d5) in
  let d7 := con_reloj (reloj d6 + 36000) d6 in
  snd (registrarEntrada sesion_demo (mkBodyEntrada (Some 1) (Some 1) (Some 1)) d7).

Lemma traza_demo_alcanzable : alcanzable traza_demo.
Proof.
  unfold traza_demo.
  eapply alc_paso; [|apply paso_entrada].
  eapply alc_paso; [|apply paso_reloj; lia].
  eapply alc_paso; [|apply paso_crearTarifa].
  eapply alc_paso; [|apply paso_crearEspacio].
  eapply alc_paso; [|apply paso_crearZona].
  eapply alc_paso; [|apply paso_crearVehiculo].
  eapply alc_paso; [|apply paso_crearVehiculo].
  eapply alc_paso; [|apply paso_crearCliente].
  apply alc_inicio.
Qed.

(** The ticket of the trace: vehicle 1 on space 1 since 10:00, by user 7. *)
Definition ticket_demo : Ticket := mkTicket 1 1 7 1 36000 None ACTIVO.

Lemma traza_demo_ticket : buscar 1 (tickets traza_demo) = Some ticket_demo.
Proof. vm_compute. reflexivity. Qed.

Lemma un_activo_por_vehiculo_witness : (1 : Z) = 1.
Proof.
  exact (un_activo_por_vehiculo traza_demo 1 1 ticket_demo ticket_demo traza_demo_alcanzable
           traza_demo_ticket traza_demo_ticket eq_refl eq_refl eq_refl).
Defined.

Lemma tiempos_ticket_witness : t_hora_entrada ticket_demo <= reloj traza_demo.
Proof.
  exact (proj1 (proj2 (tiempos_ticket traza_demo 1 ticket_demo traza_demo_alcanzable
                         traza_demo_ticket))).
Defined.

(** The trace after the exit of ticket 1 two hours later and its payment
    of 20.00 with payment type 1. *)
Definition traza_pagada : Db :=
  let d1 := snd (crearTipoPago (Some "Efectivo") traza_demo) in
  let d2 := con_reloj (reloj d1 + 7200) d1 in
  let d3 := snd (registrarSalida 1 d2) in
  snd (registrarPago (mkBodyPago (Some 1) (Some 1) (Some 2000)) d3).

Lemma traza_pagada_alcanzable : alcanzable traza_pagada.
Proof.
  unfold traza_pagada.
  eapply alc_paso; [|apply paso_pago].
  eapply alc_paso; [|apply paso_salida].
  eapply alc_paso; [|apply paso_reloj; lia].
  eapply alc_paso; [|apply paso_crearTipoPago].
  apply traza_demo_alcanzable.
Qed.

Lemma pagos_validos_witness :
  exists t, buscar 1 (tickets traza_pagada) = Some t /\ t_estado t = CERRADO.
Proof.
  exact (proj1 (pagos_validos traza_pagada 1 (mkPago 1 1 2000 43200) traza_pagada_alcanzable
                  ltac:(vm_compute; reflexivity))).
Defined.

Lemma transicion_ticket_witness :
  buscar 1 (tickets (snd (registrarSalida 1 traza_demo))) = Some ticket_demo \/
  (t_estado ticket_demo = ACTIVO /\
   buscar 1 (tickets (snd (registrarSalida 1 traza_demo))) =
     Some (cerrar (reloj traza_demo) ticket_demo)).
Proof.
  exact (transicion_ticket traza_demo _ 1 ticket_demo traza_demo_alcanzable
           (paso_salida 1 traza_demo) traza_demo_ticket).
Defined.

(** ** Where the code breaks the specification's availability invariant

    The specification (section 8) states that a space is unavailable
    exactly when an ACTIVO ticket references it.  The code keeps only one
    direction, and only while nobody writes [disponible] by hand. *)

(** C17: [cambiarDisponibilidad] (PATCH /espacios/:id/disponibilidad)
    frees an occupied space with no check of its tickets, and a second
    vehicle then enters the same space.  Both calls are steps of the
    service, so a reachable database holds two ACTIVO tickets on space 1,
    which the specification forbids. *)
Theorem liberar_a_mano_duplica_espacio :
  let d1 := snd (cambiarDisponibilidad 1 (Some (JBool true)) traza_demo) in
  let d2 := snd (registrarEntrada sesion_demo (mkBodyEntrada (Some 2) (Some 1) (Some 1)) d1) in
  alcanzable d2 /\
  buscar 1 (tickets d2) = Some ticket_demo /\
  buscar 2 (tickets d2) = Some (mkTicket 2 1 7 1 36000 None ACTIVO).
Proof.
  intros d1 d2. split; [|split; vm_compute; reflexivity].
  eapply alc_paso; [|apply paso_entrada].
  eapply alc_paso; [apply traza_demo_alcanzable | apply paso_cambiarDisponibilidad].
Qed.

(** C7: a stored availability other than 0, 1 and NULL, which
    [crearEspacio], [actualizarEspacio] and [cambiarDisponibilidad] store
    from any integer of the request in [-128 .. 127], is read two ways:
    [registrarEntrada] ([!espacio[0].disponible]) and [listarEspacios]
    take it as available, while [listarDisponibles] and [listarZonas]
    ([e.disponible = 1]) leave the space out.  From the reachable lot one
    call of [cambiarDisponibilidad] stores any such value. *)
Theorem disponible_no_booleano (cotejo : relation string) `{!RelDecision cotejo} d k e z zona :
  buscar k (espacios d) = Some e -> e_disponible e = Some z -> z <> 0 -> z <> 1 ->
  disponible e = true /\ disponible_sql e = false /\
  (k, e) ∉ (listarDisponibles cotejo zona d).2 /\
  (-128 <= z <= 127 ->
   let d' := snd (cambiarDisponibilidad 1 (Some (JNum z)) traza_demo) in
   alcanzable d' /\ exists e', buscar 1 (espacios d') = Some e' /\ e_disponible e' = Some z).
Proof.
  intros Hk Hz H0 H1.
  assert (Hd : disponible e = true) by (unfold disponible; rewrite Hz; by apply negb_true_iff, Z.eqb_neq).
  assert (Hs : disponible_sql e = false) by (unfold disponible_sql; rewrite Hz; apply bool_decide_eq_false; congruence).
  split; [done|]. split; [done|]. split.
  - unfold listarDisponibles, listado. cbn [snd]. rewrite merge_sort_Permutation.
    unfold donde. rewrite list_elem_of_filter. simpl. rewrite Hs. naive_solver.
  - intros Hr d'. split.
    + eapply alc_paso; [apply traza_demo_alcanzable | apply paso_cambiarDisponibilidad].
    + assert (He1 : buscar 1 (espacios traza_demo) = Some (mkEspacio (Some 1) (Some "A-01") (Some 0)))
        by (vm_compute; reflexivity).
      eexists. split; [exact (cambiarDisponibilidad_guarda 1 _ z traza_demo He1 Hr)|done].
Qed.

Lemma disponible_no_booleano_witness :
  let d := snd (cambiarDisponibilidad 1 (Some (JNum 5)) traza_demo) in
  disponible (mkEspacio (Some 1) (Some "A-01") (Some 5)) = true /\
  disponible_sql (mkEspacio (Some 1) (Some "A-01") (Some 5)) = false.
Proof.
  intros d. destruct (disponible_no_booleano cotejo_binario d 1 (mkEspacio (Some 1) (Some "A-01") (Some 5)) 5 None
                        ltac:(vm_compute; reflexivity) eq_refl ltac:(lia) ltac:(lia)) as (H1 & H2 & _).
  split; [exact H1 | exact H2].
Defined.

(** C16: the zone listing and the space listing count the same spaces
    exactly under two conditions: every space belongs to an existing zone
    (for the totals), and every stored availability is 0, 1 or NULL (for
    the available counts, since [listarZonas] tests [e.disponible = 1]
    where [listarEspacios] tests its truthiness); the collation of the
    ordering plays no part.  Both conditions hold in the reachable lot,
    and one step of the service breaks each: [crearEspacio] with
    [disponible: 5] adds a space that [listarEspacios] counts as
    available and [listarZonas] does not, and [actualizarEspacio] moving
    space 1 to zone 99, which [crearEspacio] would refuse, removes it
    from every zone while [listarEspacios] still counts it. *)
Theorem zonas_cuadran (cotejo : relation string) `{!RelDecision cotejo} :
  (forall d, zonas_ok d ->
     suma (fun r => Z.of_nat (fz_total_espacios r)) (listarZonas cotejo d).2 =
       Z.of_nat (ce_total (listarEspacios d)) /\
     (booleanos_ok d ->
      suma (fun r => Z.of_nat (fz_espacios_disponibles r)) (listarZonas cotejo d).2 =
        Z.of_nat (ce_disponibles (listarEspacios d)))) /\
  (let d1 := snd (crearEspacio (mkBodyEspacio (Some 1) (Some "b-01") (Some (JNum 5))) traza_demo) in
   alcanzable d1 /\ zonas_ok d1 /\
   suma (fun r => Z.of_nat (fz_espacios_disponibles r)) (listarZonas cotejo d1).2 = 0 /\
   ce_disponibles (listarEspacios d1) = 1%nat) /\
  (let d2 := snd (actualizarEspacio 1 (mkBodyEspacio (Some 99) (Some "a-01") (Some (JBool false)))
                   traza_demo) in
   alcanzable d2 /\
   suma (fun r => Z.of_nat (fz_total_espacios r)) (listarZonas cotejo d2).2 = 0 /\
   ce_total (listarEspacios d2) = 1%nat).
Proof.
  split; [|split].
  - intros d Hz. by apply listarZonas_cuadra.
  - cbv zeta. split; [eapply alc_paso; [apply traza_demo_alcanzable | apply paso_crearEspacio]|].
    split; [apply zonas_okb_ok; vm_compute; reflexivity|].
    unfold listarZonas, listado. cbn [snd]. rewrite merge_sort_Permutation.
    split; vm_compute; reflexivity.
  - cbv zeta. split; [eapply alc_paso; [apply traza_demo_alcanzable | apply paso_actualizarEspacio]|].
    unfold listarZonas, listado. cbn [snd]. rewrite merge_sort_Permutation.
    split; vm_compute; reflexivity.
Qed.

Lemma zonas_cuadran_witness :
  zonas_ok traza_demo /\ booleanos_ok traza_demo /\
  suma (fun r => Z.of_nat (fz_espacios_disponibles r)) (listarZonas cotejo_binario traza_demo).2 =
    Z.of_nat (ce_disponibles (listarEspacios traza_demo)).
Proof.
  assert (Hz : zonas_ok traza_demo) by (apply zonas_okb_ok; vm_compute; reflexivity).
  assert (Hb : booleanos_ok traza_demo) by (apply booleanos_okb_ok; vm_compute; reflexivity).
  split; [exact Hz|]. split; [exact Hb|].
  exact (proj2 (proj1 (zonas_cuadran cotejo_binario) traza_demo Hz) Hb).
Defined.
