(* ===== verification/Rutas.v ===== *)
(** * Rutas: the Express routers and the middleware chain of a request

    [src/parqueo-api/server.js] mounts fifteen routers
    ([src/parqueo-api/src/routes/*.routes.js]) under [/api/...] after the
    root route [GET /], and answers 404 to anything else.  Every router
    but the one of [/api/auth] starts with [router.use(verificarToken)];
    the auth router puts [verificarToken] on [/perfil] and [/logout]
    only.  A router is its list of layers in declaration order; a request
    path is its list of segments (the URL split on ['/'], empty pieces
    dropped, as Express's non-strict matching does).  Express matches
    paths case-insensitively; a [:param] matches one non-empty segment.

    [servidor] says which middlewares run and which handler the request
    reaches; [atender] runs the middlewares of [Auth] on the request's
    [Authorization] header. *)

From Stdlib Require Import Ascii.
From S2P Require Import Prelude Store Auth.

Inductive Metodo := GET | POST | PUT | PATCH | DELETE.

#[export] Instance Metodo_eq_dec : EqDecision Metodo.
Proof. solve_decision. Defined.

(** A segment of a route path: ['entrada'] or [':id']. *)
Inductive Segmento := Lit (s : string) | Param (nombre : string).

(** A handler is [xController.funcion]: the controller module and the
    exported function. *)
Definition Manejador : Type := string * string.

Inductive Middleware :=
| MwToken                        (* verificarToken *)
| MwRol (permitidos : list string).   (* verificarRol(...permitidos) *)

(** [router.use(mw)] or [router.METHOD(path, ...mws, handler)]. *)
Inductive Capa :=
| Usar (mw : Middleware)
| Ruta (m : Metodo) (patron : list Segmento) (mws : list Middleware) (h : Manejador).

(** ** Matching a path *)

(** Express compiles paths to case-insensitive regular expressions. *)
Definition seg_igual (a b : string) : bool := String.eqb (to_upper a) (to_upper b).

Fixpoint coincide (p : list Segmento) (path : list string) : bool :=
  match p, path with
  | [], [] => true
  | Lit s :: p', x :: path' => seg_igual s x && coincide p' path'
  | Param _ :: p', x :: path' => negb (String.eqb x EmptyString) && coincide p' path'
  | _, _ => false
  end.

(** [app.use('/api/x', router)]: the mount path is a prefix of the
    request path, and the router sees the rest. *)
Fixpoint quitar_prefijo (pre path : list string) : option (list string) :=
  match pre, path with
  | [], _ => Some path
  | a :: pre', x :: path' => if seg_igual a x then quitar_prefijo pre' path' else None
  | _ :: _, [] => None
  end.

(** ** Dispatch *)

(** Inside a router: the [use] middlewares met so far run; the first
    route whose method and path match takes the request, its own
    middlewares after them.  With no route, the request leaves the router
    after its [use] middlewares. *)
Fixpoint despachar_router (r : list Capa) (m : Metodo) (path : list string)
    (acc : list Middleware) : list Middleware * option Manejador :=
  match r with
  | [] => (acc, None)
  | Usar mw :: r' => despachar_router r' m path (acc ++ [mw])
  | Ruta m' p mws h :: r' =>
      if bool_decide (m = m') && coincide p path then (acc ++ mws, Some h)
      else despachar_router r' m path acc
  end.

Inductive Destino := AManejador (h : Manejador) | NoEncontrado.

#[export] Instance Destino_eq_dec : EqDecision Destino.
Proof. solve_decision. Defined.

(** The mounts in order, then the 404 handler of server.js. *)
Fixpoint despachar_app (ms : list (list string * list Capa)) (m : Metodo)
    (path : list string) (acc : list Middleware) : list Middleware * Destino :=
  match ms with
  | [] => (acc, NoEncontrado)
  | (pre, r) :: ms' =>
      match quitar_prefijo pre path with
      | Some rest =>
          match despachar_router r m rest [] with
          | (mws, Some h) => (acc ++ mws, AManejador h)
          | (mws, None) => despachar_app ms' m path (acc ++ mws)
          end
      | None => despachar_app ms' m path acc
      end
  end.

(** ** Route paths as written in the route files *)

(** [s.split('/')] without the empty pieces. *)
Fixpoint partir_barra (s : string) : list string :=
  match s with
  | EmptyString => []
  | String c r =>
      let ws := partir_barra r in
      if Ascii.eqb c "/"%char then
        match ws with [] => [] | _ => EmptyString :: ws end
      else match ws with
           | w :: ws' => String c w :: ws'
           | [] => [String c EmptyString]
           end
  end.

(** [':id'] is a parameter, anything else a literal segment. *)
Definition segmento (w : string) : Segmento :=
  match w with
  | String c r => if Ascii.eqb c ":"%char then Param r else Lit w
  | EmptyString => Lit w
  end.

Definition patron (s : string) : list Segmento :=
  map segmento (filter (fun w => w <> EmptyString) (partir_barra s)).

Definition ruta (m : Metodo) (p : string) (mws : list Middleware) (ctrl f : string) : Capa :=
  Ruta m (patron p) mws (ctrl, f).

(** ** The route files *)

Definition auth_routes : list Capa := [
  ruta POST "/register" [] "authController" "registrar";
  ruta POST "/login" [] "authController" "login";
  ruta GET "/perfil" [MwToken] "authController" "obtenerPerfil";
  ruta POST "/logout" [MwToken] "authController" "logout" ].

Definition clientes_routes : list Capa := [
  Usar MwToken;
  ruta GET "/" [] "clientesController" "listarClientes";
  ruta GET "/:id" [] "clientesController" "obtenerCliente";
  ruta POST "/" [] "clientesController" "crearCliente";
  ruta PUT "/:id" [] "clientesController" "actualizarCliente";
  ruta DELETE "/:id" [] "clientesController" "eliminarCliente" ].

Definition empleados_routes : list Capa := [
  Usar MwToken;
  ruta GET "/" [] "empleadosController" "listarEmpleados";
  ruta GET "/:id" [] "empleadosController" "obtenerEmpleado";
  ruta POST "/" [] "empleadosController" "crearEmpleado";
  ruta PUT "/:id" [] "empleadosController" "actualizarEmpleado";
  ruta PATCH "/:id/estado" [] "empleadosController" "cambiarEstado";
  ruta DELETE "/:id" [] "empleadosController" "eliminarEmpleado" ].

Definition espacios_routes : list Capa := [
  Usar MwToken;
  ruta GET "/" [] "espaciosController" "listarEspacios";
  ruta GET "/disponibles" [] "espaciosController" "listarDisponibles";
  ruta GET "/:id" [] "espaciosController" "obtenerEspacio";
  ruta POST "/" [] "espaciosController" "crearEspacio";
  ruta PUT "/:id" [] "espaciosController" "actualizarEspacio";
  ruta PATCH "/:id/disponibilidad" [] "espaciosController" "cambiarDisponibilidad";
  ruta DELETE "/:id" [] "espaciosController" "eliminarEspacio" ].

Definition historialaccesos_routes : list Capa := [
  Usar MwToken;
  ruta GET "/" [] "historialController" "listarHistorial";
  ruta GET "/estadisticas" [] "historialController" "obtenerEstadisticas";
  ruta GET "/usuario/:usuario_id" [] "historialController" "obtenerHistorialPorUsuario";
  ruta GET "/:id" [] "historialController" "obtenerRegistro";
  ruta POST "/" [] "historialController" "registrarAcceso";
  ruta DELETE "/limpiar" [] "historialController" "limpiarHistorial" ].

Definition multas_routes : list Capa := [
  Usar MwToken;
  ruta GET "/" [] "multasController" "listarMultas";
  ruta GET "/ticket/:ticket_id" [] "multasController" "buscarPorTicket";
  ruta GET "/:id" [] "multasController" "obtenerMulta";
  ruta POST "/" [] "multasController" "crearMulta";
  ruta PUT "/:id" [] "multasController" "actualizarMulta";
  ruta DELETE "/:id" [] "multasController" "eliminarMulta" ].

Definition pagos_routes : list Capa := [
  Usar MwToken;
  ruta POST "/" [] "pagosController" "registrarPago";
  ruta GET "/" [] "pagosController" "listarPagos";
  ruta GET "/reporte" [] "pagosController" "reportePagos";
  ruta GET "/ticket/:ticket_id" [] "pagosController" "obtenerPagoPorTicket";
  ruta GET "/:id" [] "pagosController" "obtenerPago" ].

Definition reservas_routes : list Capa := [
  Usar MwToken;
  ruta GET "/" [] "reservasController" "listarReservas";
  ruta GET "/activas" [] "reservasController" "listarReservasActivas";
  ruta GET "/cliente/:cliente_id" [] "reservasController" "buscarPorCliente";
  ruta GET "/:id" [] "reservasController" "obtenerReserva";
  ruta POST "/" [] "reservasController" "crearReserva";
  ruta PUT "/:id" [] "reservasController" "actualizarReserva";
  ruta PATCH "/:id/cancelar" [] "reservasController" "cancelarReserva";
  ruta PATCH "/:id/finalizar" [] "reservasController" "finalizarReserva" ].

Definition roles_routes : list Capa := [
  Usar MwToken;
  ruta GET "/" [] "rolesController" "listarRoles";
  ruta GET "/:id" [] "rolesController" "obtenerRol";
  ruta POST "/" [] "rolesController" "crearRol";
  ruta PUT "/:id" [] "rolesController" "actualizarRol";
  ruta DELETE "/:id" [] "rolesController" "eliminarRol" ].

Definition tarifas_routes : list Capa := [
  Usar MwToken;
  ruta GET "/" [] "tarifasController" "listarTarifas";
  ruta GET "/:id" [] "tarifasController" "obtenerTarifa";
  ruta POST "/" [] "tarifasController" "crearTarifa";
  ruta PUT "/:id" [] "tarifasController" "actualizarTarifa";
  ruta DELETE "/:id" [] "tarifasController" "eliminarTarifa" ].

Definition tickets_routes : list Capa := [
  Usar MwToken;
  ruta POST "/entrada" [] "ticketsController" "registrarEntrada";
  ruta PUT "/:id/salida" [] "ticketsController" "registrarSalida";
  ruta GET "/" [] "ticketsController" "listarTickets";
  ruta GET "/activos" [] "ticketsController" "listarActivos";
  ruta GET "/vehiculo/:placa" [] "ticketsController" "buscarPorVehiculo";
  ruta GET "/:id" [] "ticketsController" "obtenerTicket" ].

Definition tipospago_routes : list Capa := [
  Usar MwToken;
  ruta GET "/" [] "tiposPagoController" "listarTiposPago";
  ruta GET "/:id" [] "tiposPagoController" "obtenerTipoPago";
  ruta POST "/" [] "tiposPagoController" "crearTipoPago";
  ruta PUT "/:id" [] "tiposPagoController" "actualizarTipoPago";
  ruta DELETE "/:id" [] "tiposPagoController" "eliminarTipoPago" ].

Definition turnos_routes : list Capa := [
  Usar MwToken;
  ruta GET "/" [] "turnosController" "listarTurnos";
  ruta GET "/:id" [] "turnosController" "obtenerTurno";
  ruta POST "/" [] "turnosController" "crearTurno";
  ruta PUT "/:id" [] "turnosController" "actualizarTurno";
  ruta DELETE "/:id" [] "turnosController" "eliminarTurno" ].

Definition vehiculos_routes : list Capa := [
  Usar MwToken;
  ruta GET "/" [] "vehiculosController" "listarVehiculos";
  ruta GET "/placa/:placa" [] "vehiculosController" "buscarPorPlaca";
  ruta GET "/:id" [] "vehiculosController" "obtenerVehiculo";
  ruta POST "/" [] "vehiculosController" "crearVehiculo";
  ruta PUT "/:id" [] "vehiculosController" "actualizarVehiculo";
  ruta DELETE "/:id" [] "vehiculosController" "eliminarVehiculo" ].

Definition zonas_routes : list Capa := [
  Usar MwToken;
  ruta GET "/" [] "zonasController" "listarZonas";
  ruta GET "/:id" [] "zonasController" "obtenerZona";
  ruta POST "/" [] "zonasController" "crearZona";
  ruta PUT "/:id" [] "zonasController" "actualizarZona";
  ruta DELETE "/:id" [] "zonasController" "eliminarZona" ].

(** [app.use('/api/...', ...Routes)] (server.js, lines 65-79). *)
Definition montajes : list (list string * list Capa) := [
  (["api"; "auth"], auth_routes);
  (["api"; "empleados"], empleados_routes);
  (["api"; "clientes"], clientes_routes);
  (["api"; "vehiculos"], vehiculos_routes);
  (["api"; "espacios"], espacios_routes);
  (["api"; "zonas"], zonas_routes);
  (["api"; "tickets"], tickets_routes);
  (["api"; "pagos"], pagos_routes);
  (["api"; "tarifas"], tarifas_routes);
  (["api"; "turnos"], turnos_routes);
  (["api"; "multas"], multas_routes);
  (["api"; "reservas"], reservas_routes);
  (["api"; "roles"], roles_routes);
  (["api"; "tipospago"], tipospago_routes);
  (["api"; "historial"], historialaccesos_routes) ].

(** The root handler [app.get('/', ...)] (lines 36-60). *)
Definition raiz : Manejador := ("server", "raiz").

(** Which middlewares a request runs, and where it ends. *)
Definition servidor (m : Metodo) (path : list string) : list Middleware * Destino :=
  if bool_decide (m = GET) && bool_decide (path = []) then ([], AManejador raiz)
  else despachar_app montajes m path [].

(** ** Running the middlewares *)

#[export] Instance Middleware_eq_dec : EqDecision Middleware.
Proof. solve_decision. Defined.

Inductive Resultado :=
| Rechazo (status : Z) (e : Err)                 (* an early answer, or the 404 *)
| Llega (h : Manejador) (usuario : option Sesion). (* the handler runs with req.usuario *)

Section Atender.
Context `{Cripto}.

(** Each middleware calls [next()] or answers; [verificarToken] sets
    [req.usuario]. *)
Fixpoint correr (mws : list Middleware) (hdr : option string) (ahora : Z)
    (u : option Sesion) : (Z * Err) + option Sesion :=
  match mws with
  | [] => inr u
  | MwToken :: r =>
      match verificarToken hdr ahora with
      | Sigue s => correr r hdr ahora (Some s)
      | Corta st e => inl (st, e)
      end
  | MwRol ps :: r =>
      match verificarRol ps u with
      | Sigue s => correr r hdr ahora (Some s)
      | Corta st e => inl (st, e)
      end
  end.

(** A request: method, path segments and the [Authorization] header. *)
Definition atender (m : Metodo) (path : list string) (hdr : option string) (ahora : Z)
    : Resultado :=
  let '(mws, dest) := servidor m path in
  match correr mws hdr ahora None with
  | inl (st, e) => Rechazo st e
  | inr u =>
      match dest with
      | AManejador h => Llega h u
      | NoEncontrado => Rechazo 404 ERutaNoEncontrada
      end
  end.

End Atender.

(** ** The routes a router can hand a request to *)

(** The middlewares and handler of each route of a router, after the
    [use] middlewares declared above it. *)
Fixpoint firmas (r : list Capa) (acc : list Middleware) : list (list Middleware * Manejador) :=
  match r with
  | [] => []
  | Usar mw :: r' => firmas r' (acc ++ [mw])
  | Ruta _ _ mws h :: r' => (acc ++ mws, h) :: firmas r' acc
  end.

(** Every middleware a router mentions. *)
Fixpoint middlewares_de (r : list Capa) : list Middleware :=
  match r with
  | [] => []
  | Usar mw :: r' => mw :: middlewares_de r'
  | Ruta _ _ mws _ :: r' => mws ++ middlewares_de r'
  end.

Lemma despachar_router_firma r m path acc mws h :
  despachar_router r m path acc = (mws, Some h) -> (mws, h) ∈ firmas r acc.
Proof.
  revert acc. induction r as [|[mw|m' p mws' h'] r IH]; intros acc Hd; simpl in *; [done| |].
  - by apply IH.
  - destruct (bool_decide (m = m') && coincide p path); [injection Hd as <- <-; left|right; eauto].
Qed.

Lemma despachar_router_mws r m path acc mws o :
  despachar_router r m path acc = (mws, o) -> forall mw, mw ∈ mws -> mw ∈ acc \/ mw ∈ middlewares_de r.
Proof.
  revert acc. induction r as [|[mw'|m' p mws' h'] r IH]; intros acc Hd mw Hin; simpl in *.
  - injection Hd as <- _. by left.
  - destruct (IH _ Hd mw Hin) as [Ha|Ha]; set_solver.
  - destruct (bool_decide (m = m') && coincide p path).
    + injection Hd as <- _. set_solver.
    + destruct (IH _ Hd mw Hin) as [Ha|Ha]; set_solver.
Qed.

Lemma despachar_app_firma ms m path acc mws h :
  despachar_app ms m path acc = (mws, AManejador h) ->
  exists pre r mws' acc', (pre, r) ∈ ms /\ (mws', h) ∈ firmas r [] /\ mws = acc' ++ mws'.
Proof.
  revert acc. induction ms as [|[pre r] ms IH]; intros acc Hd; simpl in *; [done|].
  destruct (quitar_prefijo pre path) as [rest|].
  - destruct (despachar_router r m rest []) as [mws0 [h0|]] eqn:E.
    + injection Hd as <- <-. apply despachar_router_firma in E.
      exists pre, r, mws0, acc. split; [left|done].
    + destruct (IH _ Hd) as (pre' & r' & mws' & acc' & Hin & Hf & ->).
      exists pre', r', mws', acc'. split; [right|]; done.
  - destruct (IH _ Hd) as (pre' & r' & mws' & acc' & Hin & Hf & ->).
    exists pre', r', mws', acc'. split; [right|]; done.
Qed.

Lemma despachar_app_mws ms m path acc mws dest :
  despachar_app ms m path acc = (mws, dest) ->
  forall mw, mw ∈ mws -> mw ∈ acc \/ exists pre r, (pre, r) ∈ ms /\ mw ∈ middlewares_de r.
Proof.
  revert acc. induction ms as [|[pre r] ms IH]; intros acc Hd mw Hin; simpl in *.
  - injection Hd as <- _. by left.
  - destruct (quitar_prefijo pre path) as [rest|].
    + destruct (despachar_router r m rest []) as [mws0 [h0|]] eqn:E.
      * injection Hd as <- _. apply elem_of_app in Hin as [Hin|Hin]; [by left|].
        destruct (despachar_router_mws _ _ _ _ _ _ E mw Hin) as [Ha|Ha]; [set_solver|].
        right. exists pre, r. split; [left|done].
      * destruct (IH _ Hd mw Hin) as [Ha|(pre' & r' & Hm & Hr)].
        -- apply elem_of_app in Ha as [Ha|Ha]; [by left|].
           destruct (despachar_router_mws _ _ _ _ _ _ E mw Ha) as [Hb|Hb]; [set_solver|].
           right. exists pre, r. split; [left|done].
        -- right. exists pre', r'. split; [right|]; done.
    + destruct (IH _ Hd mw Hin) as [Ha|(pre' & r' & Hm & Hr)]; [by left|].
      right. exists pre', r'. split; [right|]; done.
Qed.

(** ** What the route tables guarantee, checked on the tables *)

(** The routes that need no token: [GET /], [register] and [login]. *)
Definition publicos : list Manejador :=
  [raiz; ("authController", "registrar"); ("authController", "login")].

Definition protegida (f : list Middleware * Manejador) : bool :=
  bool_decide (f.2 ∈ publicos) || bool_decide (MwToken ∈ f.1).

Lemma firmas_protegidas :
  forallb (fun pr => forallb protegida (firmas pr.2 [])) montajes = true.
Proof. vm_compute. reflexivity. Qed.

Lemma solo_verificarToken :
  forallb (fun pr => forallb (fun mw => bool_decide (mw = MwToken)) (middlewares_de pr.2))
          montajes = true.
Proof. vm_compute. reflexivity. Qed.

(** A request that reaches a handler went through the mounted router's
    route: [GET /], or one of the signatures of a router. *)
Lemma servidor_firma m path mws h :
  servidor m path = (mws, AManejador h) ->
  (h = raiz /\ mws = []) \/
  exists pre r mws' acc', (pre, r) ∈ montajes /\ (mws', h) ∈ firmas r [] /\ mws = acc' ++ mws'.
Proof.
  unfold servidor. destruct (bool_decide (m = GET) && bool_decide (path = [])).
  - intros [= <- <-]. by left.
  - intros Hd. right. exact (despachar_app_firma _ _ _ _ _ _ Hd).
Qed.

Lemma servidor_mws m path mws dest : servidor m path = (mws, dest) -> forall mw, mw ∈ mws -> mw = MwToken.
Proof.
  unfold servidor. destruct (bool_decide (m = GET) && bool_decide (path = [])).
  - intros [= <- _] mw Hin. by apply not_elem_of_nil in Hin.
  - intros Hd mw Hin. destruct (despachar_app_mws _ _ _ _ _ _ Hd mw Hin) as [Ha|(pre & r & Hm & Hr)];
      [by apply not_elem_of_nil in Ha|].
    pose proof solo_verificarToken as Hs. rewrite forallb_forall in Hs.
    specialize (Hs (pre, r) (proj1 (list_elem_of_In _ _) Hm)). simpl in Hs.
    rewrite forallb_forall in Hs. specialize (Hs mw (proj1 (list_elem_of_In _ _) Hr)).
    by apply bool_decide_eq_true in Hs.
Qed.

Section Cadena.
Context `{Cripto}.

Lemma correr_sin_token mws hdr ahora u0 u :
  MwToken ∉ mws -> correr mws hdr ahora u0 = inr u -> u = u0.
Proof.
  revert u0. induction mws as [|[|ps] r IH]; intros u0 Hn Hc; simpl in *.
  - congruence.
  - set_solver.
  - destruct u0 as [s0|]; simpl in Hc; [|done].
    destruct (rol_permitido ps (s_rol s0)); [|done]. apply IH in Hc; [done|set_solver].
Qed.

(** After [verificarToken], [req.usuario] is the token's payload. *)
Lemma correr_token mws hdr ahora u0 u :
  correr mws hdr ahora u0 = inr u -> MwToken ∈ mws ->
  exists s, verificarToken hdr ahora = Sigue s /\ u = Some s.
Proof.
  revert u0. induction mws as [|[|ps] r IH]; intros u0 Hc Hin; simpl in *.
  - set_solver.
  - destruct (verificarToken hdr ahora) as [s|st e] eqn:E; [|done].
    destruct (decide (MwToken ∈ r)) as [Hr|Hr]; [by eapply IH|].
    exists s. split; [done|]. exact (correr_sin_token _ _ _ _ _ Hr Hc).
  - destruct (verificarRol ps u0); [|done]. eapply IH; [exact Hc|set_solver].
Qed.

(** With a valid token, a chain of [verificarToken]s lets the request
    through. *)
Lemma correr_solo_token mws hdr ahora u0 s :
  (forall mw, mw ∈ mws -> mw = MwToken) -> verificarToken hdr ahora = Sigue s ->
  exists u, correr mws hdr ahora u0 = inr u.
Proof.
  revert u0. induction mws as [|mw r IH]; intros u0 Hm Hv; simpl; [eauto|].
  rewrite (Hm mw) by set_solver. rewrite Hv. apply IH; [set_solver|done].
Qed.
End Cadena.

(** ** Authentication and authorization of the API *)

Section Seguridad.
Context `{Cripto}.

(** C30: every handler but [GET /], [POST /api/auth/register] and
    [POST /api/auth/login] runs only after [verificarToken] accepted the
    request's header, and runs with [req.usuario] set to the token's
    payload. *)
Theorem solo_con_token m path hdr ahora h u :
  atender m path hdr ahora = Llega h u -> h ∉ publicos ->
  exists s, verificarToken hdr ahora = Sigue s /\ u = Some s.
Proof.
  unfold atender. destruct (servidor m path) as [mws dest] eqn:Es.
  destruct (correr mws hdr ahora None) as [[st e]|u0] eqn:Ec; [done|].
  destruct dest as [h0|]; [|done]. intros [= <- <-] Hp.
  apply (correr_token mws hdr ahora None); [done|].
  destruct (servidor_firma _ _ _ _ Es) as [[-> _]|(pre & r & mws' & acc' & Hm & Hf & ->)].
  { exfalso. apply Hp. apply list_elem_of_here. }
  pose proof firmas_protegidas as Hs. rewrite forallb_forall in Hs.
  specialize (Hs (pre, r) (proj1 (list_elem_of_In _ _) Hm)). simpl in Hs.
  rewrite forallb_forall in Hs. specialize (Hs _ (proj1 (list_elem_of_In _ _) Hf)).
  unfold protegida in Hs. simpl in Hs.
  apply orb_true_iff in Hs as [Hs|Hs]; apply bool_decide_eq_true in Hs; [done|].
  apply elem_of_app. by right.
Qed.

(** C31: [verificarRol] is defined but mounted on no route: whatever the
    role in a valid token (ADMINISTRADOR, EMPLEADO, or NULL), every
    request the routers hand to a handler reaches it. *)
Theorem rol_nunca_verificado m path hdr ahora s mws h :
  verificarToken hdr ahora = Sigue s -> servidor m path = (mws, AManejador h) ->
  exists u, atender m path hdr ahora = Llega h u.
Proof.
  intros Hv Hs. unfold atender. rewrite Hs.
  destruct (correr_solo_token mws hdr ahora None s (servidor_mws _ _ _ _ Hs) Hv) as [u Hu].
  rewrite Hu. eauto.
Qed.
End Seguridad.

(** A user whose row has no role (the LEFT JOIN gave NULL), and a
    header with its token. *)
Definition sesion_sin_rol : Sesion := mkSesion 3 "Leo" "leo@correo.gt" None.
Definition cabecera_demo : option string :=
  Some (String.append "Bearer " (firmar_demo sesion_sin_rol 1000)).

Lemma solo_con_token_witness :
  exists s, verificarToken cabecera_demo 500 = Sigue s /\ Some sesion_sin_rol = Some s.
Proof.
  apply (solo_con_token DELETE ["api"; "roles"; "5"] cabecera_demo 500
           ("rolesController", "eliminarRol")); [vm_compute; reflexivity|].
  unfold publicos. intros Hin. apply list_elem_of_In in Hin. simpl in Hin.
  destruct Hin as [Hin|[Hin|[Hin|[]]]]; discriminate.
Defined.

Lemma rol_nunca_verificado_witness :
  exists u, atender DELETE ["api"; "empleados"; "2"] cabecera_demo 500 =
            Llega ("empleadosController", "eliminarEmpleado") u.
Proof.
  exact (@rol_nunca_verificado Cripto_demo DELETE ["api"; "empleados"; "2"] cabecera_demo 500 sesion_sin_rol
           [MwToken] ("empleadosController", "eliminarEmpleado")
           ltac:(vm_compute; reflexivity) ltac:(vm_compute; reflexivity)).
Defined.

(** ** Every declared route is reachable *)

(** A request path for a route: each [:param] filled with ["1"]. *)
Definition instancia (p : list Segmento) : list string :=
  map (fun s => match s with Lit w => w | Param _ => "1" end) p.

Definition alcanzable_capa (pre : list string) (c : Capa) : bool :=
  match c with
  | Ruta m p _ h => bool_decide (snd (servidor m (pre ++ instancia p)) = AManejador h)
  | Usar _ => true
  end.

Lemma rutas_alcanzables_tabla :
  forallb (fun pr => forallb (alcanzable_capa pr.1) pr.2) montajes = true.
Proof. vm_compute. reflexivity. Qed.

(** C32: no route of the route files is shadowed by one declared before
    it (['/activos'] before ['/:id'], ['/reporte'] before ['/:id'], ...):
    for every route of every mounted router, a request with its method
    and path reaches its handler. *)
Theorem rutas_alcanzables pre r m p mws h :
  (pre, r) ∈ montajes -> Ruta m p mws h ∈ r ->
  snd (servidor m (pre ++ instancia p)) = AManejador h.
Proof.
  intros Hm Hr. pose proof rutas_alcanzables_tabla as Ht. rewrite forallb_forall in Ht.
  specialize (Ht _ (proj1 (list_elem_of_In _ _) Hm)). rewrite forallb_forall in Ht.
  specialize (Ht _ (proj1 (list_elem_of_In _ _) Hr)). simpl in Ht.
  by apply bool_decide_eq_true in Ht.
Qed.

Lemma rutas_alcanzables_witness :
  snd (servidor GET (["api"; "tickets"] ++ instancia (patron "/activos"))) =
    AManejador ("ticketsController", "listarActivos").
Proof.
  apply (rutas_alcanzables ["api"; "tickets"] tickets_routes GET (patron "/activos") []);
    apply list_elem_of_In; simpl; [do 6 right | do 4 right]; left; reflexivity.
Defined.

(** a path under no mount answers 404 "Ruta no encontrada" without
    any token; a path under a mounted router that no route matches runs
    the router's [verificarToken] first, so without a header it answers
    403 "Token no proporcionado" rather than 404, and with a valid token
    404. *)
Theorem ruta_inexistente :
  atender GET ["api"; "inexistente"] None 0 = Rechazo 404 ERutaNoEncontrada /\
  atender GET ["api"; "tickets"; "1"; "x"] None 0 = Rechazo 403 ETokenNoProporcionado /\
  atender GET ["api"; "tickets"; "1"; "x"] cabecera_demo 500 = Rechazo 404 ERutaNoEncontrada.
Proof. split; [|split]; vm_compute; reflexivity. Qed.
